(** * CRM backend: activity feed, statistics and dashboard of the user service

    A shallow embedding of the user service (package [services]:
    [GetUserStats], [GetRecentActivities], [GetDashboardData] and their
    helpers) and of the model types it reads (package [models]), with the
    properties of the activity aggregation and dashboard composition proved
    over it.

    Conventions of the embedding:
    - Go [int] and [int64] are [Z], with two's complement wrap-around
      written out ([wrap64]); [uint] identifiers are [N];
    - a Go [string] is a byte string: [String.string], one [ascii] per
      byte, so [len] counts bytes as Go's [len] does;
    - [time.Time] is the instant it denotes, in nanoseconds, as [Z], without
      the saturation Go applies at the two ends of its range of seconds;
    - a repository method returning [(T, error)] returns [reply T]; a
      function of the service returns [result T], where a run-time panic
      (nil interface, slice bounds) is the third outcome [Panic];
    - a repository is a record of the methods the service calls on it; a
      nil repository is [None]. *)

From Stdlib Require Import ZArith NArith List String Bool Lia.
From Stdlib Require Import Permutation Sorted.
Import ListNotations.

Local Open Scope string_scope.
Local Open Scope list_scope.
Local Open Scope Z_scope.

(** ** The Go runtime *)

Module Go.

(** [pkg/errors.AppError] *)
Record AppError := {
  Code : Z;
  Message : string;
  Details : string
}.

(** A value of the interface type [error]: an application error or an
    error of the persistence layer. *)
Inductive error :=
| App (e : AppError)
| Other (msg : string).

(** What a repository method of type [(T, error)] hands back: the value
    with a nil error, or a non-nil error. *)
Inductive reply (A : Type) :=
| Reply (a : A)
| Fail (e : error).
Arguments Reply {A} a.
Arguments Fail {A} e.

(** Outcome of a call of the service: the value, the error, or a
    run-time panic. *)
Inductive result (A : Type) :=
| Ok (a : A)
| Err (e : error)
| Panic.
Arguments Ok {A} a.
Arguments Err {A} e.
Arguments Panic {A}.

Definition bind {A B} (r : result A) (k : A -> result B) : result B :=
  match r with
  | Ok a => k a
  | Err e => Err e
  | Panic => Panic
  end.

(** [for _, x := range xs { body }] over a loop state. *)
Fixpoint forEach {A S} (body : S -> A -> result S) (xs : list A) (st : S)
  : result S :=
  match xs with
  | [] => Ok st
  | x :: xs' => bind (body st x) (forEach body xs')
  end.

(** Two's complement wrap-around of a 64-bit signed integer. *)
Definition wrap64 (z : Z) : Z := (z + 2 ^ 63) mod 2 ^ 64 - 2 ^ 63.
Definition add64 (a b : Z) : Z := wrap64 (a + b).
Definition sub64 (a b : Z) : Z := wrap64 (a - b).
Definition mul64 (a b : Z) : Z := wrap64 (a * b).
Definition in_int64 (z : Z) : Prop := - 2 ^ 63 <= z < 2 ^ 63.

(** [len(s)] of a string and of a slice. *)
Definition len (s : string) : Z := Z.of_nat (String.length s).
Definition lenSlice {A} (l : list A) : Z := Z.of_nat (List.length l).

(** The slice expression [s[:n]]: panics unless [0 <= n <= len(s)]. *)
Definition sliceTo (s : string) (n : Z) : result string :=
  if (0 <=? n) && (n <=? len s)
  then Ok (substring 0 (Z.to_nat n) s)
  else Panic.

(** [time.Time], [time.Duration], [Time.Add], [Time.After]. *)
Definition Time := Z.
Definition Minute : Z := 60 * 1000000000.
Definition Add (t : Time) (d : Z) : Time := t + d.
Definition After (t u : Time) : bool := u <? t.

End Go.
Import Go.

Declare Scope go_scope.
Delimit Scope go_scope with go.
Notation "x <- c ;; k" := (Go.bind c (fun x => k))
  (at level 61, c at next level, right associativity) : go_scope.
Local Open Scope go_scope.

(** ** Package [models] *)

Module models.

(** String-typed enumerations stored in the database: the columns hold
    any string, the constants name the expected values. *)
Definition ContactType := string.
Definition ContactTypeClient : ContactType := "CLIENT".
Definition ContactTypeLead : ContactType := "LEAD".

Definition InteractionType := string.

Definition ProjectStatus := string.
Definition ProjectStatusInProgress : ProjectStatus := "IN_PROGRESS".
Definition ProjectStatusCompleted : ProjectStatus := "COMPLETED".
Definition ProjectStatusCancelled : ProjectStatus := "CANCELLED".

Definition Priority := string.

Definition TaskStatus := string.
Definition TaskStatusPending : TaskStatus := "PENDING".
Definition TaskStatusCompleted : TaskStatus := "COMPLETED".

(** [ActivityType] and [ActivityAction]: the service only ever writes
    the declared constants. *)
Inductive ActivityType :=
| ActivityTypeTask
| ActivityTypeProject
| ActivityTypeContact
| ActivityTypeInteraction.

Inductive ActivityAction :=
| ActionCreated
| ActionUpdated
| ActionCompleted
| ActionDeleted
| ActionStarted
| ActionCancelled.

(** The structs keep the columns; the [User] association, the
    soft-delete mark and the reverse association lists ([Contact.Tasks],
    [Project.Tasks], ...) are left out: the service never reads them.
    A field [Type] is written [Type_]. *)
Module Contact.
Record t := {
  ID : N;
  Name : string;
  Email : string;
  Phone : string;
  Company : string;
  Position : string;
  Type_ : ContactType;
  Notes : string;
  UserID : N;
  CreatedAt : Time;
  UpdatedAt : Time
}.
End Contact.

Module Interaction.
Record t := {
  ID : N;
  Type_ : InteractionType;
  Date : Time;
  Subject : string;
  Description : string;
  ContactID : N;
  CreatedAt : Time;
  UpdatedAt : Time;
  Contact : Contact.t
}.
End Interaction.

Module Project.
Record t := {
  ID : N;
  Name : string;
  Description : string;
  Status : ProjectStatus;
  UserID : N;
  ClientID : N;
  CreatedAt : Time;
  UpdatedAt : Time;
  Client : Contact.t
}.
End Project.

Module Task.
Record t := {
  ID : N;
  Title : string;
  Description : string;
  DueDate : option Time;
  Priority : Priority;
  Status : TaskStatus;
  UserID : N;
  ContactID : option N;
  ProjectID : option N;
  CreatedAt : Time;
  UpdatedAt : Time;
  Contact : option Contact.t;
  Project : option Project.t
}.
End Task.

Module ContactListFilter.
Record t := {
  Type_ : ContactType;
  Search : string;
  Limit : Z;
  Offset : Z
}.
End ContactListFilter.

Module InteractionListFilter.
Record t := {
  Type_ : InteractionType;
  DateFrom : option Time;
  DateTo : option Time;
  ContactID : N;
  Limit : Z;
  Offset : Z
}.
End InteractionListFilter.

Module ProjectListFilter.
Record t := {
  Status : ProjectStatus;
  ClientID : option N;
  Limit : Z;
  Offset : Z
}.
End ProjectListFilter.

Module TaskListFilter.
Record t := {
  Status : TaskStatus;
  Priority : Priority;
  ContactID : option N;
  ProjectID : option N;
  DueBefore : option Time;
  DueAfter : option Time;
  Limit : Z;
  Offset : Z
}.
End TaskListFilter.

Module UserActivity.
Record t := {
  ID : N;
  Type_ : ActivityType;
  Action : ActivityAction;
  Title : string;
  Detail : string;
  ItemID : N;
  CreatedAt : Time;
  UpdatedAt : Time;
  RelatedID : option N;
  RelatedName : option string
}.

(** Field assignments [a.Action = v], [a.CreatedAt = v],
    [a.UpdatedAt = v] on a copy of the struct. *)
Definition setAction (a : t) (v : ActivityAction) : t :=
  let '(Build_t i ty _ ti d it c u ri rn) := a in
  Build_t i ty v ti d it c u ri rn.
Definition setCreatedAt (a : t) (v : Time) : t :=
  let '(Build_t i ty ac ti d it _ u ri rn) := a in
  Build_t i ty ac ti d it v u ri rn.
Definition setUpdatedAt (a : t) (v : Time) : t :=
  let '(Build_t i ty ac ti d it c _ ri rn) := a in
  Build_t i ty ac ti d it c v ri rn.
Definition setRelated (a : t) (id : option N) (name : option string) : t :=
  let '(Build_t i ty ac ti d it c u _ _) := a in
  Build_t i ty ac ti d it c u id name.
End UserActivity.

Module RecentActivityResponse.
Record t := {
  Activities : list UserActivity.t;
  Count : Z
}.
End RecentActivityResponse.

End models.
Import models.

(** ** Package [repositories]

    The interfaces, restricted to the methods the user service calls, with
    the signatures of the calls. Each method is a function of its
    arguments: within one request the service never issues the same query
    twice with the same arguments, so every pattern of failing and
    succeeding queries is an instance. *)

Module repositories.

Module ContactRepository.
Record t := {
  GetByUserID : N -> ContactListFilter.t -> reply (list Contact.t);
  CountByUserID : N -> reply Z;
  CountByType : N -> ContactType -> reply Z
}.
End ContactRepository.

Module TaskRepository.
Record t := {
  GetByUserID : N -> TaskListFilter.t -> reply (list Task.t);
  CountByUserID : N -> reply Z;
  CountPendingByUserID : N -> reply Z;
  CountOverdueByUserID : N -> reply Z
}.
End TaskRepository.

Module ProjectRepository.
Record t := {
  GetByUserID : N -> ProjectListFilter.t -> reply (list Project.t);
  CountByUserID : N -> reply Z;
  CountByStatus : N -> ProjectStatus -> reply Z
}.
End ProjectRepository.

Module InteractionRepository.
Record t := {
  GetByUserID : N -> InteractionListFilter.t -> reply (list Interaction.t);
  GetRecentByUserID : N -> Z -> Z -> reply (list Interaction.t)
}.
End InteractionRepository.

End repositories.
Import repositories.

(** ** [sort.Slice]: the contract

    What the standard library documents of [sort.Slice(x, less)]: it
    reorders [x] so that no element is [less] than one before it, provided
    [less] is a transitive ordering, and it "is not guaranteed to be
    stable". The general statements take any sorter under this contract. *)

Record TransitiveOrdering {A} (less : A -> A -> bool) : Prop := {
  less_irrefl : forall x, less x x = false;
  less_trans : forall x y z,
      less x y = true -> less y z = true -> less x z = true;
  less_negtrans : forall x y z,
      less x y = false -> less y z = false -> less x z = false
}.

Definition Sorter := forall A : Type, (A -> A -> bool) -> list A -> list A.

Record SliceContract (sort_Slice : Sorter) : Prop := {
  sort_Slice_perm : forall A (less : A -> A -> bool) (x : list A),
      Permutation x (sort_Slice A less x);
  sort_Slice_sorted : forall A (less : A -> A -> bool) (x : list A),
      TransitiveOrdering less ->
      StronglySorted (fun a b => less b a = false) (sort_Slice A less x)
}.

(** A stable insertion sort on lists: each element goes behind the
    elements that are [less] than it and in front of all others, so equal
    elements keep their order. It meets the contract and instantiates the
    statements below. The run of [sort.Slice] itself is modelled in
    [sort]; on slices of at most twelve elements it returns this list
    ([sort_Slice_short]), on longer ones it need not. *)
Fixpoint insertLess {A} (less : A -> A -> bool) (a : A) (x : list A) : list A :=
  match x with
  | [] => [a]
  | b :: x' => if less b a then b :: insertLess less a x' else a :: b :: x'
  end.

Fixpoint insertionSort (A : Type) (less : A -> A -> bool) (x : list A)
  : list A :=
  match x with
  | [] => []
  | a :: x' => insertLess less a (insertionSort A less x')
  end.

(** ** Package [sort]: the run of [sort.Slice]

    The pattern-defeating quicksort of the standard library (Go 1.19 and
    later), for the slices it sorts without its fallbacks: fewer than 50
    elements and no unbalanced partition. A run outside this fragment is
    [None]. Positions are [nat]. *)
Module sort.

Local Open Scope nat_scope.

(** [sortedHint], what [choosePivot_func] reports about the slice. *)
Inductive sortedHint := unknownHint | increasingHint | decreasingHint.

Section Pdqsort.

(** [lessSwap]: the slice [data], the caller's comparison [less] of two
    elements, and [zero], what a read outside the slice would give (the
    functions below never read there). *)
Context {A : Type}.
Variable less : A -> A -> bool.
Variable zero : A.

(** [data[i]] and [data[i] = x]. *)
Definition index (data : list A) (i : nat) : A := nth i data zero.

Fixpoint store (data : list A) (i : nat) (x : A) : list A :=
  match data, i with
  | [], _ => []
  | _ :: data', O => x :: data'
  | y :: data', S i' => y :: store data' i' x
  end.

(** [data.Less(i, j)] compares the elements now at [i] and [j];
    [data.Swap(i, j)] exchanges them. *)
Definition Less (data : list A) (i j : nat) : bool :=
  less (index data i) (index data j).

Definition Swap (data : list A) (i j : nat) : list A :=
  store (store data i (index data j)) j (index data i).

(** [insertionSort_func] "sorts data[a:b] using insertion sort":
    [for i := a + 1; i < b; i++] and inside it
    [for j := i; j > a && data.Less(j, j-1); j-- { data.Swap(j, j-1) }]. *)
Fixpoint insertionShift (data : list A) (a j : nat) : list A :=
  match j with
  | O => data
  | S j' =>
      if (a <? j)%nat && Less data j j'
      then insertionShift (Swap data j j') a j'
      else data
  end.

Fixpoint insertionLoop (steps : nat) (data : list A) (a b i : nat) : list A :=
  match steps with
  | O => data
  | S steps' =>
      if (i <? b)%nat
      then insertionLoop steps' (insertionShift data a i) a b (S i)
      else data
  end.

Definition insertionSort_func (data : list A) (a b : nat) : list A :=
  insertionLoop (b - a) data a b (a + 1).

(** [order2_func], [median_func]: the median of three positions, counting
    the exchanges in [swaps]. *)
Definition order2_func (data : list A) (a b swaps : nat) : nat * nat * nat :=
  if Less data b a then (b, a, S swaps) else (a, b, swaps).

Definition median_func (data : list A) (a b c swaps : nat) : nat * nat :=
  let '(a, b, swaps) := order2_func data a b swaps in
  let '(b, c, swaps) := order2_func data b c swaps in
  let '(a, b, swaps) := order2_func data a b swaps in
  (b, swaps).

(** [choosePivot_func]: a static pivot below 8 elements, the median of
    three below [shortestNinther = 50]; the Tukey ninther of longer slices
    is left out ([None]). [maxSwaps = 4 * 3]. *)
Definition choosePivot_func (data : list A) (a b : nat)
  : option (nat * sortedHint) :=
  let l := (b - a)%nat in
  let swaps := O in
  let i := (a + l / 4 * 1)%nat in
  let j := (a + l / 4 * 2)%nat in
  let k := (a + l / 4 * 3)%nat in
  if (50 <=? l)%nat then None
  else
    let '(j, swaps) :=
      if (8 <=? l)%nat then median_func data i j k swaps else (j, swaps) in
    Some (j, match swaps with
             | O => increasingHint
             | 12%nat => decreasingHint
             | _ => unknownHint
             end).

(** [partialInsertionSort_func]: [for i < b && !data.Less(i, i-1) { i++ }],
    then [true] at [i == b] and [false] below [shortestShifting = 50]
    elements; the shifting of longer slices is left out ([None]). *)
Fixpoint ascendingRun (steps : nat) (data : list A) (b i : nat) : nat :=
  match steps with
  | O => i
  | S steps' =>
      if (i <? b)%nat && negb (Less data i (i - 1))
      then ascendingRun steps' data b (S i)
      else i
  end.

Definition partialInsertionSort_func (data : list A) (a b : nat)
  : option bool :=
  let i := ascendingRun (b - a) data b (a + 1) in
  if (i =? b)%nat then Some true
  else if (b - a <? 50)%nat then Some false
  else None.

(** [partition_func] "does one quicksort partition" around [data[pivot]],
    which it first moves to [a]. Its loops:
    [for i <= j && data.Less(i, a) { i++ }] and
    [for i <= j && !data.Less(j, a) { j-- }]. *)
Fixpoint skipLess (steps : nat) (data : list A) (a i j : nat) : nat :=
  match steps with
  | O => i
  | S steps' =>
      if (i <=? j)%nat && Less data i a
      then skipLess steps' data a (S i) j
      else i
  end.

Fixpoint skipNotLess (data : list A) (a i j : nat) : nat :=
  match j with
  | O => j
  | S j' =>
      if (i <=? j)%nat && negb (Less data j a)
      then skipNotLess data a i j'
      else j
  end.

Fixpoint partitionLoop (steps : nat) (data : list A) (a i j : nat)
  : list A * nat :=
  match steps with
  | O => (data, j)
  | S steps' =>
      let i := skipLess (S j - i) data a i j in
      let j := skipNotLess data a i j in
      if (j <? i)%nat then (data, j)
      else partitionLoop steps' (Swap data i j) a (S i) (j - 1)
  end.

Definition partition_func (data : list A) (a b pivot : nat)
  : list A * nat * bool :=
  let data := Swap data a pivot in
  let i := (a + 1)%nat in
  let j := (b - 1)%nat in
  let i := skipLess (S j - i) data a i j in
  let j := skipNotLess data a i j in
  if (j <? i)%nat then (Swap data j a, j, true)
  else
    let data := Swap data i j in
    let '(data, j) := partitionLoop (b - a) data a (S i) (j - 1) in
    (Swap data j a, j, false).

(** [partitionEqual_func] "partitions data[a:b] into elements equal to
    data[pivot] followed by elements greater than data[pivot]". *)
Fixpoint skipNotGreater (steps : nat) (data : list A) (a i j : nat) : nat :=
  match steps with
  | O => i
  | S steps' =>
      if (i <=? j)%nat && negb (Less data a i)
      then skipNotGreater steps' data a (S i) j
      else i
  end.

Fixpoint skipGreater (data : list A) (a i j : nat) : nat :=
  match j with
  | O => j
  | S j' =>
      if (i <=? j)%nat && Less data a j
      then skipGreater data a i j'
      else j
  end.

Fixpoint partitionEqualLoop (steps : nat) (data : list A) (a i j : nat)
  : list A * nat :=
  match steps with
  | O => (data, i)
  | S steps' =>
      let i := skipNotGreater (S j - i) data a i j in
      let j := skipGreater data a i j in
      if (j <? i)%nat then (data, i)
      else partitionEqualLoop steps' (Swap data i j) a (S i) (j - 1)
  end.

Definition partitionEqual_func (data : list A) (a b pivot : nat)
  : list A * nat :=
  let data := Swap data a pivot in
  partitionEqualLoop (S (b - a)) data a (a + 1) (b - 1).

(** [pdqsort_func] "sorts data[a:b]"; [fuel] bounds the turns of its loop
    and the depth of its calls. [maxInsertion = 12]. The fallback to
    [heapSort_func] at [limit == 0], [breakPatterns_func] after an
    unbalanced partition and [reverseRange_func] on [decreasingHint] are
    left out ([None]). *)
Fixpoint pdqsort_func (fuel : nat) (data : list A) (a b limit : nat)
  (wasBalanced wasPartitioned : bool) : option (list A) :=
  match fuel with
  | O => None
  | S fuel' =>
      let length := (b - a)%nat in
      if (length <=? 12)%nat then Some (insertionSort_func data a b)
      else if (limit =? 0)%nat then None
      else if negb wasBalanced then None
      else
        match choosePivot_func data a b with
        | None => None
        | Some (_, decreasingHint) => None
        | Some (pivot, hint) =>
            let likelySorted :=
              match hint with increasingHint => wasBalanced && wasPartitioned
                            | _ => false end in
            match (if likelySorted then partialInsertionSort_func data a b
                   else Some false) with
            | None => None
            | Some true => Some data
            | Some false =>
                if (0 <? a)%nat && negb (Less data (a - 1) pivot) then
                  let '(data, mid) := partitionEqual_func data a b pivot in
                  pdqsort_func fuel' data mid b limit wasBalanced wasPartitioned
                else
                  let '(data, mid, alreadyPartitioned) :=
                    partition_func data a b pivot in
                  let wasPartitioned := alreadyPartitioned in
                  let leftLen := (mid - a)%nat in
                  let rightLen := (b - mid)%nat in
                  let balanceThreshold := (length / 8)%nat in
                  if (leftLen <? rightLen)%nat then
                    let wasBalanced := (balanceThreshold <=? leftLen)%nat in
                    match pdqsort_func fuel' data a mid limit true true with
                    | None => None
                    | Some data =>
                        pdqsort_func fuel' data (mid + 1) b limit
                          wasBalanced wasPartitioned
                    end
                  else
                    let wasBalanced := (balanceThreshold <=? rightLen)%nat in
                    match pdqsort_func fuel' data (mid + 1) b limit true true with
                    | None => None
                    | Some data =>
                        pdqsort_func fuel' data a mid limit
                          wasBalanced wasPartitioned
                    end
            end
        end
  end.

End Pdqsort.

(** [Slice]: "pdqsort_func(lessSwap{less, swap}, 0, length, limit)" with
    [limit := bits.Len(uint(length))]. *)
Definition Slice {A : Type} (less : A -> A -> bool) (x : list A)
  : option (list A) :=
  match x with
  | [] => Some []
  | zero :: _ =>
      let length := List.length x in
      let limit := N.to_nat (N.size (N.of_nat length)) in
      pdqsort_func less zero (S length) x 0 length limit true true
  end.

End sort.

(** [insertionSort_func] in terms of lists. [shiftLeft] is its inner loop
    on the prefix already sorted, given last element first: [y] passes the
    elements it is [less] than. [insertBehind] is the same insertion on
    the prefix in its own order, when it is sorted. *)
Fixpoint shiftLeft {A} (less : A -> A -> bool) (y : A) (q : list A) : list A :=
  match q with
  | [] => [y]
  | p :: q' => if less y p then p :: shiftLeft less y q' else y :: q
  end.

Fixpoint insertBehind {A} (less : A -> A -> bool) (y : A) (s : list A)
  : list A :=
  match s with
  | [] => [y]
  | p :: s' => if less y p then y :: s else p :: insertBehind less y s'
  end.

(** ** Helpers of the user service *)

(** [truncateString], "Helper para truncar strings longas". *)
Definition truncateString (s : string) (maxLength : Z) : result string :=
  if len s <=? maxLength then Ok s
  else
    head <- sliceTo s (sub64 maxLength 3) ;;
    Ok (head ++ "...")%string.

(** [sortActivitiesByDate], "Helper para ordenar atividades por data (mais
    recentes primeiro)": [sort.Slice] with
    [activities[i].CreatedAt.After(activities[j].CreatedAt)]. *)
Definition lessByDate (a b : UserActivity.t) : bool :=
  After (UserActivity.CreatedAt a) (UserActivity.CreatedAt b).

Definition sortActivitiesByDate (sort_Slice : Sorter)
  (activities : list UserActivity.t) : list UserActivity.t :=
  sort_Slice _ lessByDate activities.

(** [createActivityFromInteraction] *)
Definition createActivityFromInteraction (interaction : Interaction.t)
  : result UserActivity.t :=
  let title := Interaction.Subject interaction in
  let title := if String.eqb title "" then "Interação sem assunto" else title in
  let contactID := Interaction.ContactID interaction in
  detail <- truncateString (Interaction.Description interaction) 100 ;;
  let activity := {|
    UserActivity.ID := Interaction.ID interaction;
    UserActivity.Type_ := ActivityTypeInteraction;
    UserActivity.Action := ActionCreated;
    UserActivity.Title := title;
    UserActivity.Detail := detail;
    UserActivity.ItemID := Interaction.ID interaction;
    UserActivity.CreatedAt := Interaction.CreatedAt interaction;
    UserActivity.UpdatedAt := Interaction.UpdatedAt interaction;
    UserActivity.RelatedID := Some contactID;
    UserActivity.RelatedName := None |} in
  let name := Contact.Name (Interaction.Contact interaction) in
  if negb (String.eqb name "")
  then Ok (UserActivity.setRelated activity (Some contactID) (Some name))
  else Ok activity.

(** [task.ContactID != nil && task.Contact != nil && task.Contact.Name != ""]
    and the same test on the project side. *)
Definition namedContact (task : Task.t) : option (N * string) :=
  match Task.ContactID task, Task.Contact task with
  | Some id, Some c =>
      if negb (String.eqb (Contact.Name c) "") then Some (id, Contact.Name c)
      else None
  | _, _ => None
  end.

Definition namedProject (task : Task.t) : option (N * string) :=
  match Task.ProjectID task, Task.Project task with
  | Some id, Some p =>
      if negb (String.eqb (Project.Name p) "") then Some (id, Project.Name p)
      else None
  | _, _ => None
  end.

(** [createActivityFromTask] *)
Definition createActivityFromTask (task : Task.t) : result UserActivity.t :=
  let action :=
    if String.eqb (Task.Status task) TaskStatusCompleted
    then ActionCompleted else ActionCreated in
  let title := Task.Title task in
  let title := if String.eqb title "" then "Tarefa sem título" else title in
  detail <- truncateString (Task.Description task) 100 ;;
  let activity := {|
    UserActivity.ID := Task.ID task;
    UserActivity.Type_ := ActivityTypeTask;
    UserActivity.Action := action;
    UserActivity.Title := title;
    UserActivity.Detail := detail;
    UserActivity.ItemID := Task.ID task;
    UserActivity.CreatedAt := Task.CreatedAt task;
    UserActivity.UpdatedAt := Task.UpdatedAt task;
    UserActivity.RelatedID := None;
    UserActivity.RelatedName := None |} in
  match namedContact task with
  | Some (id, name) => Ok (UserActivity.setRelated activity (Some id) (Some name))
  | None =>
      match namedProject task with
      | Some (id, name) =>
          Ok (UserActivity.setRelated activity (Some id) (Some name))
      | None => Ok activity
      end
  end.

(** [createActivityFromProject] *)
Definition createActivityFromProject (project : Project.t)
  : result UserActivity.t :=
  let status := Project.Status project in
  let action :=
    if String.eqb status ProjectStatusInProgress then ActionStarted
    else if String.eqb status ProjectStatusCompleted then ActionCompleted
    else if String.eqb status ProjectStatusCancelled then ActionCancelled
    else ActionCreated in
  let title := Project.Name project in
  let title := if String.eqb title "" then "Projeto sem nome" else title in
  detail <- truncateString (Project.Description project) 100 ;;
  let activity := {|
    UserActivity.ID := Project.ID project;
    UserActivity.Type_ := ActivityTypeProject;
    UserActivity.Action := action;
    UserActivity.Title := title;
    UserActivity.Detail := detail;
    UserActivity.ItemID := Project.ID project;
    UserActivity.CreatedAt := Project.CreatedAt project;
    UserActivity.UpdatedAt := Project.UpdatedAt project;
    UserActivity.RelatedID := None;
    UserActivity.RelatedName := None |} in
  let clientName := Contact.Name (Project.Client project) in
  if negb (N.eqb (Project.ClientID project) 0) && negb (String.eqb clientName "")
  then Ok (UserActivity.setRelated activity
             (Some (Project.ClientID project)) (Some clientName))
  else Ok activity.

(** [createActivityFromContact] *)
Definition createActivityFromContact (contact : Contact.t)
  : result UserActivity.t :=
  let title := Contact.Name contact in
  let title := if String.eqb title "" then "Contato sem nome" else title in
  detail <- truncateString (Contact.Notes contact) 100 ;;
  Ok {|
    UserActivity.ID := Contact.ID contact;
    UserActivity.Type_ := ActivityTypeContact;
    UserActivity.Action := ActionCreated;
    UserActivity.Title := title;
    UserActivity.Detail := detail;
    UserActivity.ItemID := Contact.ID contact;
    UserActivity.CreatedAt := Contact.CreatedAt contact;
    UserActivity.UpdatedAt := Contact.UpdatedAt contact;
    UserActivity.RelatedID := None;
    UserActivity.RelatedName := None |}.

(** ** The user service: types *)

Module UserStats.
Record t := {
  TotalContacts : Z;
  TotalClients : Z;
  TotalLeads : Z;
  TotalTasks : Z;
  PendingTasks : Z;
  CompletedTasks : Z;
  OverdueTasks : Z;
  TotalProjects : Z;
  ActiveProjects : Z;
  CompletedProjects : Z;
  TotalInteractions : Z;
  RecentInteractions : Z
}.

(** [&UserStats{RecentInteractions: 0, OverdueTasks: 0}] *)
Definition zero : t := Build_t 0 0 0 0 0 0 0 0 0 0 0 0.

(** Field assignments [stats.F = v]. *)
Definition setTotalContacts (st : t) (v : Z) : t :=
  let '(Build_t _ b c d e f g h i j k l) := st in Build_t v b c d e f g h i j k l.
Definition setTotalClients (st : t) (v : Z) : t :=
  let '(Build_t a _ c d e f g h i j k l) := st in Build_t a v c d e f g h i j k l.
Definition setTotalLeads (st : t) (v : Z) : t :=
  let '(Build_t a b _ d e f g h i j k l) := st in Build_t a b v d e f g h i j k l.
Definition setTotalTasks (st : t) (v : Z) : t :=
  let '(Build_t a b c _ e f g h i j k l) := st in Build_t a b c v e f g h i j k l.
Definition setPendingTasks (st : t) (v : Z) : t :=
  let '(Build_t a b c d _ f g h i j k l) := st in Build_t a b c d v f g h i j k l.
Definition setCompletedTasks (st : t) (v : Z) : t :=
  let '(Build_t a b c d e _ g h i j k l) := st in Build_t a b c d e v g h i j k l.
Definition setOverdueTasks (st : t) (v : Z) : t :=
  let '(Build_t a b c d e f _ h i j k l) := st in Build_t a b c d e f v h i j k l.
Definition setTotalProjects (st : t) (v : Z) : t :=
  let '(Build_t a b c d e f g _ i j k l) := st in Build_t a b c d e f g v i j k l.
Definition setActiveProjects (st : t) (v : Z) : t :=
  let '(Build_t a b c d e f g h _ j k l) := st in Build_t a b c d e f g h v j k l.
Definition setCompletedProjects (st : t) (v : Z) : t :=
  let '(Build_t a b c d e f g h i _ k l) := st in Build_t a b c d e f g h i v k l.
Definition setTotalInteractions (st : t) (v : Z) : t :=
  let '(Build_t a b c d e f g h i j _ l) := st in Build_t a b c d e f g h i j v l.
Definition setRecentInteractions (st : t) (v : Z) : t :=
  let '(Build_t a b c d e f g h i j k _) := st in Build_t a b c d e f g h i j k v.
End UserStats.

Module DashboardProject.
Record t := {
  ID : N;
  Name : string;
  Status : ProjectStatus;
  ClientName : string;
  CreatedAt : Time
}.
End DashboardProject.

Module DashboardInteraction.
Record t := {
  ID : N;
  Type_ : InteractionType;
  Subject : string;
  ContactName : string;
  Date : Time
}.
End DashboardInteraction.

Module DashboardTask.
Record t := {
  ID : N;
  Title : string;
  Priority : Priority;
  DueDate : option Time;
  ContactName : string;
  ProjectName : string
}.
End DashboardTask.

Module DashboardContact.
Record t := {
  ID : N;
  Name : string;
  Email : string;
  Type_ : ContactType;
  Company : string;
  CreatedAt : Time
}.
End DashboardContact.

Module DashboardData.
Record t := {
  Stats : UserStats.t;
  RecentActivities : list UserActivity.t;
  RecentProjects : list DashboardProject.t;
  RecentInteractions : list DashboardInteraction.t;
  RecentPendingTasks : list DashboardTask.t;
  RecentContacts : list DashboardContact.t
}.
End DashboardData.

(** [userService]; the [userRepo] field serves the profile operations
    only and is left out. *)
Record userService := {
  contactRepo : option ContactRepository.t;
  taskRepo : option TaskRepository.t;
  projectRepo : option ProjectRepository.t;
  interactionRepo : option InteractionRepository.t
}.

(** [errors.ErrInternalServer] *)
Definition ErrInternalServer : error :=
  App {| Code := 500; Message := "Erro interno do servidor"; Details := "" |}.

(** [v, err := call; if err != nil { return nil, errors.ErrInternalServer }] *)
Definition orInternal {A} (r : reply A) : result A :=
  match r with
  | Reply a => Ok a
  | Fail _ => Err ErrInternalServer
  end.

(** A method call through an interface value: nil panics. *)
Definition deref {R} (repo : option R) : result R :=
  match repo with
  | Some r => Ok r
  | None => Panic
  end.

(** ** [GetUserStats] *)

Definition contactStats (s : userService) (userID : N) (stats : UserStats.t)
  : result UserStats.t :=
  match contactRepo s with
  | None => Ok stats
  | Some repo =>
      totalContacts <- orInternal (ContactRepository.CountByUserID repo userID) ;;
      let stats := UserStats.setTotalContacts stats totalContacts in
      clients <- orInternal
        (ContactRepository.CountByType repo userID ContactTypeClient) ;;
      let stats := UserStats.setTotalClients stats clients in
      leads <- orInternal
        (ContactRepository.CountByType repo userID ContactTypeLead) ;;
      Ok (UserStats.setTotalLeads stats leads)
  end.

Definition taskStats (s : userService) (userID : N) (stats : UserStats.t)
  : result UserStats.t :=
  match taskRepo s with
  | None => Ok stats
  | Some repo =>
      totalTasks <- orInternal (TaskRepository.CountByUserID repo userID) ;;
      let stats := UserStats.setTotalTasks stats totalTasks in
      pendingTasks <- orInternal
        (TaskRepository.CountPendingByUserID repo userID) ;;
      let stats := UserStats.setPendingTasks stats pendingTasks in
      let stats :=
        UserStats.setCompletedTasks stats (sub64 totalTasks pendingTasks) in
      match TaskRepository.CountOverdueByUserID repo userID with
      | Reply overdueTasks => Ok (UserStats.setOverdueTasks stats overdueTasks)
      | Fail _ => Ok (UserStats.setOverdueTasks stats 0)
      end
  end.

Definition projectStats (s : userService) (userID : N) (stats : UserStats.t)
  : result UserStats.t :=
  match projectRepo s with
  | None => Ok stats
  | Some repo =>
      totalProjects <- orInternal (ProjectRepository.CountByUserID repo userID) ;;
      let stats := UserStats.setTotalProjects stats totalProjects in
      activeProjects <- orInternal
        (ProjectRepository.CountByStatus repo userID ProjectStatusInProgress) ;;
      let stats := UserStats.setActiveProjects stats activeProjects in
      completedProjects <- orInternal
        (ProjectRepository.CountByStatus repo userID ProjectStatusCompleted) ;;
      Ok (UserStats.setCompletedProjects stats completedProjects)
  end.

(** [&models.InteractionListFilter{}] with the fields given. *)
Definition interactionFilter (limit : Z) : InteractionListFilter.t := {|
  InteractionListFilter.Type_ := "";
  InteractionListFilter.DateFrom := None;
  InteractionListFilter.DateTo := None;
  InteractionListFilter.ContactID := 0%N;
  InteractionListFilter.Limit := limit;
  InteractionListFilter.Offset := 0 |}.

Definition interactionStats (s : userService) (userID : N) (stats : UserStats.t)
  : result UserStats.t :=
  match interactionRepo s with
  | None => Ok stats
  | Some repo =>
      let filter := interactionFilter 0 in
      interactions <- orInternal
        (InteractionRepository.GetByUserID repo userID filter) ;;
      let stats := UserStats.setTotalInteractions stats (lenSlice interactions) in
      match InteractionRepository.GetRecentByUserID repo userID 7 100 with
      | Reply recentInteractions =>
          Ok (UserStats.setRecentInteractions stats (lenSlice recentInteractions))
      | Fail _ => Ok (UserStats.setRecentInteractions stats 0)
      end
  end.

Definition GetUserStats (s : userService) (userID : N) : result UserStats.t :=
  let stats := UserStats.zero in
  stats <- contactStats s userID stats ;;
  stats <- taskStats s userID stats ;;
  stats <- projectStats s userID stats ;;
  stats <- interactionStats s userID stats ;;
  Ok stats.

(** ** [GetRecentActivities] *)

(** The derived event [updateActivity := createActivity] with its action
    and both timestamps reassigned. *)
Definition derived (createActivity : UserActivity.t) (action : ActivityAction)
  (at_ : Time) : UserActivity.t :=
  let updateActivity := createActivity in
  let updateActivity := UserActivity.setAction updateActivity action in
  let updateActivity := UserActivity.setCreatedAt updateActivity at_ in
  UserActivity.setUpdatedAt updateActivity at_.

(** Body of [for _, interaction := range interactions]. *)
Definition interactionActivities (activities : list UserActivity.t)
  (interaction : Interaction.t) : result (list UserActivity.t) :=
  createActivity <- createActivityFromInteraction interaction ;;
  let activities := activities ++ [createActivity] in
  if After (Interaction.UpdatedAt interaction)
           (Add (Interaction.CreatedAt interaction) Minute)
  then
    Ok (activities ++
        [derived createActivity ActionUpdated (Interaction.UpdatedAt interaction)])
  else Ok activities.

(** Body of [for _, task := range tasks]. *)
Definition taskActivities (activities : list UserActivity.t) (task : Task.t)
  : result (list UserActivity.t) :=
  createActivity <- createActivityFromTask task ;;
  let createActivity := UserActivity.setAction createActivity ActionCreated in
  let activities := activities ++ [createActivity] in
  let activities :=
    if After (Task.UpdatedAt task) (Add (Task.CreatedAt task) Minute)
    then activities ++
         [derived createActivity ActionUpdated (Task.UpdatedAt task)]
    else activities in
  let activities :=
    if String.eqb (Task.Status task) TaskStatusCompleted
    then activities ++
         [derived createActivity ActionCompleted (Task.UpdatedAt task)]
    else activities in
  Ok activities.

(** Body of [for _, project := range projects]. *)
Definition projectActivities (activities : list UserActivity.t)
  (project : Project.t) : result (list UserActivity.t) :=
  createActivity <- createActivityFromProject project ;;
  let createActivity := UserActivity.setAction createActivity ActionCreated in
  let activities := activities ++ [createActivity] in
  if After (Project.UpdatedAt project) (Add (Project.CreatedAt project) Minute)
  then
    let status := Project.Status project in
    let action :=
      if String.eqb status ProjectStatusInProgress then ActionStarted
      else if String.eqb status ProjectStatusCompleted then ActionCompleted
      else if String.eqb status ProjectStatusCancelled then ActionCancelled
      else ActionUpdated in
    Ok (activities ++ [derived createActivity action (Project.UpdatedAt project)])
  else Ok activities.

(** Body of [for _, contact := range contacts]. *)
Definition contactActivities (activities : list UserActivity.t)
  (contact : Contact.t) : result (list UserActivity.t) :=
  createActivity <- createActivityFromContact contact ;;
  let activities := activities ++ [createActivity] in
  if After (Contact.UpdatedAt contact) (Add (Contact.CreatedAt contact) Minute)
  then
    Ok (activities ++
        [derived createActivity ActionUpdated (Contact.UpdatedAt contact)])
  else Ok activities.

Definition taskFilter (status : TaskStatus) (limit : Z) : TaskListFilter.t := {|
  TaskListFilter.Status := status;
  TaskListFilter.Priority := "";
  TaskListFilter.ContactID := None;
  TaskListFilter.ProjectID := None;
  TaskListFilter.DueBefore := None;
  TaskListFilter.DueAfter := None;
  TaskListFilter.Limit := limit;
  TaskListFilter.Offset := 0 |}.

Definition projectFilter (status : ProjectStatus) (limit : Z)
  : ProjectListFilter.t := {|
  ProjectListFilter.Status := status;
  ProjectListFilter.ClientID := None;
  ProjectListFilter.Limit := limit;
  ProjectListFilter.Offset := 0 |}.

Definition contactFilter (limit : Z) : ContactListFilter.t := {|
  ContactListFilter.Type_ := "";
  ContactListFilter.Search := "";
  ContactListFilter.Limit := limit;
  ContactListFilter.Offset := 0 |}.

(** [if limit <= 0 { limit = 20 }] *)
Definition effectiveLimit (limit : Z) : Z :=
  if limit <=? 0 then 20 else limit.

(** [if len(activities) > limit { activities = activities[:limit] }] *)
Definition capTo (limit : Z) (activities : list UserActivity.t)
  : list UserActivity.t :=
  if lenSlice activities >? limit
  then firstn (Z.to_nat limit) activities
  else activities.

Definition GetRecentActivities (sort_Slice : Sorter) (s : userService)
  (userID : N) (limit : Z) : result RecentActivityResponse.t :=
  let limit := effectiveLimit limit in
  let activities := [] in
  (* 1. interactions *)
  repo <- deref (interactionRepo s) ;;
  interactions <- orInternal
    (InteractionRepository.GetRecentByUserID repo userID 30 (mul64 limit 2)) ;;
  activities <- forEach interactionActivities interactions activities ;;
  (* 2. tasks *)
  repo <- deref (taskRepo s) ;;
  tasks <- orInternal
    (TaskRepository.GetByUserID repo userID (taskFilter "" (mul64 limit 2))) ;;
  activities <- forEach taskActivities tasks activities ;;
  (* 3. projects *)
  repo <- deref (projectRepo s) ;;
  projects <- orInternal
    (ProjectRepository.GetByUserID repo userID
       (projectFilter "" (mul64 limit 2))) ;;
  activities <- forEach projectActivities projects activities ;;
  (* 4. contacts *)
  repo <- deref (contactRepo s) ;;
  contacts <- orInternal
    (ContactRepository.GetByUserID repo userID (contactFilter (mul64 limit 2))) ;;
  activities <- forEach contactActivities contacts activities ;;
  let activities := sortActivitiesByDate sort_Slice activities in
  let activities := capTo limit activities in
  Ok {| RecentActivityResponse.Activities := activities;
        RecentActivityResponse.Count := lenSlice activities |}.

(** ** [GetDashboardData] *)

Definition toDashboardInteraction (interaction : Interaction.t)
  : DashboardInteraction.t := {|
  DashboardInteraction.ID := Interaction.ID interaction;
  DashboardInteraction.Type_ := Interaction.Type_ interaction;
  DashboardInteraction.Subject := Interaction.Subject interaction;
  DashboardInteraction.ContactName := Contact.Name (Interaction.Contact interaction);
  DashboardInteraction.Date := Interaction.Date interaction |}.

Definition toDashboardProject (project : Project.t) : DashboardProject.t := {|
  DashboardProject.ID := Project.ID project;
  DashboardProject.Name := Project.Name project;
  DashboardProject.Status := Project.Status project;
  DashboardProject.ClientName := Contact.Name (Project.Client project);
  DashboardProject.CreatedAt := Project.CreatedAt project |}.

Definition toDashboardTask (task : Task.t) : DashboardTask.t := {|
  DashboardTask.ID := Task.ID task;
  DashboardTask.Title := Task.Title task;
  DashboardTask.Priority := Task.Priority task;
  DashboardTask.DueDate := Task.DueDate task;
  DashboardTask.ContactName :=
    match Task.Contact task with Some c => Contact.Name c | None => "" end;
  DashboardTask.ProjectName :=
    match Task.Project task with Some p => Project.Name p | None => "" end |}.

Definition toDashboardContact (contact : Contact.t) : DashboardContact.t := {|
  DashboardContact.ID := Contact.ID contact;
  DashboardContact.Name := Contact.Name contact;
  DashboardContact.Email := Contact.Email contact;
  DashboardContact.Type_ := Contact.Type_ contact;
  DashboardContact.Company := Contact.Company contact;
  DashboardContact.CreatedAt := Contact.CreatedAt contact |}.

(** A "recent items" panel: [if repo != nil { rows, err := query;
    if err == nil { for ... append } }] onto an empty list. *)
Definition panel {R A B} (repo : option R) (query : R -> reply (list A))
  (project : A -> B) : list B :=
  match repo with
  | None => []
  | Some r =>
      match query r with
      | Reply rows => [] ++ map project rows
      | Fail _ => []
      end
  end.

Definition GetDashboardData (sort_Slice : Sorter) (s : userService)
  (userID : N) : result DashboardData.t :=
  stats <- GetUserStats s userID ;;
  recentActivitiesResponse <- GetRecentActivities sort_Slice s userID 10 ;;
  let recentInteractions := panel (interactionRepo s)
    (fun r => InteractionRepository.GetByUserID r userID (interactionFilter 5))
    toDashboardInteraction in
  let recentProjects := panel (projectRepo s)
    (fun r => ProjectRepository.GetByUserID r userID
                (projectFilter "IN_PROGRESS" 5))
    toDashboardProject in
  let recentPendingTasks := panel (taskRepo s)
    (fun r => TaskRepository.GetByUserID r userID
                (taskFilter TaskStatusPending 5))
    toDashboardTask in
  let recentContacts := panel (contactRepo s)
    (fun r => ContactRepository.GetByUserID r userID (contactFilter 5))
    toDashboardContact in
  Ok {| DashboardData.Stats := stats;
        DashboardData.RecentActivities :=
          RecentActivityResponse.Activities recentActivitiesResponse;
        DashboardData.RecentProjects := recentProjects;
        DashboardData.RecentInteractions := recentInteractions;
        DashboardData.RecentPendingTasks := recentPendingTasks;
        DashboardData.RecentContacts := recentContacts |}.

(** ** Sample records, repositories and services *)

Module Sample.

Definition day : Z := 86400 * 1000000000.

Definition dbDown : error := Other "connection refused".

Definition noContacts : ContactRepository.t := {|
  ContactRepository.GetByUserID := fun _ _ => Reply [];
  ContactRepository.CountByUserID := fun _ => Reply 0;
  ContactRepository.CountByType := fun _ _ => Reply 0 |}.

Definition contactsDown : ContactRepository.t := {|
  ContactRepository.GetByUserID := fun _ _ => Fail dbDown;
  ContactRepository.CountByUserID := fun _ => Fail dbDown;
  ContactRepository.CountByType := fun _ _ => Fail dbDown |}.

(** The contact source answers every query except the dashboard's
    "recent contacts" listing ([Limit: 5]). *)
Definition recentContactsDown : ContactRepository.t := {|
  ContactRepository.GetByUserID := fun _ f =>
    if ContactListFilter.Limit f =? 5 then Fail dbDown else Reply [];
  ContactRepository.CountByUserID := fun _ => Reply 0;
  ContactRepository.CountByType := fun _ _ => Reply 0 |}.

Definition tasksOf (tasks : list Task.t) : TaskRepository.t := {|
  TaskRepository.GetByUserID := fun _ _ => Reply tasks;
  TaskRepository.CountByUserID := fun _ => Reply (lenSlice tasks);
  TaskRepository.CountPendingByUserID := fun _ => Reply 0;
  TaskRepository.CountOverdueByUserID := fun _ => Reply 0 |}.

(** Three tasks, one pending, and a failing overdue count. *)
Definition overdueDown : TaskRepository.t := {|
  TaskRepository.GetByUserID := fun _ _ => Reply [];
  TaskRepository.CountByUserID := fun _ => Reply 3;
  TaskRepository.CountPendingByUserID := fun _ => Reply 1;
  TaskRepository.CountOverdueByUserID := fun _ => Fail dbDown |}.

Definition noProjects : ProjectRepository.t := {|
  ProjectRepository.GetByUserID := fun _ _ => Reply [];
  ProjectRepository.CountByUserID := fun _ => Reply 0;
  ProjectRepository.CountByStatus := fun _ _ => Reply 0 |}.

Definition noInteractions : InteractionRepository.t := {|
  InteractionRepository.GetByUserID := fun _ _ => Reply [];
  InteractionRepository.GetRecentByUserID := fun _ _ _ => Reply [] |}.

Definition serviceOf (contacts : ContactRepository.t) (tasks : TaskRepository.t)
  : userService := {|
  contactRepo := Some contacts;
  taskRepo := Some tasks;
  projectRepo := Some noProjects;
  interactionRepo := Some noInteractions |}.

(** A task created already completed and never touched again. *)
Definition doneTask : Task.t := {|
  Task.ID := 7;
  Task.Title := "Enviar proposta";
  Task.Description := "";
  Task.DueDate := None;
  Task.Priority := "HIGH";
  Task.Status := TaskStatusCompleted;
  Task.UserID := 1;
  Task.ContactID := None;
  Task.ProjectID := None;
  Task.CreatedAt := 2 * day;
  Task.UpdatedAt := 2 * day;
  Task.Contact := None;
  Task.Project := None |}.

(** A task completed two minutes after its creation. *)
Definition doneLaterTask : Task.t := {|
  Task.ID := 8;
  Task.Title := "Ligar para cliente";
  Task.Description := "";
  Task.DueDate := None;
  Task.Priority := "LOW";
  Task.Status := TaskStatusCompleted;
  Task.UserID := 1;
  Task.ContactID := None;
  Task.ProjectID := None;
  Task.CreatedAt := 2 * day;
  Task.UpdatedAt := Add (2 * day) (2 * Minute);
  Task.Contact := None;
  Task.Project := None |}.

(** A pending task never touched after its creation. *)
Definition pendingTask : Task.t := {|
  Task.ID := 9;
  Task.Title := "";
  Task.Description := "";
  Task.DueDate := None;
  Task.Priority := "LOW";
  Task.Status := TaskStatusPending;
  Task.UserID := 1;
  Task.ContactID := None;
  Task.ProjectID := None;
  Task.CreatedAt := 3 * day;
  Task.UpdatedAt := 3 * day;
  Task.Contact := None;
  Task.Project := None |}.

(** Two events of the same instant, told apart by their item. *)
Definition eventOf (id : N) (at_ : Time) : UserActivity.t := {|
  UserActivity.ID := id;
  UserActivity.Type_ := ActivityTypeContact;
  UserActivity.Action := ActionCreated;
  UserActivity.Title := "Contato sem nome";
  UserActivity.Detail := "";
  UserActivity.ItemID := id;
  UserActivity.CreatedAt := at_;
  UserActivity.UpdatedAt := at_;
  UserActivity.RelatedID := None;
  UserActivity.RelatedName := None |}.

(** Twelve events of one instant, numbered in the order they are given,
    then a newer one. *)
Definition burst : list UserActivity.t :=
  map (fun id => eventOf id day) [0; 1; 2; 3; 4; 5; 6; 7; 8; 9; 10; 11]%N
  ++ [eventOf 12 (2 * day)].

End Sample.

(** ** Notions used by the statements *)

(** The events of [l] that happened at instant [t], in their order. *)
Definition eventsAt (t : Time) (l : list UserActivity.t) : list UserActivity.t :=
  filter (fun a => UserActivity.CreatedAt a =? t) l.

(** [out] keeps the relative order [inp] gives to events of one instant. *)
Definition keepsTieOrder (inp out : list UserActivity.t) : Prop :=
  forall t, eventsAt t out = eventsAt t inp.

(** [forall i < j, l[i].CreatedAt >= l[j].CreatedAt] *)
Definition newestFirst (l : list UserActivity.t) : Prop :=
  forall i j a b, (i < j)%nat ->
    nth_error l i = Some a -> nth_error l j = Some b ->
    UserActivity.CreatedAt a >= UserActivity.CreatedAt b.

(** The owner has no record in any of the four sources: whatever the
    filter, the listings of the repositories in place come back empty. *)
Definition noRecords (s : userService) (userID : N) : Prop :=
  (forall r, interactionRepo s = Some r ->
     forall days limit,
       InteractionRepository.GetRecentByUserID r userID days limit = Reply []) /\
  (forall r, taskRepo s = Some r ->
     forall f, TaskRepository.GetByUserID r userID f = Reply []) /\
  (forall r, projectRepo s = Some r ->
     forall f, ProjectRepository.GetByUserID r userID f = Reply []) /\
  (forall r, contactRepo s = Some r ->
     forall f, ContactRepository.GetByUserID r userID f = Reply []).

(** The repository answered with a nil error. *)
Definition replied {A} (r : reply A) : bool :=
  match r with
  | Reply _ => true
  | Fail _ => false
  end.

(** The queries of [GetUserStats] whose error ends the call, per source:
    all of them but the overdue-task count and the recent-interaction
    listing. A nil repository issues none. *)
Definition contactQueriesOk (s : userService) (userID : N) : bool :=
  match contactRepo s with
  | None => true
  | Some r =>
      replied (ContactRepository.CountByUserID r userID)
      && replied (ContactRepository.CountByType r userID ContactTypeClient)
      && replied (ContactRepository.CountByType r userID ContactTypeLead)
  end.

Definition taskQueriesOk (s : userService) (userID : N) : bool :=
  match taskRepo s with
  | None => true
  | Some r =>
      replied (TaskRepository.CountByUserID r userID)
      && replied (TaskRepository.CountPendingByUserID r userID)
  end.

Definition projectQueriesOk (s : userService) (userID : N) : bool :=
  match projectRepo s with
  | None => true
  | Some r =>
      replied (ProjectRepository.CountByUserID r userID)
      && replied (ProjectRepository.CountByStatus r userID ProjectStatusInProgress)
      && replied (ProjectRepository.CountByStatus r userID ProjectStatusCompleted)
  end.

Definition interactionQueriesOk (s : userService) (userID : N) : bool :=
  match interactionRepo s with
  | None => true
  | Some r =>
      replied (InteractionRepository.GetByUserID r userID (interactionFilter 0))
  end.

Definition primaryQueriesOk (s : userService) (userID : N) : bool :=
  contactQueriesOk s userID && taskQueriesOk s userID
  && projectQueriesOk s userID && interactionQueriesOk s userID.

(** The overdue-task count and the recent-interaction count as the
    repositories give them, zero standing for a failed query. *)
Definition overdueOrZero (s : userService) (userID : N) : Z :=
  match taskRepo s with
  | None => 0
  | Some r =>
      match TaskRepository.CountOverdueByUserID r userID with
      | Reply n => n
      | Fail _ => 0
      end
  end.

Definition recentOrZero (s : userService) (userID : N) : Z :=
  match interactionRepo s with
  | None => 0
  | Some r =>
      match InteractionRepository.GetRecentByUserID r userID 7 100 with
      | Reply l => lenSlice l
      | Fail _ => 0
      end
  end.

(** What a counting query of a repository answers, and the number of rows
    a listing query answers; zero stands for a nil repository and for a
    failed query. *)
Definition countOf {R} (repo : option R) (query : R -> reply Z) : Z :=
  match repo with
  | None => 0
  | Some r =>
      match query r with
      | Reply n => n
      | Fail _ => 0
      end
  end.

Definition rowsOf {R A} (repo : option R) (query : R -> reply (list A)) : Z :=
  match repo with
  | None => 0
  | Some r =>
      match query r with
      | Reply l => lenSlice l
      | Fail _ => 0
      end
  end.

(** The task counters of a snapshot. *)
Definition taskCounters (st : UserStats.t) : Z * Z * Z * Z :=
  (UserStats.TotalTasks st, UserStats.PendingTasks st,
   UserStats.CompletedTasks st, UserStats.OverdueTasks st).

(** ** Package [errors]: the constructors *)

Definition NewAppError (code : Z) (message details : string) : error :=
  App {| Code := code; Message := message; Details := details |}.

(** [http.StatusBadRequest] and the like *)
Definition StatusOK : Z := 200.
Definition StatusBadRequest : Z := 400.
Definition StatusUnauthorized : Z := 401.
Definition StatusNotFound : Z := 404.
Definition StatusConflict : Z := 409.
Definition StatusInternalServerError : Z := 500.

Definition NewBadRequestError (details : string) : error :=
  NewAppError StatusBadRequest "Requisição inválida" details.

(** [fmt.Sprintf("%s não encontrado", resource)] *)
Definition NewNotFoundError (resource : string) : error :=
  NewAppError StatusNotFound (resource ++ " não encontrado")%string "".

Definition NewConflictError (details : string) : error :=
  NewAppError StatusConflict "Conflito de dados" details.

Definition NewUnauthorizedError (details : string) : error :=
  NewAppError StatusUnauthorized "Não autorizado" details.

(** ** The user model *)

Module User.
Record t := {
  ID : N;
  Name : string;
  Email : string;
  Password : string;
  CreatedAt : Time;
  UpdatedAt : Time
}.

(** Field assignments [user.Name = v], [user.Email = v],
    [user.Password = v]. *)
Definition setName (u : t) (v : string) : t :=
  let '(Build_t i _ e p c m) := u in Build_t i v e p c m.
Definition setEmail (u : t) (v : string) : t :=
  let '(Build_t i n _ p c m) := u in Build_t i n v p c m.
Definition setPassword (u : t) (v : string) : t :=
  let '(Build_t i n e _ c m) := u in Build_t i n e v c m.
End User.

Module UserUpdateRequest.
Record t := {
  Name : string;
  Email : string
}.
End UserUpdateRequest.

Module UserResponse.
Record t := {
  ID : N;
  Name : string;
  Email : string;
  CreatedAt : Time;
  UpdatedAt : Time
}.
End UserResponse.

(** [User.ToResponse] *)
Definition ToResponse (u : User.t) : UserResponse.t := {|
  UserResponse.ID := User.ID u;
  UserResponse.Name := User.Name u;
  UserResponse.Email := User.Email u;
  UserResponse.CreatedAt := User.CreatedAt u;
  UserResponse.UpdatedAt := User.UpdatedAt u |}.

(** ** The user repository and [bcrypt]

    The errors of the persistence layer, as the profile operations tell
    them apart: the sentinel [gorm.ErrRecordNotFound] and the others. *)
Module gorm.
Inductive error :=
| ErrRecordNotFound
| Failure (msg : string).

Inductive reply (A : Type) :=
| Row (a : A)
| Fail (e : error).
Arguments Row {A} a.
Arguments Fail {A} e.
End gorm.

(** [UserRepository], the methods the profile operations call, over a
    store [DB]. The two queries read the store. [Update] and [Delete]
    write it; [Update] is handed a pointer to the struct and may write
    it too, so it gives the struct back. *)
Module UserRepository.
Record t (DB : Type) := {
  GetByID : DB -> N -> gorm.reply User.t;
  EmailExists : DB -> string -> gorm.reply bool;
  Update : DB -> User.t -> DB * User.t * option gorm.error;
  Delete : DB -> N -> DB * option gorm.error
}.
Arguments GetByID {DB} _ _ _.
Arguments EmailExists {DB} _ _ _.
Arguments Update {DB} _ _ _.
Arguments Delete {DB} _ _ _.
End UserRepository.

(** The two functions of [golang.org/x/crypto/bcrypt] the service calls.
    [CompareHashAndPassword] answers [None] for a nil error. *)
Module bcrypt.
Record t := {
  CompareHashAndPassword : string -> string -> option string;
  GenerateFromPassword : string -> Z -> string + string
}.
Definition DefaultCost : Z := 10.
End bcrypt.

(** ** The profile operations of the user service

    They return the store as they leave it beside their outcome. *)

Section Profile.

Context {DB : Type}.
Variable userRepo : option (UserRepository.t DB).
Variable crypt : bcrypt.t.

(** [user, err := s.userRepo.GetByID(userID)] and the error mapping that
    opens each of the four operations. *)
Definition findUser (repo : UserRepository.t DB) (db : DB) (userID : N)
  : result User.t :=
  match UserRepository.GetByID repo db userID with
  | gorm.Row user => Ok user
  | gorm.Fail gorm.ErrRecordNotFound => Err (NewNotFoundError "Usuário")
  | gorm.Fail _ => Err ErrInternalServer
  end.

Definition GetProfile (db : DB) (userID : N) : result UserResponse.t :=
  repo <- deref userRepo ;;
  user <- findUser repo db userID ;;
  Ok (ToResponse user).

(** [if req.Email != "" && req.Email != user.Email { ... }] *)
Definition checkEmail (repo : UserRepository.t DB) (db : DB)
  (req : UserUpdateRequest.t) (user : User.t) : result User.t :=
  if negb (String.eqb (UserUpdateRequest.Email req) "")
     && negb (String.eqb (UserUpdateRequest.Email req) (User.Email user))
  then
    match UserRepository.EmailExists repo db (UserUpdateRequest.Email req) with
    | gorm.Fail _ => Err ErrInternalServer
    | gorm.Row true => Err (NewConflictError "Email já está em uso")
    | gorm.Row false => Ok (User.setEmail user (UserUpdateRequest.Email req))
    end
  else Ok user.

Definition UpdateProfile (db : DB) (userID : N) (req : UserUpdateRequest.t)
  : DB * result UserResponse.t :=
  match userRepo with
  | None => (db, Panic)
  | Some repo =>
      match (user <- findUser repo db userID ;; checkEmail repo db req user) with
      | Ok user =>
          let user :=
            if negb (String.eqb (UserUpdateRequest.Name req) "")
            then User.setName user (UserUpdateRequest.Name req)
            else user in
          let '(db', user, err) := UserRepository.Update repo db user in
          match err with
          | Some _ => (db', Err ErrInternalServer)
          | None => (db', Ok (ToResponse user))
          end
      | Err e => (db, Err e)
      | Panic => (db, Panic)
      end
  end.

Definition ChangePassword (db : DB) (userID : N)
  (currentPassword newPassword : string) : DB * result unit :=
  match userRepo with
  | None => (db, Panic)
  | Some repo =>
      match findUser repo db userID with
      | Ok user =>
          match bcrypt.CompareHashAndPassword crypt (User.Password user)
                  currentPassword with
          | Some _ => (db, Err (NewUnauthorizedError "Senha atual incorreta"))
          | None =>
              match bcrypt.GenerateFromPassword crypt newPassword
                      bcrypt.DefaultCost with
              | inr _ => (db, Err ErrInternalServer)
              | inl hashedPassword =>
                  let user := User.setPassword user hashedPassword in
                  let '(db', _, err) := UserRepository.Update repo db user in
                  match err with
                  | Some _ => (db', Err ErrInternalServer)
                  | None => (db', Ok tt)
                  end
              end
          end
      | Err e => (db, Err e)
      | Panic => (db, Panic)
      end
  end.

Definition DeleteAccount (db : DB) (userID : N) (password : string)
  : DB * result unit :=
  match userRepo with
  | None => (db, Panic)
  | Some repo =>
      match findUser repo db userID with
      | Ok user =>
          match bcrypt.CompareHashAndPassword crypt (User.Password user)
                  password with
          | Some _ => (db, Err (NewUnauthorizedError "Senha incorreta"))
          | None =>
              let '(db', err) := UserRepository.Delete repo db userID in
              match err with
              | Some _ => (db', Err ErrInternalServer)
              | None => (db', Ok tt)
              end
          end
      | Err e => (db, Err e)
      | Panic => (db, Panic)
      end
  end.

End Profile.

(** ** The handlers of the user routes

    What a handler reads from [gin.Context]: the keys set by the
    authentication middleware and the URL query. *)
Module gin.
Inductive value :=
| Uint (n : N)
| NotUint.

Record Context := {
  keys : string -> option value;
  query : string -> option string
}.

(** [c.GetUint(key)]: zero unless the key holds a [uint]. *)
Definition GetUint (c : Context) (key : string) : N :=
  match keys c key with
  | Some (Uint n) => n
  | _ => 0%N
  end.

(** [c.DefaultQuery(key, defaultValue)] *)
Definition DefaultQuery (c : Context) (key defaultValue : string) : string :=
  match query c key with
  | Some v => v
  | None => defaultValue
  end.
End gin.

(** [err.Error()] *)
Definition errorString (e : error) : string :=
  match e with
  | App a => Message a
  | Other msg => msg
  end.

Module ChangePasswordRequest.
Record t := {
  CurrentPassword : string;
  NewPassword : string;
  ConfirmPassword : string
}.
End ChangePasswordRequest.

(** A handler ends in [c.JSON(status, body)], here [Ok (status, body)],
    or in [c.Error(err)], here [Err err]. Logging is left out. *)
Module UserHandler.
Section Handlers.

Context {DB : Type}.
Variable sort_Slice : Sorter.
Variable Atoi : string -> reply Z.
Variable s : userService.
Variable userRepo : option (UserRepository.t DB).
Variable crypt : bcrypt.t.

Definition GetProfile (db : DB) (c : gin.Context)
  : result (Z * UserResponse.t) :=
  match gin.keys c "user_id" with
  | None => Err (NewUnauthorizedError "Usuário não autenticado")
  | Some _ =>
      let userID := gin.GetUint c "user_id" in
      if N.eqb userID 0
      then Err (NewUnauthorizedError "ID do usuário inválido")
      else
        profile <- GetProfile userRepo db userID ;;
        Ok (StatusOK, profile)
  end.

(** [ShouldBindJSON] is given by its outcome [bound]. The body of the
    answer is the message of [gin.H]. *)
Definition ChangePassword (db : DB) (c : gin.Context)
  (bound : reply ChangePasswordRequest.t) : DB * result (Z * string) :=
  let userID := gin.GetUint c "user_id" in
  match bound with
  | Fail err =>
      (db, Err (NewBadRequestError
                  ("Dados de entrada inválidos: " ++ errorString err)%string))
  | Reply req =>
      if String.eqb (ChangePasswordRequest.CurrentPassword req) ""
         || String.eqb (ChangePasswordRequest.NewPassword req) ""
      then (db, Err (NewBadRequestError
                       "Senha atual e nova senha são obrigatórias"))
      else if negb (String.eqb (ChangePasswordRequest.NewPassword req)
                               (ChangePasswordRequest.ConfirmPassword req))
      then (db, Err (NewBadRequestError "Nova senha e confirmação não conferem"))
      else
        match ChangePassword userRepo crypt db userID
                (ChangePasswordRequest.CurrentPassword req)
                (ChangePasswordRequest.NewPassword req) with
        | (db', Ok _) => (db', Ok (StatusOK, "Senha alterada com sucesso"))
        | (db', Err err) => (db', Err err)
        | (db', Panic) => (db', Panic)
        end
  end.

Definition GetStats (c : gin.Context) : result (Z * UserStats.t) :=
  let userID := gin.GetUint c "user_id" in
  stats <- GetUserStats s userID ;;
  Ok (StatusOK, stats).

(** [limit, err := strconv.Atoi(limitStr);
     if err != nil || limit <= 0 { limit = 10 }] *)
Definition queryLimit (c : gin.Context) : Z :=
  let limitStr := gin.DefaultQuery c "limit" "10" in
  match Atoi limitStr with
  | Reply limit => if limit <=? 0 then 10 else limit
  | Fail _ => 10
  end.

Definition GetRecentActivities (c : gin.Context)
  : result (Z * RecentActivityResponse.t) :=
  let userID := gin.GetUint c "user_id" in
  let limit := queryLimit c in
  activities <- GetRecentActivities sort_Slice s userID limit ;;
  Ok (StatusOK, activities).

End Handlers.
End UserHandler.

(** ** The [ErrorHandler] middleware

    After the handler has run, the last error of the context, if any,
    becomes the answer: an [AppError] with its own code, any other error
    as a 500. *)
Module middleware.
Inductive body (B : Type) :=
| Payload (b : B)
| ErrorJSON (error : string) (details : option string).
Arguments Payload {B} b.
Arguments ErrorJSON {B} error details.

Definition ErrorHandler {B} (handled : result (Z * B)) : result (Z * body B) :=
  match handled with
  | Ok (status, b) => Ok (status, Payload b)
  | Err (App appErr) =>
      Ok (Code appErr, ErrorJSON (Message appErr) (Some (Details appErr)))
  | Err (Other _) =>
      Ok (StatusInternalServerError, ErrorJSON "Erro interno do servidor" None)
  | Panic => Panic
  end.
End middleware.

(** ** A sample user store *)

Module SampleUsers.

Definition store := list User.t.

Definition find (db : store) (id : N) : option User.t :=
  List.find (fun u => N.eqb (User.ID u) id) db.

(** An in-memory repository: rows in a list, keyed by [ID]. *)
Definition memoryRepo : UserRepository.t store := {|
  UserRepository.GetByID := fun db id =>
    match find db id with
    | Some u => gorm.Row u
    | None => gorm.Fail gorm.ErrRecordNotFound
    end;
  UserRepository.EmailExists := fun db email =>
    gorm.Row (existsb (fun u => String.eqb (User.Email u) email) db);
  UserRepository.Update := fun db u =>
    (map (fun v => if N.eqb (User.ID v) (User.ID u) then u else v) db, u, None);
  UserRepository.Delete := fun db id =>
    (filter (fun v => negb (N.eqb (User.ID v) id)) db, None) |}.

(** A stand-in for [bcrypt]: the hash is the password behind a prefix. *)
Definition prefixCrypt : bcrypt.t := {|
  bcrypt.CompareHashAndPassword := fun hashed password =>
    if String.eqb hashed ("hash:" ++ password)%string then None
    else Some "hashedPassword is not the hash of the given password";
  bcrypt.GenerateFromPassword := fun password _ =>
    inl ("hash:" ++ password)%string |}.

Definition ana : User.t := {|
  User.ID := 1;
  User.Name := "Ana";
  User.Email := "ana@example.com";
  User.Password := "hash:segredo1";
  User.CreatedAt := Sample.day;
  User.UpdatedAt := Sample.day |}.

Definition bruno : User.t := {|
  User.ID := 2;
  User.Name := "Bruno";
  User.Email := "bruno@example.com";
  User.Password := "hash:segredo2";
  User.CreatedAt := 2 * Sample.day;
  User.UpdatedAt := 2 * Sample.day |}.

Definition users : store := [ana; bruno].

(** The context of a request of user 1 with the given query. *)
Definition contextOf (limit : option string) : gin.Context := {|
  gin.keys := fun key =>
    if String.eqb key "user_id" then Some (gin.Uint 1) else None;
  gin.query := fun key => if String.eqb key "limit" then limit else None |}.

(** A decimal parser for a few literals, standing in for
    [strconv.Atoi]. *)
Definition atoi (str : string) : reply Z :=
  if String.eqb str "10" then Reply 10
  else if String.eqb str "3" then Reply 3
  else if String.eqb str "0" then Reply 0
  else if String.eqb str "-5" then Reply (-5)
  else Fail (Other "strconv.Atoi: invalid syntax").

End SampleUsers.

(** A task linked to a named contact and to a named project. *)
Module SampleLinks.

Definition client : Contact.t := {|
  Contact.ID := 4;
  Contact.Name := "Carla";
  Contact.Email := "carla@example.com";
  Contact.Phone := "";
  Contact.Company := "";
  Contact.Position := "";
  Contact.Type_ := ContactTypeClient;
  Contact.Notes := "";
  Contact.UserID := 1;
  Contact.CreatedAt := Sample.day;
  Contact.UpdatedAt := Sample.day |}.

Definition site : Project.t := {|
  Project.ID := 5;
  Project.Name := "Site novo";
  Project.Description := "";
  Project.Status := ProjectStatusInProgress;
  Project.UserID := 1;
  Project.ClientID := 4;
  Project.CreatedAt := Sample.day;
  Project.UpdatedAt := Sample.day;
  Project.Client := client |}.

Definition linkedTask : Task.t := {|
  Task.ID := 6;
  Task.Title := "Enviar layout";
  Task.Description := "";
  Task.DueDate := None;
  Task.Priority := "MEDIUM";
  Task.Status := TaskStatusPending;
  Task.UserID := 1;
  Task.ContactID := Some 4%N;
  Task.ProjectID := Some 5%N;
  Task.CreatedAt := 2 * Sample.day;
  Task.UpdatedAt := 2 * Sample.day;
  Task.Contact := Some client;
  Task.Project := Some site |}.

End SampleLinks.

(** ** More notions used by the statements *)

(** An event fit for display: a title, and a detail of at most 100
    bytes. *)
Definition presentable (a : UserActivity.t) : Prop :=
  UserActivity.Title a <> "" /\ len (UserActivity.Detail a) <= 100.

(** The guard of the derived events: modified more than one minute after
    the creation. *)
Definition touched (createdAt updatedAt : Time) : Prop :=
  createdAt + 60000000000 < updatedAt.

(** * Properties *)

Section StringFacts.

Lemma string_length_append (s t : string) :
  String.length (s ++ t)%string = (String.length s + String.length t)%nat.
Proof. induction s as [|c s IH]; simpl; [reflexivity | now rewrite IH]. Qed.

Lemma length_substring_0 (n : nat) (s : string) :
  (n <= String.length s)%nat -> String.length (substring 0 n s) = n.
Proof.
  revert s; induction n as [|n IH]; intros s Hn.
  - destruct s; reflexivity.
  - destruct s as [|c s]; simpl in *; [lia|].
    rewrite IH; [reflexivity | lia].
Qed.

End StringFacts.

Lemma truncateString_short (s : string) (maxLength : Z) :
  len s <= maxLength -> truncateString s maxLength = Ok s.
Proof.
  intros H. unfold truncateString.
  destruct (Z.leb_spec (len s) maxLength); [reflexivity | lia].
Qed.

Lemma truncateString_100_long (s : string) :
  100 < len s -> truncateString s 100 = Ok (substring 0 97 s ++ "...")%string.
Proof.
  intros H. unfold truncateString.
  destruct (Z.leb_spec (len s) 100); [lia|].
  change (sub64 100 3) with 97. unfold sliceTo.
  destruct (Z.leb_spec 97 (len s)); [reflexivity | lia].
Qed.

(** C7. The detail truncation [truncateString(s, 100)] returns [s] itself
    when [len(s) <= 100]; when [len(s) > 100] it returns the first 97 bytes
    of [s] followed by ["..."], a string of length exactly 100. It never
    panics. *)
Theorem truncateString_100_spec (s : string) :
  (len s <= 100 -> truncateString s 100 = Ok s) /\
  (100 < len s ->
   truncateString s 100 = Ok (substring 0 97 s ++ "...")%string /\
   len (substring 0 97 s ++ "...")%string = 100).
Proof.
  split; intros H.
  - now apply truncateString_short.
  - split; [now apply truncateString_100_long|].
    unfold len in *. rewrite string_length_append, length_substring_0; simpl; lia.
Qed.

Lemma truncateString_100_spec_witness :
  truncateString "Primeiro contato" 100 = Ok "Primeiro contato" /\
  truncateString
    "Cliente pediu nova proposta com desconto para o contrato anual e quer uma resposta ate sexta-feira de manha."
    100
  = Ok "Cliente pediu nova proposta com desconto para o contrato anual e quer uma resposta ate sexta-feir...".
Proof.
  split.
  - apply (proj1 (truncateString_100_spec "Primeiro contato")). vm_compute.
    discriminate.
  - apply (proj2 (truncateString_100_spec
      "Cliente pediu nova proposta com desconto para o contrato anual e quer uma resposta ate sexta-feira de manha.")).
    reflexivity.
Defined.

(** ** Sorting *)

Section InsertionSort.

Context {A : Type} (less : A -> A -> bool).

Lemma insertLess_perm (a : A) (x : list A) :
  Permutation (a :: x) (insertLess less a x).
Proof.
  induction x as [|b x IH]; simpl; [apply Permutation_refl|].
  destruct (less b a); [|apply Permutation_refl].
  eapply perm_trans; [apply perm_swap | apply perm_skip, IH].
Qed.

Lemma insertionSort_perm (x : list A) :
  Permutation x (insertionSort A less x).
Proof.
  induction x as [|a x IH]; simpl; [constructor|].
  eapply perm_trans; [apply perm_skip, IH | apply insertLess_perm].
Qed.

Hypothesis ordering : TransitiveOrdering less.

Let notAfter (a b : A) : Prop := less b a = false.

Lemma less_asym (a b : A) : less a b = true -> less b a = false.
Proof.
  intros Hab. destruct (less b a) eqn:Hba; [|reflexivity].
  pose proof (less_trans less ordering _ _ _ Hab Hba) as H.
  rewrite (less_irrefl less ordering) in H. discriminate.
Qed.

Lemma insertLess_sorted (a : A) (x : list A) :
  StronglySorted notAfter x -> StronglySorted notAfter (insertLess less a x).
Proof.
  induction 1 as [|b x Hs IH Hb]; simpl.
  - repeat constructor.
  - destruct (less b a) eqn:Hba.
    + constructor; [exact IH|].
      eapply Permutation_Forall; [apply insertLess_perm|].
      constructor; [now apply less_asym | assumption].
    + constructor; [constructor; assumption|].
      constructor; [exact Hba|].
      rewrite Forall_forall in *. intros c Hc. unfold notAfter.
      apply (less_negtrans less ordering c b a); [apply Hb, Hc | exact Hba].
Qed.

Lemma insertionSort_sorted (x : list A) :
  StronglySorted notAfter (insertionSort A less x).
Proof.
  induction x as [|a x IH]; simpl; [constructor | now apply insertLess_sorted].
Qed.

End InsertionSort.

Lemma insertionSort_contract : SliceContract insertionSort.
Proof.
  split; intros A less x.
  - apply insertionSort_perm.
  - intros Hord. now apply insertionSort_sorted.
Qed.

Lemma lessByDate_ordering : TransitiveOrdering lessByDate.
Proof.
  unfold lessByDate, After. split; intros; rewrite ?Z.ltb_lt, ?Z.ltb_ge in *; lia.
Qed.

(** *** Short slices

    Up to [maxInsertion = 12] elements [sort.Slice] runs
    [insertionSort_func] and nothing else; under a transitive ordering
    that is the stable insertion sort [insertionSort]. *)

Section ShortSlices.

Local Open Scope nat_scope.

Context {A : Type} (less : A -> A -> bool) (zero : A).

Lemma store_middle (l r : list A) (y x : A) :
  sort.store (l ++ y :: r) (List.length l) x = l ++ x :: r.
Proof. induction l as [|a l IH]; simpl; [reflexivity | now rewrite IH]. Qed.

Lemma Swap_adjacent (l r : list A) (p y : A) :
  sort.Swap zero (l ++ p :: y :: r) (S (List.length l)) (List.length l)
  = l ++ y :: p :: r.
Proof.
  unfold sort.Swap, sort.index.
  rewrite (nth_middle l (y :: r) p zero).
  replace (l ++ p :: y :: r) with ((l ++ [p]) ++ y :: r)
    by (rewrite <- app_assoc; reflexivity).
  replace (S (List.length l)) with (List.length (l ++ [p]))
    by (rewrite length_app; simpl; lia).
  rewrite (nth_middle (l ++ [p]) r y zero), store_middle.
  rewrite <- app_assoc. simpl. apply store_middle.
Qed.

Lemma shiftLeft_length (y : A) (q : list A) :
  List.length (shiftLeft less y q) = S (List.length q).
Proof.
  induction q as [|p q IH]; simpl; [reflexivity|].
  destruct (less y p); simpl; [now rewrite IH | reflexivity].
Qed.

Lemma insertionShift_rev (q post : list A) (y : A) :
  sort.insertionShift less zero (rev q ++ y :: post) 0 (List.length q)
  = rev (shiftLeft less y q) ++ post.
Proof.
  revert post. induction q as [|p q IH]; intros post; [reflexivity|].
  cbn [List.length sort.insertionShift rev shiftLeft].
  change (0 <? S (List.length q)) with true. cbn [andb].
  unfold sort.Less, sort.index.
  rewrite <- (length_rev q) at 2.
  rewrite <- app_assoc. cbn [app].
  rewrite (nth_middle (rev q) (y :: post) p zero).
  replace (nth (S (List.length q)) (rev q ++ p :: y :: post) zero) with y.
  2:{ replace (rev q ++ p :: y :: post) with ((rev q ++ [p]) ++ y :: post)
        by (rewrite <- app_assoc; reflexivity).
      replace (S (List.length q)) with (List.length (rev q ++ [p]))
        by (rewrite length_app, length_rev; simpl; lia).
      now rewrite nth_middle. }
  destruct (less y p).
  - rewrite <- (length_rev q), Swap_adjacent, length_rev, IH.
    cbn [rev]. rewrite <- app_assoc. reflexivity.
  - cbn [rev]. rewrite <- !app_assoc. reflexivity.
Qed.

Lemma insertionLoop_rev (rest : list A) : forall (steps : nat) (q : list A),
  List.length rest <= steps ->
  sort.insertionLoop less zero steps (rev q ++ rest) 0
    (List.length q + List.length rest) (List.length q)
  = rev (fold_left (fun q y => shiftLeft less y q) rest q).
Proof.
  induction rest as [|y rest IH]; intros steps q Hs.
  - cbn [List.length fold_left]. rewrite app_nil_r, Nat.add_0_r.
    destruct steps; cbn [sort.insertionLoop]; [reflexivity|].
    now rewrite Nat.ltb_irrefl.
  - destruct steps as [|steps]; [simpl in Hs; lia|].
    cbn [sort.insertionLoop fold_left].
    replace (List.length q <? List.length q + List.length (y :: rest)) with true
      by (symmetry; apply Nat.ltb_lt; simpl; lia).
    rewrite insertionShift_rev.
    replace (List.length q + List.length (y :: rest))
      with (List.length (shiftLeft less y q) + List.length rest)
      by (rewrite shiftLeft_length; simpl; lia).
    rewrite <- (shiftLeft_length y q). apply IH. simpl in Hs. lia.
Qed.

Hypothesis ordering : TransitiveOrdering less.

Let notAfter (a b : A) : Prop := less b a = false.

Lemma insertBehind_insertLess (a y : A) (s : list A) :
  insertLess less a (insertBehind less y s)
  = insertBehind less y (insertLess less a s).
Proof.
  induction s as [|p s IH]; simpl.
  - reflexivity.
  - destruct (less y p) eqn:Hyp, (less p a) eqn:Hpa; simpl.
    + rewrite (less_trans less ordering _ _ _ Hyp Hpa), Hpa, Hyp. reflexivity.
    + rewrite Hpa. destruct (less y a); [reflexivity|]. now rewrite Hyp.
    + rewrite Hpa, Hyp, IH. reflexivity.
    + rewrite Hpa, (less_negtrans less ordering _ _ _ Hyp Hpa), Hyp.
      reflexivity.
Qed.

Lemma insertionSort_snoc (l : list A) (y : A) :
  insertionSort A less (l ++ [y]) = insertBehind less y (insertionSort A less l).
Proof.
  induction l as [|a l IH]; simpl; [reflexivity|].
  now rewrite IH, insertBehind_insertLess.
Qed.

Lemma insertBehind_last (y : A) (s : list A) :
  Forall (fun q => less y q = false) s -> insertBehind less y s = s ++ [y].
Proof.
  induction 1 as [|p s Hp _ IH]; simpl; [reflexivity|].
  now rewrite Hp, IH.
Qed.

Lemma insertBehind_snoc (y p : A) (s : list A) :
  less y p = true -> insertBehind less y (s ++ [p]) = insertBehind less y s ++ [p].
Proof.
  intros Hyp. induction s as [|a s IH]; simpl; [now rewrite Hyp|].
  destruct (less y a); [reflexivity | now rewrite IH].
Qed.

Lemma StronglySorted_snoc (s : list A) (p : A) :
  StronglySorted notAfter (s ++ [p]) ->
  StronglySorted notAfter s /\ Forall (fun q => less p q = false) s.
Proof.
  induction s as [|a s IH]; simpl; intros H; [split; constructor|].
  apply StronglySorted_inv in H. destruct H as [Hs Ha].
  destruct (IH Hs) as [Hs' Hp]. split.
  - constructor; [exact Hs'|].
    rewrite Forall_forall in *. intros b Hb. apply Ha, in_or_app. now left.
  - constructor; [|exact Hp].
    rewrite Forall_forall in Ha. apply Ha, in_or_app. right. now left.
Qed.

Lemma shiftLeft_rev (y : A) (s : list A) :
  StronglySorted notAfter s ->
  shiftLeft less y (rev s) = rev (insertBehind less y s).
Proof.
  induction s as [|p s IH] using rev_ind; intros Hs; [reflexivity|].
  apply StronglySorted_snoc in Hs. destruct Hs as [Hs Hp].
  rewrite rev_app_distr. cbn [rev app shiftLeft].
  destruct (less y p) eqn:Hyp.
  - rewrite (insertBehind_snoc _ _ _ Hyp), rev_app_distr, IH by exact Hs.
    reflexivity.
  - rewrite insertBehind_last.
    + rewrite !rev_app_distr. reflexivity.
    + apply Forall_app. split; [|now constructor].
      rewrite Forall_forall in *. intros q Hq.
      apply (less_negtrans less ordering y p q); [exact Hyp | now apply Hp].
Qed.

Lemma fold_shiftLeft (rest pre : list A) :
  rev (fold_left (fun q y => shiftLeft less y q) rest
         (rev (insertionSort A less pre)))
  = insertionSort A less (pre ++ rest).
Proof.
  revert pre. induction rest as [|y rest IH]; intros pre.
  - cbn [fold_left]. now rewrite rev_involutive, app_nil_r.
  - cbn [fold_left]. rewrite shiftLeft_rev by now apply insertionSort_sorted.
    rewrite <- insertionSort_snoc, IH, <- app_assoc. reflexivity.
Qed.

End ShortSlices.

(** [sort.Slice] on at most twelve elements returns them stably sorted. *)
Lemma sort_Slice_short {A : Type} (less : A -> A -> bool) (x : list A) :
  TransitiveOrdering less ->
  (List.length x <= 12)%nat ->
  sort.Slice less x = Some (insertionSort A less x).
Proof.
  intros ordering Hlen. destruct x as [|x0 rest]; [reflexivity|].
  unfold sort.Slice. cbv zeta. cbn [sort.pdqsort_func].
  rewrite Nat.sub_0_r.
  replace (List.length (x0 :: rest) <=? 12)%nat with true
    by (symmetry; now apply Nat.leb_le).
  f_equal. unfold sort.insertionSort_func. rewrite Nat.sub_0_r.
  change (x0 :: rest) with (rev [x0] ++ rest) at 2.
  change (List.length (x0 :: rest))
    with (List.length [x0] + List.length rest)%nat.
  change (0 + 1)%nat with (List.length [x0]).
  rewrite insertionLoop_rev by (simpl; lia).
  apply (fold_shiftLeft less ordering rest [x0]).
Qed.

(** So the feed of at most twelve events is sorted by [sort.Slice] as
    [insertionSort] sorts it. *)
Lemma sortActivitiesByDate_short (activities : list UserActivity.t) :
  (List.length activities <= 12)%nat ->
  sort.Slice lessByDate activities
  = Some (sortActivitiesByDate insertionSort activities).
Proof. apply sort_Slice_short, lessByDate_ordering. Qed.

Lemma StronglySorted_nth {A} (R : A -> A -> Prop) (l : list A) :
  StronglySorted R l ->
  forall i j a b, (i < j)%nat ->
    nth_error l i = Some a -> nth_error l j = Some b -> R a b.
Proof.
  induction 1 as [|c l Hs IH Hc]; intros i j a b Hij Ha Hb.
  - destruct i; discriminate.
  - destruct j as [|j]; [lia|]. simpl in Hb.
    destruct i as [|i]; simpl in Ha.
    + injection Ha as <-. rewrite Forall_forall in Hc.
      apply Hc. eapply nth_error_In; eassumption.
    + apply (IH i j); [lia | assumption | assumption].
Qed.

Lemma sortActivitiesByDate_newestFirst (sort_Slice : Sorter) :
  SliceContract sort_Slice ->
  forall activities, newestFirst (sortActivitiesByDate sort_Slice activities).
Proof.
  intros C activities i j a b Hij Ha Hb.
  pose proof (sort_Slice_sorted _ C _ lessByDate activities lessByDate_ordering)
    as Hs.
  pose proof (StronglySorted_nth _ _ Hs i j a b Hij Ha Hb) as H.
  unfold lessByDate, After in H. simpl in H. apply Z.ltb_ge in H. lia.
Qed.

Lemma newestFirst_firstn (n : nat) (l : list UserActivity.t) :
  newestFirst l -> newestFirst (firstn n l).
Proof.
  intros H i j a b Hij Ha Hb.
  assert (Hi : nth_error l i = Some a).
  { rewrite nth_error_firstn in Ha. destruct (i <? n)%nat; [exact Ha | discriminate]. }
  assert (Hj : nth_error l j = Some b).
  { rewrite nth_error_firstn in Hb. destruct (j <? n)%nat; [exact Hb | discriminate]. }
  exact (H i j a b Hij Hi Hj).
Qed.

Lemma capTo_length (limit : Z) (l : list UserActivity.t) :
  0 <= limit -> lenSlice (capTo limit l) <= limit.
Proof.
  intros Hl. unfold capTo, lenSlice.
  destruct (Z.gtb_spec (Z.of_nat (List.length l)) limit) as [H|H]; [|exact H].
  rewrite List.length_firstn. lia.
Qed.

Lemma capTo_newestFirst (limit : Z) (l : list UserActivity.t) :
  newestFirst l -> newestFirst (capTo limit l).
Proof.
  intros H. unfold capTo. destruct (_ >? _); [now apply newestFirst_firstn | exact H].
Qed.

(** ** Activity derivation *)

Lemma truncateString_100_total (s : string) :
  exists d, truncateString s 100 = Ok d.
Proof.
  destruct (Z_le_gt_dec (len s) 100) as [H|H].
  - exists s. now apply truncateString_short.
  - eexists. apply truncateString_100_long. lia.
Qed.

Lemma derived_Action c action t :
  UserActivity.Action (derived c action t) = action.
Proof. destruct c; reflexivity. Qed.

Lemma derived_CreatedAt c action t :
  UserActivity.CreatedAt (derived c action t) = t.
Proof. destruct c; reflexivity. Qed.

Lemma setAction_Action c action :
  UserActivity.Action (UserActivity.setAction c action) = action.
Proof. destruct c; reflexivity. Qed.

Lemma setAction_CreatedAt c action :
  UserActivity.CreatedAt (UserActivity.setAction c action)
  = UserActivity.CreatedAt c.
Proof. destruct c; reflexivity. Qed.

Lemma createActivityFromTask_total (task : Task.t) :
  exists c, createActivityFromTask task = Ok c /\
            UserActivity.CreatedAt c = Task.CreatedAt task.
Proof.
  unfold createActivityFromTask.
  destruct (truncateString_100_total (Task.Description task)) as [d ->].
  simpl. destruct (namedContact task) as [[id name]|];
    [|destruct (namedProject task) as [[id name]|]];
    eexists; split; reflexivity.
Qed.

(** The events the task loop appends for one task: the creation event,
    then the update event when the guard interval has passed, then the
    completion event when the task is completed. *)
Lemma taskActivities_appends (acc : list UserActivity.t) (task : Task.t) :
  exists created,
    UserActivity.Action created = ActionCreated /\
    UserActivity.CreatedAt created = Task.CreatedAt task /\
    taskActivities acc task =
      Ok ((acc ++ [created])
          ++ (if After (Task.UpdatedAt task) (Add (Task.CreatedAt task) Minute)
              then [derived created ActionUpdated (Task.UpdatedAt task)]
              else [])
          ++ (if String.eqb (Task.Status task) TaskStatusCompleted
              then [derived created ActionCompleted (Task.UpdatedAt task)]
              else [])).
Proof.
  destruct (createActivityFromTask_total task) as (c & Hc & Hat).
  exists (UserActivity.setAction c ActionCreated).
  rewrite setAction_Action, setAction_CreatedAt. repeat split; [exact Hat|].
  unfold taskActivities. rewrite Hc. simpl.
  destruct (After _ _), (String.eqb _ _);
    rewrite ?app_nil_r, <- ?app_assoc; reflexivity.
Qed.

(** C2 as stated fails on a task created completed: the loop appends a
    [Created] event and a separate [Completed] event, two events. *)
Lemma completed_untouched_task_two_events :
  Task.CreatedAt Sample.doneTask = Task.UpdatedAt Sample.doneTask /\
  (exists c d,
      taskActivities [] Sample.doneTask = Ok [c; d] /\
      UserActivity.Action c = ActionCreated /\
      UserActivity.Action d = ActionCompleted) /\
  ~ (exists e, taskActivities [] Sample.doneTask = Ok [e]).
Proof.
  split; [reflexivity|]. split.
  - do 2 eexists. split; [vm_compute; reflexivity|]. split; reflexivity.
  - intros [e He]. vm_compute in He. discriminate.
Qed.

(** C2, amended. A task with [CreatedAt = UpdatedAt] never yields an
    [Updated] event. It yields exactly one event, [Created] at the creation
    time, when its status is not the completed one; when it is completed
    it yields exactly two: that [Created] event followed by a [Completed]
    event at [UpdatedAt]. *)
Theorem untouched_task_events (acc : list UserActivity.t) (task : Task.t) :
  Task.CreatedAt task = Task.UpdatedAt task ->
  exists events,
    taskActivities acc task = Ok (acc ++ events) /\
    Forall (fun e => UserActivity.Action e <> ActionUpdated) events /\
    (String.eqb (Task.Status task) TaskStatusCompleted = false ->
     exists c, events = [c] /\
       UserActivity.Action c = ActionCreated /\
       UserActivity.CreatedAt c = Task.CreatedAt task) /\
    (String.eqb (Task.Status task) TaskStatusCompleted = true ->
     exists c d, events = [c; d] /\
       UserActivity.Action c = ActionCreated /\
       UserActivity.CreatedAt c = Task.CreatedAt task /\
       UserActivity.Action d = ActionCompleted /\
       UserActivity.CreatedAt d = Task.UpdatedAt task).
Proof.
  intros Hsame.
  destruct (taskActivities_appends acc task) as (c & Hact & Hat & Hrun).
  assert (Hguard : After (Task.UpdatedAt task) (Add (Task.CreatedAt task) Minute)
                   = false).
  { unfold After, Add, Minute. rewrite Hsame. apply Z.ltb_ge. lia. }
  rewrite Hguard in Hrun. simpl in Hrun. rewrite <- app_assoc in Hrun.
  destruct (String.eqb (Task.Status task) TaskStatusCompleted) eqn:Hst.
  - exists [c; derived c ActionCompleted (Task.UpdatedAt task)].
    split; [exact Hrun|]. split; [|split; [discriminate|]].
    + repeat constructor; rewrite ?derived_Action, ?Hact; discriminate.
    + intros _. do 2 eexists. split; [reflexivity|].
      rewrite derived_Action, derived_CreatedAt. auto.
  - exists [c]. split; [exact Hrun|]. split; [|split; [|discriminate]].
    + repeat constructor. rewrite Hact. discriminate.
    + intros _. eexists. split; [reflexivity|]. auto.
Qed.

Lemma untouched_task_events_witness :
  exists events,
    taskActivities [] Sample.pendingTask = Ok ([] ++ events) /\
    Forall (fun e => UserActivity.Action e <> ActionUpdated) events.
Proof.
  destruct (untouched_task_events [] Sample.pendingTask) as (ev & H1 & H2 & _).
  - reflexivity.
  - exists ev. split; assumption.
Defined.

(** C3 as stated fails: the task also yields its [Created] event, three
    events in all. *)
Lemma completed_later_task_three_events :
  Task.UpdatedAt Sample.doneLaterTask
    = Add (Task.CreatedAt Sample.doneLaterTask) (2 * Minute) /\
  Task.Status Sample.doneLaterTask = TaskStatusCompleted /\
  (exists c u d,
      taskActivities [] Sample.doneLaterTask = Ok [c; u; d] /\
      UserActivity.Action c = ActionCreated /\
      UserActivity.Action u = ActionUpdated /\
      UserActivity.Action d = ActionCompleted) /\
  ~ (exists u d, taskActivities [] Sample.doneLaterTask = Ok [u; d]).
Proof.
  split; [reflexivity|]. split; [reflexivity|]. split.
  - do 3 eexists. split; [vm_compute; reflexivity|]. repeat split; reflexivity.
  - intros (u & d & H). vm_compute in H. discriminate.
Qed.

(** C3, amended. A completed task with [UpdatedAt = CreatedAt + 2 minutes]
    yields exactly three events: [Created] at [CreatedAt], then [Updated]
    and [Completed], both at [UpdatedAt]. *)
Theorem completed_later_task_events (acc : list UserActivity.t) (task : Task.t) :
  Task.UpdatedAt task = Add (Task.CreatedAt task) (2 * Minute) ->
  Task.Status task = TaskStatusCompleted ->
  exists c u d,
    taskActivities acc task = Ok (acc ++ [c; u; d]) /\
    UserActivity.Action c = ActionCreated /\
    UserActivity.CreatedAt c = Task.CreatedAt task /\
    UserActivity.Action u = ActionUpdated /\
    UserActivity.CreatedAt u = Task.UpdatedAt task /\
    UserActivity.Action d = ActionCompleted /\
    UserActivity.CreatedAt d = Task.UpdatedAt task.
Proof.
  intros Hat Hst.
  destruct (taskActivities_appends acc task) as (c & Hact & Hc & Hrun).
  assert (Hguard : After (Task.UpdatedAt task) (Add (Task.CreatedAt task) Minute)
                   = true).
  { rewrite Hat. unfold After, Add, Minute. apply Z.ltb_lt. lia. }
  rewrite Hguard, Hst in Hrun. simpl in Hrun. rewrite <- app_assoc in Hrun.
  exists c, (derived c ActionUpdated (Task.UpdatedAt task)),
    (derived c ActionCompleted (Task.UpdatedAt task)).
  rewrite !derived_Action, !derived_CreatedAt. repeat split; assumption.
Qed.

Lemma completed_later_task_events_witness :
  exists c u d,
    taskActivities [] Sample.doneLaterTask = Ok ([] ++ [c; u; d]) /\
    UserActivity.Action c = ActionCreated /\
    UserActivity.Action u = ActionUpdated /\
    UserActivity.Action d = ActionCompleted.
Proof.
  destruct (completed_later_task_events [] Sample.doneLaterTask)
    as (c & u & d & H & Hc & _ & Hu & _ & Hd & _).
  - reflexivity.
  - reflexivity.
  - exists c, u, d. repeat split; assumption.
Defined.

(** ** The activity feed *)

Ltac bind_ok H :=
  match type of H with
  | Go.bind ?c _ = Ok _ =>
      let E := fresh "E" in
      destruct c eqn:E; cbn [Go.bind] in H; [|discriminate H|discriminate H]
  end.

(** A successful call returns the sorted events, capped, with their count. *)
Lemma GetRecentActivities_Ok_inv (sort_Slice : Sorter) s userID limit resp :
  GetRecentActivities sort_Slice s userID limit = Ok resp ->
  exists activities,
    RecentActivityResponse.Activities resp
      = capTo (effectiveLimit limit) (sortActivitiesByDate sort_Slice activities)
    /\ RecentActivityResponse.Count resp
      = lenSlice (RecentActivityResponse.Activities resp).
Proof.
  unfold GetRecentActivities. cbv zeta. intros H.
  do 12 bind_ok H.
  injection H as <-. eexists. split; reflexivity.
Qed.

Lemma forEach_total {A S} (body : S -> A -> result S) :
  (forall st x, exists st', body st x = Ok st') ->
  forall xs st, exists st', forEach body xs st = Ok st'.
Proof.
  intros Hbody xs. induction xs as [|x xs IH]; intros st; simpl.
  - now exists st.
  - destruct (Hbody st x) as [st' ->]. simpl. apply IH.
Qed.

Lemma interactionActivities_total acc interaction :
  exists acc', interactionActivities acc interaction = Ok acc'.
Proof.
  unfold interactionActivities, createActivityFromInteraction.
  destruct (truncateString_100_total (Interaction.Description interaction))
    as [d ->].
  cbn [Go.bind]. cbv zeta.
  destruct (negb _); cbn [Go.bind]; destruct (After _ _); eexists; reflexivity.
Qed.

Lemma taskActivities_total acc task :
  exists acc', taskActivities acc task = Ok acc'.
Proof.
  destruct (taskActivities_appends acc task) as (c & _ & _ & ->).
  eexists; reflexivity.
Qed.

Lemma projectActivities_total acc project :
  exists acc', projectActivities acc project = Ok acc'.
Proof.
  unfold projectActivities, createActivityFromProject.
  destruct (truncateString_100_total (Project.Description project)) as [d ->].
  cbn [Go.bind]. cbv zeta.
  destruct (_ && _); cbn [Go.bind]; destruct (After _ _); eexists; reflexivity.
Qed.

Lemma contactActivities_total acc contact :
  exists acc', contactActivities acc contact = Ok acc'.
Proof.
  unfold contactActivities, createActivityFromContact.
  destruct (truncateString_100_total (Contact.Notes contact)) as [d ->].
  cbn [Go.bind]. destruct (After _ _); eexists; reflexivity.
Qed.

(** With the four repositories in place and the four listings answered,
    [GetRecentActivities] returns a response: the derivation never fails
    and never panics. *)
Lemma GetRecentActivities_succeeds (sort_Slice : Sorter) s userID limit
  ir tr pr cr :
  interactionRepo s = Some ir -> taskRepo s = Some tr ->
  projectRepo s = Some pr -> contactRepo s = Some cr ->
  let fetch := mul64 (effectiveLimit limit) 2 in
  replied (InteractionRepository.GetRecentByUserID ir userID 30 fetch) = true ->
  replied (TaskRepository.GetByUserID tr userID (taskFilter "" fetch)) = true ->
  replied (ProjectRepository.GetByUserID pr userID (projectFilter "" fetch))
  = true ->
  replied (ContactRepository.GetByUserID cr userID (contactFilter fetch)) = true ->
  exists resp, GetRecentActivities sort_Slice s userID limit = Ok resp.
Proof.
  intros Hi Ht Hp Hc fetch Qi Qt Qp Qc. unfold GetRecentActivities. cbv zeta.
  fold fetch. rewrite Hi, Ht, Hp, Hc. cbn [deref Go.bind].
  destruct (InteractionRepository.GetRecentByUserID ir userID 30 fetch)
    as [irows|]; [|discriminate].
  cbn [orInternal Go.bind].
  destruct (forEach_total _ interactionActivities_total irows []) as [a1 ->].
  cbn [Go.bind].
  destruct (TaskRepository.GetByUserID tr userID (taskFilter "" fetch))
    as [ts|]; [|discriminate].
  cbn [orInternal Go.bind].
  destruct (forEach_total _ taskActivities_total ts a1) as [a2 ->].
  cbn [Go.bind].
  destruct (ProjectRepository.GetByUserID pr userID (projectFilter "" fetch))
    as [ps|]; [|discriminate].
  cbn [orInternal Go.bind].
  destruct (forEach_total _ projectActivities_total ps a2) as [a3 ->].
  cbn [Go.bind].
  destruct (ContactRepository.GetByUserID cr userID (contactFilter fetch))
    as [cs|]; [|discriminate].
  cbn [orInternal Go.bind].
  destruct (forEach_total _ contactActivities_total cs a3) as [a4 ->].
  cbn [Go.bind]. eexists; reflexivity.
Qed.

Lemma effectiveLimit_pos (limit : Z) : 0 < effectiveLimit limit.
Proof. unfold effectiveLimit. destruct (Z.leb_spec limit 0); lia. Qed.

Lemma Permutation_eventsAt (t : Time) (l l' : list UserActivity.t) :
  Permutation l l' -> Permutation (eventsAt t l) (eventsAt t l').
Proof.
  unfold eventsAt. induction 1 as [|a l l' _ IH|a b l|l l' l'' _ IH1 _ IH2]; simpl.
  - constructor.
  - destruct (_ =? _); [now constructor | exact IH].
  - destruct (UserActivity.CreatedAt a =? t), (UserActivity.CreatedAt b =? t);
      try apply Permutation_refl. apply perm_swap.
  - eapply perm_trans; eassumption.
Qed.

(** C4 as stated fails. Given twelve events of one instant and then a
    newer one, [sort.Slice] partitions around the seventh event: it returns
    the newer event first and the twelve others in another order than it
    received them. *)
Lemma tie_order_lost_on_burst :
  option_map (map UserActivity.ID) (sort.Slice lessByDate Sample.burst)
  = Some [12; 6; 2; 3; 4; 5; 0; 7; 8; 9; 10; 11; 1]%N /\
  map UserActivity.ID (eventsAt Sample.day Sample.burst)
  = [0; 1; 2; 3; 4; 5; 6; 7; 8; 9; 10; 11]%N /\
  (forall sort_Slice : Sorter,
      Some (sort_Slice _ lessByDate Sample.burst)
      = sort.Slice lessByDate Sample.burst ->
      map UserActivity.ID
        (eventsAt Sample.day (sortActivitiesByDate sort_Slice Sample.burst))
      = [6; 2; 3; 4; 5; 0; 7; 8; 9; 10; 11; 1]%N /\
      ~ keepsTieOrder Sample.burst
          (sortActivitiesByDate sort_Slice Sample.burst)).
Proof.
  split; [reflexivity|]. split; [reflexivity|].
  intros sort_Slice Hrun. unfold sortActivitiesByDate.
  assert (Hout : sort.Slice lessByDate Sample.burst
                 = Some (map (fun id => Sample.eventOf id
                                (if (id =? 12)%N then 2 * Sample.day
                                 else Sample.day))
                           [12; 6; 2; 3; 4; 5; 0; 7; 8; 9; 10; 11; 1]%N))
    by reflexivity.
  rewrite Hout in Hrun. injection Hrun as ->.
  split; [reflexivity|].
  intros H. specialize (H Sample.day). vm_compute in H. discriminate.
Qed.

(** C4, amended. [sortActivitiesByDate] orders the events newest first; the
    events of any one instant are all kept, in an order [sort.Slice] leaves
    open. *)
Theorem sortActivitiesByDate_spec (sort_Slice : Sorter)
  (activities : list UserActivity.t) :
  SliceContract sort_Slice ->
  newestFirst (sortActivitiesByDate sort_Slice activities) /\
  forall t, Permutation (eventsAt t activities)
              (eventsAt t (sortActivitiesByDate sort_Slice activities)).
Proof.
  intros C. split; [now apply sortActivitiesByDate_newestFirst|].
  intros t. apply Permutation_eventsAt. apply (sort_Slice_perm _ C).
Qed.

Lemma sortActivitiesByDate_spec_witness :
  newestFirst (sortActivitiesByDate insertionSort
                 [Sample.eventOf 1 Sample.day; Sample.eventOf 2 (2 * Sample.day)]).
Proof.
  apply (sortActivitiesByDate_spec insertionSort
           [Sample.eventOf 1 Sample.day; Sample.eventOf 2 (2 * Sample.day)]).
  exact insertionSort_contract.
Defined.

(** C5. With a positive limit, a successful [GetRecentActivities] returns
    at most [limit] events, and no event is older than a later one. *)
Theorem GetRecentActivities_bounded_sorted (sort_Slice : Sorter) s userID
  limit resp :
  SliceContract sort_Slice ->
  0 < limit ->
  GetRecentActivities sort_Slice s userID limit = Ok resp ->
  lenSlice (RecentActivityResponse.Activities resp) <= limit /\
  newestFirst (RecentActivityResponse.Activities resp).
Proof.
  intros C Hpos H.
  destruct (GetRecentActivities_Ok_inv _ _ _ _ _ H) as (acts & -> & _).
  assert (Hl : effectiveLimit limit = limit).
  { unfold effectiveLimit. destruct (Z.leb_spec limit 0); [lia | reflexivity]. }
  rewrite Hl. split.
  - apply capTo_length. lia.
  - apply capTo_newestFirst. now apply sortActivitiesByDate_newestFirst.
Qed.

Lemma GetRecentActivities_bounded_sorted_witness :
  exists resp,
    GetRecentActivities insertionSort
      (Sample.serviceOf Sample.noContacts
         (Sample.tasksOf [Sample.doneTask; Sample.doneLaterTask])) 1 2 = Ok resp /\
    lenSlice (RecentActivityResponse.Activities resp) <= 2 /\
    newestFirst (RecentActivityResponse.Activities resp).
Proof.
  eexists. split; [vm_compute; reflexivity|].
  eapply (GetRecentActivities_bounded_sorted insertionSort
            (Sample.serviceOf Sample.noContacts
               (Sample.tasksOf [Sample.doneTask; Sample.doneLaterTask])) 1 2).
  - exact insertionSort_contract.
  - lia.
  - vm_compute; reflexivity.
Defined.

Lemma deref_Ok {R} (repo : option R) (r : R) :
  deref repo = Ok r -> repo = Some r.
Proof. destruct repo; simpl; congruence. Qed.

Lemma sortActivitiesByDate_nil (sort_Slice : Sorter) :
  SliceContract sort_Slice -> sortActivitiesByDate sort_Slice [] = [].
Proof.
  intros C. apply Permutation_nil. apply (sort_Slice_perm _ C).
Qed.

Lemma GetRecentActivities_noRecords (sort_Slice : Sorter) s userID limit resp :
  SliceContract sort_Slice ->
  noRecords s userID ->
  GetRecentActivities sort_Slice s userID limit = Ok resp ->
  RecentActivityResponse.Activities resp = [].
Proof.
  intros C (Hi & Ht & Hp & Hc). unfold GetRecentActivities. cbv zeta. intros H.
  bind_ok H. apply deref_Ok in E. rewrite (Hi _ E) in H. cbn in H.
  bind_ok H. apply deref_Ok in E0. rewrite (Ht _ E0) in H. cbn in H.
  bind_ok H. apply deref_Ok in E1. rewrite (Hp _ E1) in H. cbn in H.
  bind_ok H. apply deref_Ok in E2. rewrite (Hc _ E2) in H. cbn in H.
  injection H as <-. cbn. rewrite (sortActivitiesByDate_nil _ C).
  unfold capTo. destruct (_ >? _); [apply firstn_nil | reflexivity].
Qed.

(** C8 as stated fails for a limit of zero or less: the default of 20
    applies, not 1. With [limit = 0] one completed task already gives two
    events. *)
Lemma zero_limit_returns_two_events :
  exists resp,
    GetRecentActivities insertionSort
      (Sample.serviceOf Sample.noContacts (Sample.tasksOf [Sample.doneTask]))
      1 0 = Ok resp /\
    lenSlice (RecentActivityResponse.Activities resp) = 2 /\
    ~ lenSlice (RecentActivityResponse.Activities resp) <= Z.max 0 1.
Proof.
  eexists. split; [vm_compute; reflexivity|]. split; [reflexivity|].
  vm_compute. intros H. apply H. reflexivity.
Qed.

(** C8, amended. A successful [GetRecentActivities] returns at most
    [limit] events when [limit] is positive and at most 20, the default,
    when it is zero or negative; it returns none when the owner has no
    record in any of the four sources. *)
Theorem GetRecentActivities_length (sort_Slice : Sorter) s userID limit resp :
  SliceContract sort_Slice ->
  GetRecentActivities sort_Slice s userID limit = Ok resp ->
  (0 < limit -> lenSlice (RecentActivityResponse.Activities resp) <= limit) /\
  (limit <= 0 -> lenSlice (RecentActivityResponse.Activities resp) <= 20) /\
  (noRecords s userID -> lenSlice (RecentActivityResponse.Activities resp) = 0).
Proof.
  intros C H.
  destruct (GetRecentActivities_Ok_inv _ _ _ _ _ H) as (acts & Hacts & _).
  pose proof (capTo_length (effectiveLimit limit)
                (sortActivitiesByDate sort_Slice acts)) as Hcap.
  pose proof (effectiveLimit_pos limit) as Hpos.
  rewrite <- Hacts in Hcap. unfold effectiveLimit in Hcap, Hpos.
  repeat split.
  - intros Hl. destruct (Z.leb_spec limit 0); lia.
  - intros Hl. destruct (Z.leb_spec limit 0); lia.
  - intros Hn. now rewrite (GetRecentActivities_noRecords _ _ _ _ _ C Hn H).
Qed.

Lemma GetRecentActivities_length_witness :
  exists resp,
    GetRecentActivities insertionSort
      (Sample.serviceOf Sample.noContacts (Sample.tasksOf [Sample.doneTask]))
      1 (-3) = Ok resp /\
    lenSlice (RecentActivityResponse.Activities resp) <= 20.
Proof.
  eexists. split; [vm_compute; reflexivity|].
  eapply (GetRecentActivities_length insertionSort
            (Sample.serviceOf Sample.noContacts (Sample.tasksOf [Sample.doneTask]))
            1 (-3)).
  - exact insertionSort_contract.
  - vm_compute; reflexivity.
  - lia.
Defined.

(** C9. A limit of zero or less is replaced by the default 20, and in
    every successful result [Count] is the length of [Activities]. *)
Theorem GetRecentActivities_default_count (sort_Slice : Sorter) s userID limit :
  (limit <= 0 ->
   GetRecentActivities sort_Slice s userID limit
   = GetRecentActivities sort_Slice s userID 20) /\
  (forall resp,
     GetRecentActivities sort_Slice s userID limit = Ok resp ->
     RecentActivityResponse.Count resp
     = lenSlice (RecentActivityResponse.Activities resp)).
Proof.
  split.
  - intros Hl. unfold GetRecentActivities.
    replace (effectiveLimit limit) with (effectiveLimit 20); [reflexivity|].
    unfold effectiveLimit. destruct (Z.leb_spec limit 0); [reflexivity | lia].
  - intros resp H.
    destruct (GetRecentActivities_Ok_inv _ _ _ _ _ H) as (acts & _ & Hc).
    exact Hc.
Qed.

Lemma GetRecentActivities_default_count_witness :
  GetRecentActivities insertionSort
    (Sample.serviceOf Sample.noContacts (Sample.tasksOf [Sample.doneTask])) 1 0
  = GetRecentActivities insertionSort
      (Sample.serviceOf Sample.noContacts (Sample.tasksOf [Sample.doneTask])) 1 20.
Proof.
  apply (GetRecentActivities_default_count insertionSort
           (Sample.serviceOf Sample.noContacts (Sample.tasksOf [Sample.doneTask]))
           1 0).
  lia.
Defined.

(** ** The statistics *)

Section Stats.

Variables (s : userService) (userID : N).

Ltac run_section :=
  repeat match goal with
    | |- context [orInternal ?q] =>
        destruct q; cbn [orInternal Go.bind replied andb]; try discriminate
    | |- context [match ?q with Reply _ => _ | Fail _ => _ end] =>
        destruct q
    end.

Lemma contactStats_run (st : UserStats.t) :
  if contactQueriesOk s userID
  then exists st', contactStats s userID st = Ok st' /\
                   taskCounters st' = taskCounters st /\
                   UserStats.RecentInteractions st'
                   = UserStats.RecentInteractions st
  else contactStats s userID st = Err ErrInternalServer.
Proof.
  unfold contactQueriesOk, contactStats.
  destruct (contactRepo s) as [r|]; [|eexists; repeat split].
  run_section; try reflexivity.
  eexists. split; [reflexivity|]. destruct st; split; reflexivity.
Qed.

Lemma taskStats_run (st : UserStats.t) :
  if taskQueriesOk s userID
  then exists st', taskStats s userID st = Ok st' /\
                   UserStats.RecentInteractions st'
                   = UserStats.RecentInteractions st /\
                   match taskRepo s with
                   | None => st' = st
                   | Some _ =>
                       UserStats.CompletedTasks st'
                       = sub64 (UserStats.TotalTasks st')
                               (UserStats.PendingTasks st') /\
                       UserStats.OverdueTasks st' = overdueOrZero s userID
                   end
  else taskStats s userID st = Err ErrInternalServer.
Proof.
  unfold taskQueriesOk, taskStats, overdueOrZero.
  destruct (taskRepo s) as [r|]; [|eexists; repeat split].
  run_section; try reflexivity;
    (eexists; split; [reflexivity|]; destruct st; repeat split; reflexivity).
Qed.

Lemma projectStats_run (st : UserStats.t) :
  if projectQueriesOk s userID
  then exists st', projectStats s userID st = Ok st' /\
                   taskCounters st' = taskCounters st /\
                   UserStats.RecentInteractions st'
                   = UserStats.RecentInteractions st
  else projectStats s userID st = Err ErrInternalServer.
Proof.
  unfold projectQueriesOk, projectStats.
  destruct (projectRepo s) as [r|]; [|eexists; repeat split].
  run_section; try reflexivity.
  eexists. split; [reflexivity|]. destruct st; split; reflexivity.
Qed.

Lemma interactionStats_run (st : UserStats.t) :
  if interactionQueriesOk s userID
  then exists st', interactionStats s userID st = Ok st' /\
                   taskCounters st' = taskCounters st /\
                   match interactionRepo s with
                   | None => st' = st
                   | Some _ =>
                       UserStats.RecentInteractions st' = recentOrZero s userID
                   end
  else interactionStats s userID st = Err ErrInternalServer.
Proof.
  unfold interactionQueriesOk, interactionStats, recentOrZero.
  destruct (interactionRepo s) as [r|]; [|eexists; repeat split].
  cbv zeta. run_section; try reflexivity;
    (eexists; split; [reflexivity|]; destruct st; split; reflexivity).
Qed.

(** What a run of [GetUserStats] comes to. *)
Lemma GetUserStats_run :
  if primaryQueriesOk s userID
  then exists st, GetUserStats s userID = Ok st /\
                  UserStats.CompletedTasks st
                  = sub64 (UserStats.TotalTasks st) (UserStats.PendingTasks st) /\
                  UserStats.OverdueTasks st = overdueOrZero s userID /\
                  UserStats.RecentInteractions st = recentOrZero s userID
  else GetUserStats s userID = Err ErrInternalServer.
Proof.
  unfold primaryQueriesOk, GetUserStats. cbv zeta.
  pose proof (contactStats_run UserStats.zero) as H1.
  destruct (contactQueriesOk s userID); cbn [andb];
    [destruct H1 as (st1 & -> & Ht1 & Hr1) | now rewrite H1].
  cbn [Go.bind].
  pose proof (taskStats_run st1) as H2.
  destruct (taskQueriesOk s userID); cbn [andb];
    [destruct H2 as (st2 & -> & Hr2 & Ht2) | now rewrite H2].
  cbn [Go.bind].
  pose proof (projectStats_run st2) as H3.
  destruct (projectQueriesOk s userID); cbn [andb];
    [destruct H3 as (st3 & -> & Ht3 & Hr3) | now rewrite H3].
  cbn [Go.bind].
  pose proof (interactionStats_run st3) as H4.
  destruct (interactionQueriesOk s userID);
    [destruct H4 as (st4 & -> & Ht4 & Hr4) | now rewrite H4].
  cbn [Go.bind]. exists st4. split; [reflexivity|].
  assert (Hrecent : UserStats.RecentInteractions st4 = recentOrZero s userID).
  { unfold recentOrZero in *. destruct (interactionRepo s); [exact Hr4|].
    subst st4. rewrite Hr3, Hr2, Hr1. reflexivity. }
  assert (Htask : taskCounters st4 = taskCounters st2) by congruence.
  unfold taskCounters in *. injection Htask as -> -> -> ->.
  unfold overdueOrZero in *. destruct (taskRepo s).
  - destruct Ht2 as [Hc Ho]. auto.
  - subst st2. injection Ht1 as -> -> -> ->. auto.
Qed.

End Stats.

(** C1 as stated fails: an error of the contact total is returned to the
    caller as [ErrInternalServer], no snapshot comes back. *)
Lemma contact_total_failure_fails_stats :
  ContactRepository.CountByUserID Sample.contactsDown 1 = Fail Sample.dbDown /\
  GetUserStats (Sample.serviceOf Sample.contactsDown (Sample.tasksOf [])) 1
  = Err ErrInternalServer.
Proof. split; reflexivity. Qed.

(** C1, amended. [GetUserStats] replaces a failed query by zero for two
    counters only, the overdue tasks and the recent interactions. When
    every other query (contact total and per-type counts, task total and
    pending count, project total and per-status counts, interaction
    listing) succeeds, the call succeeds whatever those two do, and every
    counter of the snapshot holds the answer of its own query: the nine
    counts as answered, the completed tasks as total minus pending, the
    interaction total as the length of the listing, the overdue tasks and
    the recent interactions as answered or zero (a nil repository leaves
    its counters at zero). When one of the other queries fails, the call
    fails with [ErrInternalServer]. *)
Theorem GetUserStats_failure_policy (s : userService) (userID : N) :
  (primaryQueriesOk s userID = true ->
   exists st, GetUserStats s userID = Ok st /\
              UserStats.OverdueTasks st = overdueOrZero s userID /\
              UserStats.RecentInteractions st = recentOrZero s userID /\
              UserStats.TotalContacts st
              = countOf (contactRepo s)
                  (fun r => ContactRepository.CountByUserID r userID) /\
              UserStats.TotalClients st
              = countOf (contactRepo s)
                  (fun r => ContactRepository.CountByType r userID
                              ContactTypeClient) /\
              UserStats.TotalLeads st
              = countOf (contactRepo s)
                  (fun r => ContactRepository.CountByType r userID
                              ContactTypeLead) /\
              UserStats.TotalTasks st
              = countOf (taskRepo s)
                  (fun r => TaskRepository.CountByUserID r userID) /\
              UserStats.PendingTasks st
              = countOf (taskRepo s)
                  (fun r => TaskRepository.CountPendingByUserID r userID) /\
              UserStats.CompletedTasks st
              = sub64 (UserStats.TotalTasks st) (UserStats.PendingTasks st) /\
              UserStats.TotalProjects st
              = countOf (projectRepo s)
                  (fun r => ProjectRepository.CountByUserID r userID) /\
              UserStats.ActiveProjects st
              = countOf (projectRepo s)
                  (fun r => ProjectRepository.CountByStatus r userID
                              ProjectStatusInProgress) /\
              UserStats.CompletedProjects st
              = countOf (projectRepo s)
                  (fun r => ProjectRepository.CountByStatus r userID
                              ProjectStatusCompleted) /\
              UserStats.TotalInteractions st
              = rowsOf (interactionRepo s)
                  (fun r => InteractionRepository.GetByUserID r userID
                              (interactionFilter 0))) /\
  (primaryQueriesOk s userID = false ->
   GetUserStats s userID = Err ErrInternalServer).
Proof.
  split.
  - unfold primaryQueriesOk, contactQueriesOk, taskQueriesOk, projectQueriesOk,
      interactionQueriesOk, GetUserStats, contactStats, taskStats,
      projectStats, interactionStats, overdueOrZero, recentOrZero, countOf,
      rowsOf.
    cbv zeta.
    destruct (contactRepo s), (taskRepo s), (projectRepo s),
      (interactionRepo s);
      repeat match goal with
        | |- context [replied ?q] =>
            destruct q; cbn [replied andb]; try (intros; discriminate)
        end;
      intros _;
      repeat match goal with
        | |- context [match ?q with Reply _ => _ | Fail _ => _ end] =>
            destruct q
        end;
      (eexists; split; [reflexivity|]); cbn; repeat split;
      rewrite ?Z.sub_diag; reflexivity.
  - intros Hq. pose proof (GetUserStats_run s userID) as H.
    rewrite Hq in H. exact H.
Qed.

Lemma GetUserStats_failure_policy_witness :
  TaskRepository.CountOverdueByUserID Sample.overdueDown 1 = Fail Sample.dbDown /\
  exists st,
    GetUserStats (Sample.serviceOf Sample.noContacts Sample.overdueDown) 1 = Ok st /\
    UserStats.OverdueTasks st = 0 /\
    UserStats.TotalTasks st = 3 /\
    UserStats.PendingTasks st = 1.
Proof.
  split; [reflexivity|].
  destruct (proj1 (GetUserStats_failure_policy
                     (Sample.serviceOf Sample.noContacts Sample.overdueDown) 1))
    as (st & Hrun & Ho & _ & _ & _ & _ & Ht & Hp & _).
  - reflexivity.
  - exists st. split; [exact Hrun|]. split; [exact Ho|].
    split; [exact Ht | exact Hp].
Defined.

Lemma wrap64_id (z : Z) : in_int64 z -> wrap64 z = z.
Proof.
  unfold in_int64, wrap64. intros H. rewrite Z.mod_small; lia.
Qed.

Lemma add64_sub64 (total pending : Z) :
  in_int64 total -> add64 pending (sub64 total pending) = total.
Proof.
  intros H. unfold add64, sub64. rewrite <- (wrap64_id total H) at 2.
  unfold wrap64. f_equal.
  replace (pending + ((total - pending + 2 ^ 63) mod 2 ^ 64 - 2 ^ 63) + 2 ^ 63)
    with (pending + (total - pending + 2 ^ 63) mod 2 ^ 64) by lia.
  rewrite Z.add_mod_idemp_r by lia. f_equal. lia.
Qed.

(** C10. In a snapshot returned by [GetUserStats] the completed-task
    counter is the total minus the pending counter, in [int64] arithmetic,
    so pending plus completed gives the total again. *)
Theorem GetUserStats_completed_tasks (s : userService) (userID : N)
  (st : UserStats.t) :
  GetUserStats s userID = Ok st ->
  in_int64 (UserStats.TotalTasks st) ->
  UserStats.CompletedTasks st
  = sub64 (UserStats.TotalTasks st) (UserStats.PendingTasks st) /\
  add64 (UserStats.PendingTasks st) (UserStats.CompletedTasks st)
  = UserStats.TotalTasks st.
Proof.
  intros Hrun Hrange. pose proof (GetUserStats_run s userID) as H.
  destruct (primaryQueriesOk s userID); [|congruence].
  destruct H as (st' & Hrun' & Hc & _).
  assert (st' = st) by congruence. subst st'.
  split; [exact Hc|]. rewrite Hc. now apply add64_sub64.
Qed.

Lemma GetUserStats_completed_tasks_witness :
  exists st,
    GetUserStats (Sample.serviceOf Sample.noContacts Sample.overdueDown) 1 = Ok st /\
    UserStats.TotalTasks st = 3 /\
    UserStats.PendingTasks st = 1 /\
    UserStats.CompletedTasks st = 2 /\
    add64 (UserStats.PendingTasks st) (UserStats.CompletedTasks st)
    = UserStats.TotalTasks st.
Proof.
  eexists. split; [vm_compute; reflexivity|].
  split; [reflexivity|]. split; [reflexivity|]. split; [reflexivity|].
  eapply (GetUserStats_completed_tasks
            (Sample.serviceOf Sample.noContacts Sample.overdueDown) 1).
  - vm_compute; reflexivity.
  - unfold in_int64. simpl. lia.
Defined.

(** ** The dashboard *)

(** C6 as stated fails: with the contact source down the statistics step
    already fails, and so does the whole call. *)
Lemma contact_source_down_fails_dashboard :
  (forall userID f,
      ContactRepository.GetByUserID Sample.contactsDown userID f
      = Fail Sample.dbDown) /\
  GetDashboardData insertionSort
    (Sample.serviceOf Sample.contactsDown (Sample.tasksOf [])) 1
  = Err ErrInternalServer.
Proof. split; [intros; reflexivity | reflexivity]. Qed.

Lemma panel_Some {R A B} (repo : option R) (r : R)
  (query : R -> reply (list A)) (project : A -> B) :
  repo = Some r ->
  match query r with
  | Reply rows => panel repo query project = map project rows
  | Fail _ => panel repo query project = []
  end.
Proof. intros ->. unfold panel. destruct (query r); reflexivity. Qed.

(** C6, amended. [GetDashboardData] fails with the error of the statistics
    step or of the activity feed when one of them fails. When both succeed
    the call succeeds, carrying their results; each recent-items list then
    holds the projected rows of its own listing query, or is empty when
    that query failed. A source that fails every query fails the statistics
    and with them the call: a failed contact count, like any failed query
    of the statistics other than the overdue-task count and the
    recent-interaction listing, ends the call with [ErrInternalServer]. *)
Theorem GetDashboardData_failure_policy (sort_Slice : Sorter)
  (s : userService) (userID : N) :
  (forall e, GetUserStats s userID = Err e ->
             GetDashboardData sort_Slice s userID = Err e) /\
  (forall st e,
      GetUserStats s userID = Ok st ->
      GetRecentActivities sort_Slice s userID 10 = Err e ->
      GetDashboardData sort_Slice s userID = Err e) /\
  (forall st resp,
      GetUserStats s userID = Ok st ->
      GetRecentActivities sort_Slice s userID 10 = Ok resp ->
      exists d,
        GetDashboardData sort_Slice s userID = Ok d /\
        DashboardData.Stats d = st /\
        DashboardData.RecentActivities d
        = RecentActivityResponse.Activities resp /\
        (forall r, contactRepo s = Some r ->
           match ContactRepository.GetByUserID r userID (contactFilter 5) with
           | Reply rows =>
               DashboardData.RecentContacts d = map toDashboardContact rows
           | Fail _ => DashboardData.RecentContacts d = []
           end) /\
        (forall r, taskRepo s = Some r ->
           match TaskRepository.GetByUserID r userID
                   (taskFilter TaskStatusPending 5) with
           | Reply rows =>
               DashboardData.RecentPendingTasks d = map toDashboardTask rows
           | Fail _ => DashboardData.RecentPendingTasks d = []
           end) /\
        (forall r, projectRepo s = Some r ->
           match ProjectRepository.GetByUserID r userID
                   (projectFilter "IN_PROGRESS" 5) with
           | Reply rows =>
               DashboardData.RecentProjects d = map toDashboardProject rows
           | Fail _ => DashboardData.RecentProjects d = []
           end) /\
        (forall r, interactionRepo s = Some r ->
           match InteractionRepository.GetByUserID r userID
                   (interactionFilter 5) with
           | Reply rows =>
               DashboardData.RecentInteractions d
               = map toDashboardInteraction rows
           | Fail _ => DashboardData.RecentInteractions d = []
           end)) /\
  (forall r e,
      contactRepo s = Some r ->
      ContactRepository.CountByUserID r userID = Fail e ->
      GetDashboardData sort_Slice s userID = Err ErrInternalServer) /\
  (primaryQueriesOk s userID = false ->
   GetDashboardData sort_Slice s userID = Err ErrInternalServer).
Proof.
  unfold GetDashboardData. split; [|split; [|split; [|split]]].
  4:{ intros r e Hr He. unfold GetUserStats, contactStats. cbv zeta.
      rewrite Hr, He. reflexivity. }
  4:{ intros Hq. pose proof (GetUserStats_run s userID) as H.
      rewrite Hq in H. rewrite H. reflexivity. }
  - intros e ->. reflexivity.
  - intros st e -> ->. reflexivity.
  - intros st resp -> ->. cbn [Go.bind]. eexists. split; [reflexivity|].
    cbn [DashboardData.Stats DashboardData.RecentActivities
         DashboardData.RecentContacts DashboardData.RecentPendingTasks
         DashboardData.RecentProjects DashboardData.RecentInteractions].
    split; [reflexivity|]. split; [reflexivity|].
    repeat split; intros r Hr.
    + exact (panel_Some _ r
               (fun r => ContactRepository.GetByUserID r userID (contactFilter 5))
               toDashboardContact Hr).
    + exact (panel_Some _ r
               (fun r => TaskRepository.GetByUserID r userID
                           (taskFilter TaskStatusPending 5))
               toDashboardTask Hr).
    + exact (panel_Some _ r
               (fun r => ProjectRepository.GetByUserID r userID
                           (projectFilter "IN_PROGRESS" 5))
               toDashboardProject Hr).
    + exact (panel_Some _ r
               (fun r => InteractionRepository.GetByUserID r userID
                           (interactionFilter 5))
               toDashboardInteraction Hr).
Qed.

Lemma GetDashboardData_failure_policy_witness :
  ContactRepository.GetByUserID Sample.recentContactsDown 1 (contactFilter 5)
  = Fail Sample.dbDown /\
  exists d,
    GetDashboardData insertionSort
      (Sample.serviceOf Sample.recentContactsDown
         (Sample.tasksOf [Sample.pendingTask])) 1 = Ok d /\
    DashboardData.RecentContacts d = [] /\
    DashboardData.RecentPendingTasks d = [toDashboardTask Sample.pendingTask].
Proof.
  split; [reflexivity|].
  destruct (proj1 (proj2 (proj2 (GetDashboardData_failure_policy insertionSort
              (Sample.serviceOf Sample.recentContactsDown
                 (Sample.tasksOf [Sample.pendingTask])) 1))))
    with (st := UserStats.Build_t 0 0 0 1 0 1 0 0 0 0 0 0)
         (resp := {| RecentActivityResponse.Activities :=
                       [UserActivity.Build_t 9 ActivityTypeTask ActionCreated
                          "Tarefa sem título" "" 9
                          (3 * Sample.day) (3 * Sample.day) None None];
                     RecentActivityResponse.Count := 1 |})
    as (d & Hd & _ & _ & Hc & Ht & _).
  - reflexivity.
  - reflexivity.
  - exists d. split; [exact Hd|]. split.
    + exact (Hc Sample.recentContactsDown eq_refl).
    + exact (Ht (Sample.tasksOf [Sample.pendingTask]) eq_refl).
Defined.

(** * Further properties *)

(** ** [truncateString] at any bound *)

Lemma substring_0_all (s : string) : substring 0 (String.length s) s = s.
Proof. induction s as [|c s IH]; simpl; [reflexivity | now rewrite IH]. Qed.

Lemma sub64_small (maxLength : Z) :
  - 2 ^ 63 + 3 <= maxLength < 2 ^ 63 -> sub64 maxLength 3 = maxLength - 3.
Proof. intros H. unfold sub64. apply wrap64_id. unfold in_int64. lia. Qed.

Lemma truncateString_long (s : string) (maxLength : Z) :
  3 <= maxLength < 2 ^ 63 ->
  maxLength < len s ->
  truncateString s maxLength
  = Ok (substring 0 (Z.to_nat (maxLength - 3)) s ++ "...")%string /\
  len (substring 0 (Z.to_nat (maxLength - 3)) s ++ "...")%string = maxLength.
Proof.
  intros Hm Hs. unfold truncateString.
  destruct (Z.leb_spec (len s) maxLength); [lia|].
  rewrite sub64_small by lia. unfold sliceTo.
  destruct (Z.leb_spec 0 (maxLength - 3)); [|lia].
  destruct (Z.leb_spec (maxLength - 3) (len s)); [|lia].
  split; [reflexivity|].
  unfold len in *. rewrite string_length_append, length_substring_0 by lia.
  simpl. lia.
Qed.

Lemma truncateString_len (s t : string) (maxLength : Z) :
  3 <= maxLength < 2 ^ 63 ->
  truncateString s maxLength = Ok t -> len t <= maxLength.
Proof.
  intros Hm H. destruct (Z_le_gt_dec (len s) maxLength) as [Hs|Hs].
  - rewrite truncateString_short in H by assumption. now injection H as <-.
  - destruct (truncateString_long s maxLength Hm) as [Hrun Hlen]; [lia|].
    rewrite Hrun in H. injection H as <-. lia.
Qed.

(** X1. With a bound of at least 3, [truncateString] never panics and
    never returns more than [maxLength] bytes: a string within the bound
    comes back as it is, a longer one is cut to [maxLength - 3] bytes
    followed by ["..."], [maxLength] bytes in all. *)
Theorem truncateString_bound (s : string) (maxLength : Z) :
  3 <= maxLength < 2 ^ 63 ->
  exists t,
    truncateString s maxLength = Ok t /\
    len t <= maxLength /\
    (len s <= maxLength -> t = s) /\
    (maxLength < len s ->
     t = (substring 0 (Z.to_nat (maxLength - 3)) s ++ "...")%string /\
     len t = maxLength).
Proof.
  intros Hm. destruct (Z_le_gt_dec (len s) maxLength) as [Hs|Hs].
  - exists s. split; [now apply truncateString_short|].
    split; [assumption|]. split; [reflexivity | lia].
  - destruct (truncateString_long s maxLength Hm) as [Hrun Hlen]; [lia|].
    eexists. split; [exact Hrun|]. split; [lia|].
    split; [lia|]. intros _. split; [reflexivity | exact Hlen].
Qed.

Lemma truncateString_bound_witness :
  truncateString "Reunião de alinhamento" 10 = Ok "Reuniã..." /\
  len "Reuniã..." = 10.
Proof.
  destruct (truncateString_bound "Reunião de alinhamento" 10) as (t & Ht & _ & _ & Hl).
  - lia.
  - destruct Hl as [-> Hlen]; [reflexivity|]. split; [exact Ht | exact Hlen].
Defined.

(** X2. With a bound below 3, [truncateString] panics on every string
    longer than the bound: the slice [s[:maxLength-3]] has a negative
    end. *)
Theorem truncateString_small_bound_panics (s : string) (maxLength : Z) :
  - 2 ^ 63 + 3 <= maxLength < 3 ->
  maxLength < len s ->
  truncateString s maxLength = Panic.
Proof.
  intros Hm Hs. unfold truncateString.
  destruct (Z.leb_spec (len s) maxLength); [lia|].
  rewrite sub64_small by lia. unfold sliceTo.
  destruct (Z.leb_spec 0 (maxLength - 3)); [lia|]. reflexivity.
Qed.

Lemma truncateString_small_bound_panics_witness :
  truncateString "abcd" 2 = Panic.
Proof.
  apply (truncateString_small_bound_panics "abcd" 2); [lia | reflexivity].
Defined.

(** X3. Truncating twice is truncating once. *)
Theorem truncateString_idempotent (s t : string) (maxLength : Z) :
  3 <= maxLength < 2 ^ 63 ->
  truncateString s maxLength = Ok t ->
  truncateString t maxLength = Ok t.
Proof.
  intros Hm Hs. apply truncateString_short.
  exact (truncateString_len s t maxLength Hm Hs).
Qed.

Lemma truncateString_idempotent_witness :
  truncateString "Reuniã..." 10 = Ok "Reuniã...".
Proof.
  apply (truncateString_idempotent "Reunião de alinhamento" "Reuniã..." 10).
  - lia.
  - reflexivity.
Defined.

(** ** The four derivations *)

Lemma fallback_nonempty (title placeholder : string) :
  placeholder <> "" ->
  (if String.eqb title "" then placeholder else title) <> "".
Proof. intros Hp. destruct (String.eqb_spec title ""); assumption. Qed.

Lemma truncateString_100_len (s d : string) :
  truncateString s 100 = Ok d -> len d <= 100.
Proof.
  apply truncateString_len. lia.
Qed.

Lemma setRelated_presentable (a : UserActivity.t) id name :
  presentable a -> presentable (UserActivity.setRelated a id name).
Proof. destruct a. exact (fun H => H). Qed.

Lemma createActivityFromInteraction_presentable interaction :
  exists c, createActivityFromInteraction interaction = Ok c /\ presentable c.
Proof.
  unfold createActivityFromInteraction.
  destruct (truncateString (Interaction.Description interaction) 100) as [d| |]
    eqn:Hd; try (destruct (truncateString_100_total
                             (Interaction.Description interaction)); congruence).
  cbn [Go.bind]. cbv zeta.
  destruct (negb _); eexists; (split; [reflexivity|]);
    try apply setRelated_presentable;
    (split; [apply fallback_nonempty; discriminate
            | exact (truncateString_100_len _ _ Hd)]).
Qed.

Lemma createActivityFromTask_presentable task :
  exists c, createActivityFromTask task = Ok c /\ presentable c.
Proof.
  unfold createActivityFromTask.
  destruct (truncateString (Task.Description task) 100) as [d| |]
    eqn:Hd; try (destruct (truncateString_100_total (Task.Description task));
                 congruence).
  cbn [Go.bind]. cbv zeta.
  destruct (namedContact task) as [[id name]|];
    [|destruct (namedProject task) as [[id name]|]];
    eexists; (split; [reflexivity|]);
    try apply setRelated_presentable;
    (split; [apply fallback_nonempty; discriminate
            | exact (truncateString_100_len _ _ Hd)]).
Qed.

Lemma createActivityFromProject_presentable project :
  exists c, createActivityFromProject project = Ok c /\ presentable c.
Proof.
  unfold createActivityFromProject.
  destruct (truncateString (Project.Description project) 100) as [d| |]
    eqn:Hd; try (destruct (truncateString_100_total
                             (Project.Description project)); congruence).
  cbn [Go.bind]. cbv zeta.
  destruct (_ && _); eexists; (split; [reflexivity|]);
    try apply setRelated_presentable;
    (split; [apply fallback_nonempty; discriminate
            | exact (truncateString_100_len _ _ Hd)]).
Qed.

Lemma createActivityFromContact_presentable contact :
  exists c, createActivityFromContact contact = Ok c /\ presentable c.
Proof.
  unfold createActivityFromContact.
  destruct (truncateString (Contact.Notes contact) 100) as [d| |]
    eqn:Hd; try (destruct (truncateString_100_total (Contact.Notes contact));
                 congruence).
  cbn [Go.bind]. eexists. split; [reflexivity|].
  split; [apply fallback_nonempty; discriminate
         | exact (truncateString_100_len _ _ Hd)].
Qed.

(** X4. Each of the four [createActivityFrom...] functions returns an
    event for every record, without panic, and the event always has a
    non-empty title (the placeholder stands in for an empty one) and a
    detail of at most 100 bytes. *)
Theorem created_events_presentable :
  (forall interaction, exists c,
      createActivityFromInteraction interaction = Ok c /\ presentable c) /\
  (forall task, exists c, createActivityFromTask task = Ok c /\ presentable c) /\
  (forall project, exists c,
      createActivityFromProject project = Ok c /\ presentable c) /\
  (forall contact, exists c,
      createActivityFromContact contact = Ok c /\ presentable c).
Proof.
  split; [exact createActivityFromInteraction_presentable|].
  split; [exact createActivityFromTask_presentable|].
  split; [exact createActivityFromProject_presentable
         | exact createActivityFromContact_presentable].
Qed.

(** X5. The association of a task event: a loaded contact with a name
    wins over the project; without it a loaded project with a name is
    used; otherwise [RelatedID] and [RelatedName] are both nil. The two
    fields are always set together. *)
Theorem createActivityFromTask_related (task : Task.t) (c : UserActivity.t) :
  createActivityFromTask task = Ok c ->
  (forall id contact,
      Task.ContactID task = Some id -> Task.Contact task = Some contact ->
      Contact.Name contact <> "" ->
      UserActivity.RelatedID c = Some id /\
      UserActivity.RelatedName c = Some (Contact.Name contact)) /\
  (namedContact task = None ->
   forall id project,
     Task.ProjectID task = Some id -> Task.Project task = Some project ->
     Project.Name project <> "" ->
     UserActivity.RelatedID c = Some id /\
     UserActivity.RelatedName c = Some (Project.Name project)) /\
  (namedContact task = None -> namedProject task = None ->
   UserActivity.RelatedID c = None /\ UserActivity.RelatedName c = None) /\
  (UserActivity.RelatedID c = None <-> UserActivity.RelatedName c = None).
Proof.
  unfold createActivityFromTask.
  destruct (truncateString (Task.Description task) 100) as [d| |];
    cbn [Go.bind]; try discriminate.
  cbv zeta. intros H.
  assert (Hc : forall id contact,
             Task.ContactID task = Some id -> Task.Contact task = Some contact ->
             Contact.Name contact <> "" ->
             namedContact task = Some (id, Contact.Name contact)).
  { intros id contact Hid Hct Hn. unfold namedContact. rewrite Hid, Hct.
    destruct (String.eqb_spec (Contact.Name contact) ""); [contradiction|].
    reflexivity. }
  assert (Hp : forall id project,
             Task.ProjectID task = Some id -> Task.Project task = Some project ->
             Project.Name project <> "" ->
             namedProject task = Some (id, Project.Name project)).
  { intros id project Hid Hpr Hn. unfold namedProject. rewrite Hid, Hpr.
    destruct (String.eqb_spec (Project.Name project) ""); [contradiction|].
    reflexivity. }
  destruct (namedContact task) as [[cid cname]|] eqn:Ec;
    [|destruct (namedProject task) as [[pid pname]|] eqn:Ep];
    injection H as <-; cbn.
  - split; [|split; [discriminate|split; [discriminate|split; discriminate]]].
    intros id contact Hid Hct Hn. specialize (Hc id contact Hid Hct Hn).
    injection Hc as -> ->. split; reflexivity.
  - split; [|split; [|split; [discriminate|split; discriminate]]].
    + intros id contact Hid Hct Hn. specialize (Hc id contact Hid Hct Hn).
      discriminate.
    + intros _ id project Hid Hpr Hn. specialize (Hp id project Hid Hpr Hn).
      injection Hp as -> ->. split; reflexivity.
  - split; [|split; [|split; [|split; reflexivity]]].
    + intros id contact Hid Hct Hn. specialize (Hc id contact Hid Hct Hn).
      discriminate.
    + intros _ id project Hid Hpr Hn. specialize (Hp id project Hid Hpr Hn).
      discriminate.
    + split; reflexivity.
Qed.

Lemma createActivityFromTask_related_witness :
  exists c,
    createActivityFromTask SampleLinks.linkedTask = Ok c /\
    UserActivity.RelatedID c = Some 4%N /\
    UserActivity.RelatedName c = Some "Carla".
Proof.
  eexists. split; [vm_compute; reflexivity|].
  refine (proj1 (createActivityFromTask_related SampleLinks.linkedTask _ _)
            4%N SampleLinks.client eq_refl eq_refl _).
  - vm_compute; reflexivity.
  - discriminate.
Defined.

Lemma After_touched (createdAt updatedAt : Time) :
  After updatedAt (Add createdAt Minute) = true <-> touched createdAt updatedAt.
Proof. unfold After, Add, Minute, touched. rewrite Z.ltb_lt. lia. Qed.

Lemma After_untouched (createdAt updatedAt : Time) :
  After updatedAt (Add createdAt Minute) = false <-> ~ touched createdAt updatedAt.
Proof. unfold After, Add, Minute, touched. rewrite Z.ltb_ge. lia. Qed.

Lemma derived_presentable c action t :
  presentable c -> presentable (derived c action t).
Proof. destruct c. exact (fun H => H). Qed.

Lemma setAction_presentable c action :
  presentable c -> presentable (UserActivity.setAction c action).
Proof. destruct c. exact (fun H => H). Qed.

(** X6. The events of one task, in the order they are appended: always a
    [Created] event at [CreatedAt]; then an [Updated] event exactly when
    [UpdatedAt] is more than one minute after [CreatedAt] (one minute
    sharp does not count); then a [Completed] event exactly when the
    status is [COMPLETED], whatever the timestamps. Both derived events
    carry [UpdatedAt]. *)
Theorem taskActivities_events (acc : list UserActivity.t) (task : Task.t) :
  exists created updated completed,
    taskActivities acc task = Ok (acc ++ created :: updated ++ completed) /\
    UserActivity.Action created = ActionCreated /\
    UserActivity.CreatedAt created = Task.CreatedAt task /\
    (touched (Task.CreatedAt task) (Task.UpdatedAt task) ->
     updated = [derived created ActionUpdated (Task.UpdatedAt task)]) /\
    (~ touched (Task.CreatedAt task) (Task.UpdatedAt task) -> updated = []) /\
    (Task.Status task = TaskStatusCompleted ->
     completed = [derived created ActionCompleted (Task.UpdatedAt task)]) /\
    (Task.Status task <> TaskStatusCompleted -> completed = []).
Proof.
  destruct (taskActivities_appends acc task) as (c & Hact & Hat & Hrun).
  exists c.
  exists (if After (Task.UpdatedAt task) (Add (Task.CreatedAt task) Minute)
          then [derived c ActionUpdated (Task.UpdatedAt task)] else []).
  exists (if String.eqb (Task.Status task) TaskStatusCompleted
          then [derived c ActionCompleted (Task.UpdatedAt task)] else []).
  split; [rewrite Hrun; now rewrite <- !app_assoc|].
  split; [exact Hact|]. split; [exact Hat|].
  repeat split.
  - intros Ht. apply After_touched in Ht. now rewrite Ht.
  - intros Ht. apply After_untouched in Ht. now rewrite Ht.
  - intros ->. reflexivity.
  - intros Hs. apply String.eqb_neq in Hs. now rewrite Hs.
Qed.

Lemma projectActivities_appends (acc : list UserActivity.t) (project : Project.t) :
  exists created,
    UserActivity.Action created = ActionCreated /\
    UserActivity.CreatedAt created = Project.CreatedAt project /\
    presentable created /\
    projectActivities acc project =
      Ok ((acc ++ [created])
          ++ (if After (Project.UpdatedAt project)
                       (Add (Project.CreatedAt project) Minute)
              then [derived created
                      (if String.eqb (Project.Status project)
                                     ProjectStatusInProgress
                       then ActionStarted
                       else if String.eqb (Project.Status project)
                                          ProjectStatusCompleted
                       then ActionCompleted
                       else if String.eqb (Project.Status project)
                                          ProjectStatusCancelled
                       then ActionCancelled
                       else ActionUpdated)
                      (Project.UpdatedAt project)]
              else [])).
Proof.
  destruct (createActivityFromProject_presentable project) as (c & Hc & Hp).
  exists (UserActivity.setAction c ActionCreated).
  rewrite setAction_Action, setAction_CreatedAt.
  split; [reflexivity|]. split.
  { unfold createActivityFromProject in Hc.
    destruct (truncateString _ 100); cbn [Go.bind] in Hc; try discriminate.
    cbv zeta in Hc. destruct (_ && _); injection Hc as <-; reflexivity. }
  split; [now apply setAction_presentable|].
  unfold projectActivities. rewrite Hc. cbn [Go.bind]. cbv zeta.
  destruct (After _ _); [reflexivity | now rewrite app_nil_r].
Qed.

(** X7. The events of one project: always a [Created] event at
    [CreatedAt], also for a project that is completed or cancelled; and,
    only when [UpdatedAt] is more than one minute after [CreatedAt], one
    more event at [UpdatedAt] whose action follows the status: [Started]
    for [IN_PROGRESS], [Completed] for [COMPLETED], [Cancelled] for
    [CANCELLED], [Updated] for any other. Never more than two events. *)
Theorem projectActivities_events (acc : list UserActivity.t)
  (project : Project.t) :
  exists created,
    UserActivity.Action created = ActionCreated /\
    UserActivity.CreatedAt created = Project.CreatedAt project /\
    (~ touched (Project.CreatedAt project) (Project.UpdatedAt project) ->
     projectActivities acc project = Ok (acc ++ [created])) /\
    (touched (Project.CreatedAt project) (Project.UpdatedAt project) ->
     exists d,
       projectActivities acc project = Ok (acc ++ [created; d]) /\
       UserActivity.CreatedAt d = Project.UpdatedAt project /\
       (Project.Status project = ProjectStatusInProgress ->
        UserActivity.Action d = ActionStarted) /\
       (Project.Status project = ProjectStatusCompleted ->
        UserActivity.Action d = ActionCompleted) /\
       (Project.Status project = ProjectStatusCancelled ->
        UserActivity.Action d = ActionCancelled) /\
       (Project.Status project <> ProjectStatusInProgress ->
        Project.Status project <> ProjectStatusCompleted ->
        Project.Status project <> ProjectStatusCancelled ->
        UserActivity.Action d = ActionUpdated)).
Proof.
  destruct (projectActivities_appends acc project) as (c & Hact & Hat & _ & Hrun).
  exists c. split; [exact Hact|]. split; [exact Hat|]. split.
  - intros Ht. apply After_untouched in Ht. rewrite Ht in Hrun.
    now rewrite app_nil_r in Hrun.
  - intros Ht. apply After_touched in Ht. rewrite Ht in Hrun.
    rewrite <- app_assoc in Hrun. eexists. split; [exact Hrun|].
    rewrite derived_CreatedAt, derived_Action. split; [reflexivity|].
    repeat split.
    + intros ->. reflexivity.
    + intros ->. reflexivity.
    + intros ->. reflexivity.
    + intros H1 H2 H3. apply String.eqb_neq in H1, H2, H3.
      now rewrite H1, H2, H3.
Qed.

Lemma interactionActivities_appends (acc : list UserActivity.t)
  (interaction : Interaction.t) :
  exists created,
    UserActivity.Action created = ActionCreated /\
    UserActivity.CreatedAt created = Interaction.CreatedAt interaction /\
    presentable created /\
    interactionActivities acc interaction =
      Ok ((acc ++ [created])
          ++ (if After (Interaction.UpdatedAt interaction)
                       (Add (Interaction.CreatedAt interaction) Minute)
              then [derived created ActionUpdated
                      (Interaction.UpdatedAt interaction)]
              else [])).
Proof.
  destruct (createActivityFromInteraction_presentable interaction)
    as (c & Hc & Hp).
  exists c.
  assert (Hf : UserActivity.Action c = ActionCreated /\
               UserActivity.CreatedAt c = Interaction.CreatedAt interaction).
  { unfold createActivityFromInteraction in Hc.
    destruct (truncateString _ 100); cbn [Go.bind] in Hc; try discriminate.
    cbv zeta in Hc. destruct (negb _); injection Hc as <-; split; reflexivity. }
  destruct Hf as [Ha Hat]. split; [exact Ha|]. split; [exact Hat|].
  split; [exact Hp|].
  unfold interactionActivities. rewrite Hc. cbn [Go.bind]. cbv zeta.
  destruct (After _ _); [reflexivity | now rewrite app_nil_r].
Qed.

Lemma contactActivities_appends (acc : list UserActivity.t) (contact : Contact.t) :
  exists created,
    UserActivity.Action created = ActionCreated /\
    UserActivity.CreatedAt created = Contact.CreatedAt contact /\
    presentable created /\
    contactActivities acc contact =
      Ok ((acc ++ [created])
          ++ (if After (Contact.UpdatedAt contact)
                       (Add (Contact.CreatedAt contact) Minute)
              then [derived created ActionUpdated (Contact.UpdatedAt contact)]
              else [])).
Proof.
  destruct (createActivityFromContact_presentable contact) as (c & Hc & Hp).
  exists c.
  assert (Hf : UserActivity.Action c = ActionCreated /\
               UserActivity.CreatedAt c = Contact.CreatedAt contact).
  { unfold createActivityFromContact in Hc.
    destruct (truncateString _ 100); cbn [Go.bind] in Hc; try discriminate.
    injection Hc as <-; split; reflexivity. }
  destruct Hf as [Ha Hat]. split; [exact Ha|]. split; [exact Hat|].
  split; [exact Hp|].
  unfold contactActivities. rewrite Hc. cbn [Go.bind]. cbv zeta.
  destruct (After _ _); [reflexivity | now rewrite app_nil_r].
Qed.

(** X8. The events of one interaction and of one contact: a [Created]
    event at [CreatedAt], followed by an [Updated] event at [UpdatedAt]
    exactly when [UpdatedAt] is more than one minute after [CreatedAt]. *)
Theorem interaction_contact_events :
  (forall acc interaction, exists created,
      UserActivity.Action created = ActionCreated /\
      UserActivity.CreatedAt created = Interaction.CreatedAt interaction /\
      (~ touched (Interaction.CreatedAt interaction)
                 (Interaction.UpdatedAt interaction) ->
       interactionActivities acc interaction = Ok (acc ++ [created])) /\
      (touched (Interaction.CreatedAt interaction)
               (Interaction.UpdatedAt interaction) ->
       interactionActivities acc interaction
       = Ok (acc ++ [created; derived created ActionUpdated
                                (Interaction.UpdatedAt interaction)]))) /\
  (forall acc contact, exists created,
      UserActivity.Action created = ActionCreated /\
      UserActivity.CreatedAt created = Contact.CreatedAt contact /\
      (~ touched (Contact.CreatedAt contact) (Contact.UpdatedAt contact) ->
       contactActivities acc contact = Ok (acc ++ [created])) /\
      (touched (Contact.CreatedAt contact) (Contact.UpdatedAt contact) ->
       contactActivities acc contact
       = Ok (acc ++ [created; derived created ActionUpdated
                                (Contact.UpdatedAt contact)]))).
Proof.
  split.
  - intros acc interaction.
    destruct (interactionActivities_appends acc interaction)
      as (c & Ha & Hat & _ & Hrun).
    exists c. split; [exact Ha|]. split; [exact Hat|]. split; intros Ht.
    + apply After_untouched in Ht. rewrite Ht in Hrun.
      now rewrite app_nil_r in Hrun.
    + apply After_touched in Ht. rewrite Ht in Hrun.
      now rewrite <- app_assoc in Hrun.
  - intros acc contact.
    destruct (contactActivities_appends acc contact) as (c & Ha & Hat & _ & Hrun).
    exists c. split; [exact Ha|]. split; [exact Hat|]. split; intros Ht.
    + apply After_untouched in Ht. rewrite Ht in Hrun.
      now rewrite app_nil_r in Hrun.
    + apply After_touched in Ht. rewrite Ht in Hrun.
      now rewrite <- app_assoc in Hrun.
Qed.

(** X9. An interaction event always points to its contact: [RelatedID]
    is the interaction's [ContactID] even when the contact is not loaded
    or has no name; only [RelatedName] depends on the name. *)
Theorem createActivityFromInteraction_related (interaction : Interaction.t) :
  exists c,
    createActivityFromInteraction interaction = Ok c /\
    UserActivity.RelatedID c = Some (Interaction.ContactID interaction) /\
    (Contact.Name (Interaction.Contact interaction) = "" ->
     UserActivity.RelatedName c = None) /\
    (Contact.Name (Interaction.Contact interaction) <> "" ->
     UserActivity.RelatedName c
     = Some (Contact.Name (Interaction.Contact interaction))).
Proof.
  unfold createActivityFromInteraction.
  destruct (truncateString_100_total (Interaction.Description interaction))
    as [d ->].
  cbn [Go.bind]. cbv zeta.
  destruct (String.eqb_spec (Contact.Name (Interaction.Contact interaction)) "")
    as [He|He]; cbn [negb]; eexists; (split; [reflexivity|]); cbn;
    (split; [reflexivity|]); split; intros H; congruence.
Qed.

(** ** The feed as a whole *)

Lemma orInternal_Ok {A} (q : reply A) (a : A) :
  orInternal q = Ok a -> q = Reply a.
Proof. destruct q; simpl; congruence. Qed.

(** A successful run, step by step. *)
Lemma GetRecentActivities_Ok_trace (sort_Slice : Sorter) s userID limit resp :
  GetRecentActivities sort_Slice s userID limit = Ok resp ->
  let fetch := mul64 (effectiveLimit limit) 2 in
  exists ir tr pr cr irows trows prows crows a1 a2 a3 a4,
    interactionRepo s = Some ir /\ taskRepo s = Some tr /\
    projectRepo s = Some pr /\ contactRepo s = Some cr /\
    InteractionRepository.GetRecentByUserID ir userID 30 fetch = Reply irows /\
    TaskRepository.GetByUserID tr userID (taskFilter "" fetch) = Reply trows /\
    ProjectRepository.GetByUserID pr userID (projectFilter "" fetch)
    = Reply prows /\
    ContactRepository.GetByUserID cr userID (contactFilter fetch) = Reply crows /\
    forEach interactionActivities irows [] = Ok a1 /\
    forEach taskActivities trows a1 = Ok a2 /\
    forEach projectActivities prows a2 = Ok a3 /\
    forEach contactActivities crows a3 = Ok a4 /\
    RecentActivityResponse.Activities resp
    = capTo (effectiveLimit limit) (sortActivitiesByDate sort_Slice a4).
Proof.
  unfold GetRecentActivities. cbv zeta. intros H.
  do 12 bind_ok H. injection H as <-.
  apply deref_Ok in E, E2, E5, E8.
  apply orInternal_Ok in E0, E3, E6, E9.
  exists a, a2, a5, a8, a0, a3, a6, a9, a1, a4, a7, a10.
  repeat split; assumption.
Qed.

Lemma forEach_invariant {A S} (P : S -> Prop) (body : S -> A -> result S) :
  (forall st x st', P st -> body st x = Ok st' -> P st') ->
  forall xs st st', P st -> forEach body xs st = Ok st' -> P st'.
Proof.
  intros Hbody xs. induction xs as [|x xs IH]; intros st st' Hst H; simpl in H.
  - now injection H as <-.
  - destruct (body st x) as [st1| |] eqn:E; cbn [Go.bind] in H; try discriminate.
    eapply IH; [|exact H]. eapply Hbody; eassumption.
Qed.

Lemma Forall_presentable_app (l : list UserActivity.t) (l' : list UserActivity.t) :
  Forall presentable l -> Forall presentable l' -> Forall presentable (l ++ l').
Proof. intros H H'. apply Forall_app. now split. Qed.

Lemma interactionActivities_presentable acc interaction acc' :
  Forall presentable acc -> interactionActivities acc interaction = Ok acc' ->
  Forall presentable acc'.
Proof.
  intros Hacc H.
  destruct (interactionActivities_appends acc interaction)
    as (c & _ & _ & Hp & Hrun).
  rewrite Hrun in H. injection H as <-.
  apply Forall_presentable_app;
    [apply Forall_presentable_app;
       [exact Hacc | constructor; [exact Hp | constructor]]|].
  destruct (After _ _); constructor; [now apply derived_presentable | constructor].
Qed.

Lemma taskActivities_presentable acc task acc' :
  Forall presentable acc -> taskActivities acc task = Ok acc' ->
  Forall presentable acc'.
Proof.
  intros Hacc H.
  destruct (createActivityFromTask_presentable task) as (c & Hc & Hp).
  unfold taskActivities in H. rewrite Hc in H. cbn [Go.bind] in H.
  cbv zeta in H. injection H as <-.
  pose proof (setAction_presentable c ActionCreated Hp) as Hp'.
  assert (Hd : forall action t, Forall presentable
                 [derived (UserActivity.setAction c ActionCreated) action t]).
  { intros. constructor; [now apply derived_presentable | constructor]. }
  assert (Hfirst : Forall presentable
                     (acc ++ [UserActivity.setAction c ActionCreated])).
  { apply Forall_presentable_app; [exact Hacc|].
    constructor; [exact Hp' | constructor]. }
  destruct (After _ _), (String.eqb _ _);
    repeat (apply Forall_presentable_app; [|now apply Hd]); exact Hfirst.
Qed.

Lemma projectActivities_presentable acc project acc' :
  Forall presentable acc -> projectActivities acc project = Ok acc' ->
  Forall presentable acc'.
Proof.
  intros Hacc H.
  destruct (projectActivities_appends acc project) as (c & _ & _ & Hp & Hrun).
  rewrite Hrun in H. injection H as <-.
  apply Forall_presentable_app;
    [apply Forall_presentable_app;
       [exact Hacc | constructor; [exact Hp | constructor]]|].
  destruct (After _ _); constructor; [now apply derived_presentable | constructor].
Qed.

Lemma contactActivities_presentable acc contact acc' :
  Forall presentable acc -> contactActivities acc contact = Ok acc' ->
  Forall presentable acc'.
Proof.
  intros Hacc H.
  destruct (contactActivities_appends acc contact) as (c & _ & _ & Hp & Hrun).
  rewrite Hrun in H. injection H as <-.
  apply Forall_presentable_app;
    [apply Forall_presentable_app;
       [exact Hacc | constructor; [exact Hp | constructor]]|].
  destruct (After _ _); constructor; [now apply derived_presentable | constructor].
Qed.

Lemma capTo_incl (limit : Z) (l : list UserActivity.t) : incl (capTo limit l) l.
Proof.
  unfold capTo. destruct (_ >? _); [|apply incl_refl].
  intros x Hx. rewrite <- (firstn_skipn (Z.to_nat limit) l).
  apply in_or_app. now left.
Qed.

Lemma GetRecentActivities_presentable (sort_Slice : Sorter) s userID limit resp :
  SliceContract sort_Slice ->
  GetRecentActivities sort_Slice s userID limit = Ok resp ->
  Forall presentable (RecentActivityResponse.Activities resp).
Proof.
  intros C H.
  destruct (GetRecentActivities_Ok_trace _ _ _ _ _ H)
    as (ir & tr & pr & cr & irows & trows & prows & crows & a1 & a2 & a3 & a4
        & _ & _ & _ & _ & _ & _ & _ & _ & H1 & H2 & H3 & H4 & ->).
  assert (Hall : Forall presentable a4).
  { eapply (forEach_invariant _ contactActivities contactActivities_presentable);
      [|exact H4].
    eapply (forEach_invariant _ projectActivities projectActivities_presentable);
      [|exact H3].
    eapply (forEach_invariant _ taskActivities taskActivities_presentable);
      [|exact H2].
    eapply (forEach_invariant _ interactionActivities
              interactionActivities_presentable); [|exact H1].
    constructor. }
  rewrite Forall_forall in *. intros x Hx. apply Hall.
  apply capTo_incl in Hx.
  eapply Permutation_in; [|exact Hx].
  apply Permutation_sym. apply (sort_Slice_perm _ C).
Qed.

(** X10. Every event of a feed returned by [GetRecentActivities] has a
    non-empty title and a detail of at most 100 bytes; sorting and
    cutting to the limit add no event of their own. *)
Theorem feed_events_presentable (sort_Slice : Sorter) s userID limit resp :
  SliceContract sort_Slice ->
  GetRecentActivities sort_Slice s userID limit = Ok resp ->
  forall a, In a (RecentActivityResponse.Activities resp) ->
    UserActivity.Title a <> "" /\ len (UserActivity.Detail a) <= 100.
Proof.
  intros C H a Ha.
  pose proof (GetRecentActivities_presentable _ _ _ _ _ C H) as Hall.
  rewrite Forall_forall in Hall. exact (Hall a Ha).
Qed.

Lemma feed_events_presentable_witness :
  exists resp,
    GetRecentActivities insertionSort
      (Sample.serviceOf Sample.noContacts (Sample.tasksOf [Sample.pendingTask]))
      1 5 = Ok resp /\
    forall a, In a (RecentActivityResponse.Activities resp) ->
      UserActivity.Title a <> "" /\ len (UserActivity.Detail a) <= 100.
Proof.
  eexists. split; [vm_compute; reflexivity|].
  apply (feed_events_presentable insertionSort
           (Sample.serviceOf Sample.noContacts
              (Sample.tasksOf [Sample.pendingTask])) 1 5).
  - exact insertionSort_contract.
  - vm_compute; reflexivity.
Defined.

(** X11. [GetRecentActivities] is all or nothing. With the four
    repositories in place it returns a feed when the four listings all
    answer, and [ErrInternalServer] as soon as one of them fails, however
    many events the others gave. No other error ever comes out of it. *)
Theorem GetRecentActivities_fail_fast (sort_Slice : Sorter) s userID limit
  ir tr pr cr :
  interactionRepo s = Some ir -> taskRepo s = Some tr ->
  projectRepo s = Some pr -> contactRepo s = Some cr ->
  let fetch := mul64 (effectiveLimit limit) 2 in
  (if replied (InteractionRepository.GetRecentByUserID ir userID 30 fetch)
      && replied (TaskRepository.GetByUserID tr userID (taskFilter "" fetch))
      && replied (ProjectRepository.GetByUserID pr userID (projectFilter "" fetch))
      && replied (ContactRepository.GetByUserID cr userID (contactFilter fetch))
   then exists resp, GetRecentActivities sort_Slice s userID limit = Ok resp
   else GetRecentActivities sort_Slice s userID limit = Err ErrInternalServer) /\
  (forall e, GetRecentActivities sort_Slice s userID limit = Err e ->
             e = ErrInternalServer).
Proof.
  intros Hi Ht Hp Hc fetch.
  assert (Hrun :
    if replied (InteractionRepository.GetRecentByUserID ir userID 30 fetch)
       && replied (TaskRepository.GetByUserID tr userID (taskFilter "" fetch))
       && replied (ProjectRepository.GetByUserID pr userID (projectFilter "" fetch))
       && replied (ContactRepository.GetByUserID cr userID (contactFilter fetch))
    then exists resp, GetRecentActivities sort_Slice s userID limit = Ok resp
    else GetRecentActivities sort_Slice s userID limit = Err ErrInternalServer).
  { unfold GetRecentActivities. cbv zeta. fold fetch.
    rewrite Hi, Ht, Hp, Hc. cbn [deref Go.bind].
    destruct (InteractionRepository.GetRecentByUserID ir userID 30 fetch)
      as [irows|]; cbn [replied andb orInternal Go.bind]; [|reflexivity].
    destruct (forEach_total _ interactionActivities_total irows []) as [a1 ->].
    cbn [Go.bind].
    destruct (TaskRepository.GetByUserID tr userID (taskFilter "" fetch))
      as [trows|]; cbn [replied andb orInternal Go.bind]; [|reflexivity].
    destruct (forEach_total _ taskActivities_total trows a1) as [a2 ->].
    cbn [Go.bind].
    destruct (ProjectRepository.GetByUserID pr userID (projectFilter "" fetch))
      as [prows|]; cbn [replied andb orInternal Go.bind]; [|reflexivity].
    destruct (forEach_total _ projectActivities_total prows a2) as [a3 ->].
    cbn [Go.bind].
    destruct (ContactRepository.GetByUserID cr userID (contactFilter fetch))
      as [crows|]; cbn [replied andb orInternal Go.bind]; [|reflexivity].
    destruct (forEach_total _ contactActivities_total crows a3) as [a4 ->].
    cbn [Go.bind]. eexists; reflexivity. }
  split; [exact Hrun|].
  intros e He. destruct (_ && _).
  - destruct Hrun as [resp Hresp]. congruence.
  - congruence.
Qed.

Lemma GetRecentActivities_fail_fast_witness :
  GetRecentActivities insertionSort
    (Sample.serviceOf Sample.contactsDown (Sample.tasksOf [Sample.doneTask])) 1 5
  = Err ErrInternalServer.
Proof.
  exact (proj1 (GetRecentActivities_fail_fast insertionSort
                  (Sample.serviceOf Sample.contactsDown
                     (Sample.tasksOf [Sample.doneTask])) 1 5
                  Sample.noInteractions (Sample.tasksOf [Sample.doneTask])
                  Sample.noProjects Sample.contactsDown
                  eq_refl eq_refl eq_refl eq_refl)).
Defined.

Lemma forEach_length {A} (body : list UserActivity.t -> A -> result (list UserActivity.t))
  (k : nat) :
  (forall st x st', body st x = Ok st' ->
     (List.length st + 1 <= List.length st' <= List.length st + k)%nat) ->
  forall xs st st', forEach body xs st = Ok st' ->
    (List.length st + List.length xs <= List.length st'
     <= List.length st + k * List.length xs)%nat.
Proof.
  intros Hbody xs. induction xs as [|x xs IH]; intros st st' H; simpl in H.
  - injection H as <-. simpl. lia.
  - destruct (body st x) as [st1| |] eqn:E; cbn [Go.bind] in H; try discriminate.
    specialize (Hbody _ _ _ E). specialize (IH _ _ H). simpl. nia.
Qed.

Lemma interactionActivities_length acc interaction acc' :
  interactionActivities acc interaction = Ok acc' ->
  (List.length acc + 1 <= List.length acc' <= List.length acc + 2)%nat.
Proof.
  intros H. destruct (interactionActivities_appends acc interaction)
    as (c & _ & _ & _ & Hrun).
  rewrite Hrun in H. injection H as <-.
  destruct (After _ _); rewrite !length_app; simpl; lia.
Qed.

Lemma taskActivities_length acc task acc' :
  taskActivities acc task = Ok acc' ->
  (List.length acc + 1 <= List.length acc' <= List.length acc + 3)%nat.
Proof.
  intros H. destruct (taskActivities_appends acc task) as (c & _ & _ & Hrun).
  rewrite Hrun in H. injection H as <-.
  destruct (After _ _), (String.eqb _ _); rewrite !length_app; simpl; lia.
Qed.

Lemma projectActivities_length acc project acc' :
  projectActivities acc project = Ok acc' ->
  (List.length acc + 1 <= List.length acc' <= List.length acc + 2)%nat.
Proof.
  intros H. destruct (projectActivities_appends acc project)
    as (c & _ & _ & _ & Hrun).
  rewrite Hrun in H. injection H as <-.
  destruct (After _ _); rewrite !length_app; simpl; lia.
Qed.

Lemma contactActivities_length acc contact acc' :
  contactActivities acc contact = Ok acc' ->
  (List.length acc + 1 <= List.length acc' <= List.length acc + 2)%nat.
Proof.
  intros H. destruct (contactActivities_appends acc contact)
    as (c & _ & _ & _ & Hrun).
  rewrite Hrun in H. injection H as <-.
  destruct (After _ _); rewrite !length_app; simpl; lia.
Qed.

Lemma capTo_count (limit : Z) (l : list UserActivity.t) :
  0 <= limit -> lenSlice (capTo limit l) = Z.min limit (lenSlice l).
Proof.
  intros Hl. unfold capTo, lenSlice.
  destruct (Z.gtb_spec (Z.of_nat (List.length l)) limit) as [H|H].
  - rewrite List.length_firstn. lia.
  - lia.
Qed.

(** X12. How many events a feed holds. With [n] records listed in all
    and a limit [L] (20 for a limit of zero or less), the feed holds at
    least [min L n] events, since every record gives at least its
    [Created] event, and at most [min L m], where [m] counts two events
    for each interaction, project and contact and three for each task.
    So a feed shorter than the limit shows every record. *)
Theorem feed_count (sort_Slice : Sorter) s userID limit resp
  ir tr pr cr irows trows prows crows :
  SliceContract sort_Slice ->
  interactionRepo s = Some ir -> taskRepo s = Some tr ->
  projectRepo s = Some pr -> contactRepo s = Some cr ->
  let fetch := mul64 (effectiveLimit limit) 2 in
  InteractionRepository.GetRecentByUserID ir userID 30 fetch = Reply irows ->
  TaskRepository.GetByUserID tr userID (taskFilter "" fetch) = Reply trows ->
  ProjectRepository.GetByUserID pr userID (projectFilter "" fetch) = Reply prows ->
  ContactRepository.GetByUserID cr userID (contactFilter fetch) = Reply crows ->
  GetRecentActivities sort_Slice s userID limit = Ok resp ->
  Z.min (effectiveLimit limit)
        (lenSlice irows + lenSlice trows + lenSlice prows + lenSlice crows)
  <= RecentActivityResponse.Count resp
  <= Z.min (effectiveLimit limit)
           (2 * lenSlice irows + 3 * lenSlice trows
            + 2 * lenSlice prows + 2 * lenSlice crows).
Proof.
  intros C Hi Ht Hp Hc fetch Qi Qt Qp Qc H.
  destruct (GetRecentActivities_Ok_trace _ _ _ _ _ H)
    as (ir' & tr' & pr' & cr' & irows' & trows' & prows' & crows'
        & a1 & a2 & a3 & a4
        & Hi' & Ht' & Hp' & Hc' & Qi' & Qt' & Qp' & Qc' & H1 & H2 & H3 & H4 & Hacts).
  fold fetch in Qi', Qt', Qp', Qc'.
  assert (ir' = ir) by congruence. assert (tr' = tr) by congruence.
  assert (pr' = pr) by congruence. assert (cr' = cr) by congruence.
  subst ir' tr' pr' cr'.
  assert (irows' = irows) by congruence. assert (trows' = trows) by congruence.
  assert (prows' = prows) by congruence. assert (crows' = crows) by congruence.
  subst irows' trows' prows' crows'.
  apply (forEach_length _ 2 interactionActivities_length) in H1.
  apply (forEach_length _ 3 taskActivities_length) in H2.
  apply (forEach_length _ 2 projectActivities_length) in H3.
  apply (forEach_length _ 2 contactActivities_length) in H4.
  destruct (GetRecentActivities_Ok_inv _ _ _ _ _ H) as (acts & _ & ->).
  rewrite Hacts. pose proof (effectiveLimit_pos limit) as Hpos.
  rewrite capTo_count by lia.
  assert (Hlen : lenSlice (sortActivitiesByDate sort_Slice a4) = lenSlice a4).
  { unfold lenSlice. f_equal. symmetry. apply Permutation_length.
    apply (sort_Slice_perm _ C). }
  rewrite Hlen. unfold lenSlice in *. simpl in H1. lia.
Qed.

Lemma feed_count_witness :
  exists resp,
    GetRecentActivities insertionSort
      (Sample.serviceOf Sample.noContacts
         (Sample.tasksOf [Sample.doneTask; Sample.pendingTask])) 1 10 = Ok resp /\
    2 <= RecentActivityResponse.Count resp <= 6.
Proof.
  eexists. split; [vm_compute; reflexivity|].
  apply (feed_count insertionSort
           (Sample.serviceOf Sample.noContacts
              (Sample.tasksOf [Sample.doneTask; Sample.pendingTask])) 1 10 _
           Sample.noInteractions
           (Sample.tasksOf [Sample.doneTask; Sample.pendingTask])
           Sample.noProjects Sample.noContacts
           [] [Sample.doneTask; Sample.pendingTask] [] []
           insertionSort_contract eq_refl eq_refl eq_refl eq_refl
           eq_refl eq_refl eq_refl eq_refl).
  vm_compute; reflexivity.
Defined.

(** ** Nil repositories *)

(** X13. [GetUserStats] guards every repository: it never panics, and a
    service with no repository at all gets the all-zero snapshot. *)
Theorem GetUserStats_never_panics (s : userService) (userID : N) :
  GetUserStats s userID <> Panic /\
  (contactRepo s = None -> taskRepo s = None ->
   projectRepo s = None -> interactionRepo s = None ->
   GetUserStats s userID = Ok UserStats.zero).
Proof.
  split.
  - pose proof (GetUserStats_run s userID) as H.
    destruct (primaryQueriesOk s userID).
    + destruct H as (st & -> & _). discriminate.
    + rewrite H. discriminate.
  - intros Hc Ht Hp Hi.
    unfold GetUserStats, contactStats, taskStats, projectStats, interactionStats.
    rewrite Hc, Ht, Hp, Hi. reflexivity.
Qed.

(** X14. [GetRecentActivities] guards none: it panics when the
    interaction repository is nil, and it returns a feed only when all
    four repositories are there. The same holds for [GetDashboardData],
    whose own nil checks come after the feed: it never returns a snapshot
    with a repository missing. *)
Theorem feed_needs_every_repository (sort_Slice : Sorter) (s : userService)
  (userID : N) :
  (forall limit, interactionRepo s = None ->
     GetRecentActivities sort_Slice s userID limit = Panic) /\
  (forall limit resp,
     GetRecentActivities sort_Slice s userID limit = Ok resp ->
     interactionRepo s <> None /\ taskRepo s <> None /\
     projectRepo s <> None /\ contactRepo s <> None) /\
  (forall d,
     GetDashboardData sort_Slice s userID = Ok d ->
     interactionRepo s <> None /\ taskRepo s <> None /\
     projectRepo s <> None /\ contactRepo s <> None).
Proof.
  assert (Hfeed : forall limit resp,
             GetRecentActivities sort_Slice s userID limit = Ok resp ->
             interactionRepo s <> None /\ taskRepo s <> None /\
             projectRepo s <> None /\ contactRepo s <> None).
  { intros limit resp H.
    destruct (GetRecentActivities_Ok_trace _ _ _ _ _ H)
      as (ir & tr & pr & cr & _ & _ & _ & _ & _ & _ & _ & _
          & Hi & Ht & Hp & Hc & _).
    rewrite Hi, Ht, Hp, Hc. repeat split; discriminate. }
  split; [|split].
  - intros limit Hi. unfold GetRecentActivities. now rewrite Hi.
  - exact Hfeed.
  - intros d H. unfold GetDashboardData in H.
    destruct (GetUserStats s userID); cbn [Go.bind] in H; try discriminate.
    destruct (GetRecentActivities sort_Slice s userID 10) as [resp| |] eqn:E;
      cbn [Go.bind] in H; try discriminate.
    exact (Hfeed 10 resp E).
Qed.

(** ** The dashboard's feed *)

(** X15. The activity list of a dashboard has at most 10 events, newest
    first, each with a non-empty title and a detail of at most 100
    bytes. *)
Theorem dashboard_activities (sort_Slice : Sorter) (s : userService)
  (userID : N) (d : DashboardData.t) :
  SliceContract sort_Slice ->
  GetDashboardData sort_Slice s userID = Ok d ->
  lenSlice (DashboardData.RecentActivities d) <= 10 /\
  newestFirst (DashboardData.RecentActivities d) /\
  Forall presentable (DashboardData.RecentActivities d).
Proof.
  intros C H. unfold GetDashboardData in H.
  destruct (GetUserStats s userID); cbn [Go.bind] in H; try discriminate.
  destruct (GetRecentActivities sort_Slice s userID 10) as [resp| |] eqn:E;
    cbn [Go.bind] in H; try discriminate.
  injection H as <-. cbn [DashboardData.RecentActivities].
  destruct (GetRecentActivities_Ok_inv _ _ _ _ _ E) as (acts & Hacts & _).
  split; [|split].
  - rewrite Hacts. apply capTo_length. unfold effectiveLimit. simpl. lia.
  - rewrite Hacts. apply capTo_newestFirst.
    now apply sortActivitiesByDate_newestFirst.
  - exact (GetRecentActivities_presentable _ _ _ _ _ C E).
Qed.

Lemma dashboard_activities_witness :
  exists d,
    GetDashboardData insertionSort
      (Sample.serviceOf Sample.noContacts
         (Sample.tasksOf [Sample.doneTask; Sample.doneLaterTask])) 1 = Ok d /\
    lenSlice (DashboardData.RecentActivities d) <= 10 /\
    newestFirst (DashboardData.RecentActivities d).
Proof.
  eexists. split; [vm_compute; reflexivity|].
  destruct (dashboard_activities insertionSort
              (Sample.serviceOf Sample.noContacts
                 (Sample.tasksOf [Sample.doneTask; Sample.doneLaterTask])) 1 _
              insertionSort_contract eq_refl) as (Hl & Hn & _).
  split; [exact Hl | exact Hn].
Defined.

(** ** The profile operations *)

Section ProfileFacts.

Context {DB : Type}.
Variable repo : UserRepository.t DB.
Variable crypt : bcrypt.t.

(** X16. An unknown user: when [GetByID] answers
    [gorm.ErrRecordNotFound], the four profile operations all return the
    404 error "Usuário não encontrado" and leave the store as it is; any
    other failure of [GetByID] gives [ErrInternalServer]. *)
Theorem profile_unknown_user (db : DB) (userID : N) (e : gorm.error) :
  UserRepository.GetByID repo db userID = gorm.Fail e ->
  let err := match e with
             | gorm.ErrRecordNotFound =>
                 App {| Code := 404; Message := "Usuário não encontrado";
                        Details := "" |}
             | gorm.Failure _ => ErrInternalServer
             end in
  GetProfile (Some repo) db userID = Err err /\
  (forall req, UpdateProfile (Some repo) db userID req = (db, Err err)) /\
  (forall current new,
      ChangePassword (Some repo) crypt db userID current new = (db, Err err)) /\
  (forall password,
      DeleteAccount (Some repo) crypt db userID password = (db, Err err)).
Proof.
  intros H. unfold GetProfile, UpdateProfile, ChangePassword, DeleteAccount,
    findUser. cbn [deref Go.bind]. rewrite H.
  destruct e; cbn; repeat split; reflexivity.
Qed.

(** X17. A client error leaves no write behind: when [UpdateProfile],
    [ChangePassword] or [DeleteAccount] returns an [AppError] whose code
    is not 500, the store is the one the call started with. *)
Theorem profile_client_error_writes_nothing (db db' : DB) (userID : N)
  (appErr : AppError) :
  Code appErr <> 500 ->
  (forall req r, UpdateProfile (Some repo) db userID req = (db', r) ->
                 r = Err (App appErr) -> db' = db) /\
  (forall current new r,
      ChangePassword (Some repo) crypt db userID current new = (db', r) ->
      r = Err (App appErr) -> db' = db) /\
  (forall password r,
      DeleteAccount (Some repo) crypt db userID password = (db', r) ->
      r = Err (App appErr) -> db' = db).
Proof.
  intros Hcode.
  assert (H500 : Err (A := UserResponse.t) ErrInternalServer <> Err (App appErr)).
  { intros H. injection H as <-. apply Hcode. reflexivity. }
  assert (H500' : Err (A := unit) ErrInternalServer <> Err (App appErr)).
  { intros H. injection H as <-. apply Hcode. reflexivity. }
  split; [|split].
  - intros req r H Hr. unfold UpdateProfile in H.
    destruct (Go.bind _ _) as [user|e|]; try congruence.
    destruct (UserRepository.Update repo db _) as [[db1 u1] [err|]];
      injection H as <- <-; [now destruct H500 | discriminate].
  - intros current new r H Hr. unfold ChangePassword in H.
    destruct (findUser repo db userID) as [user|e|]; try congruence.
    destruct (bcrypt.CompareHashAndPassword crypt _ _); try congruence.
    destruct (bcrypt.GenerateFromPassword crypt _ _); try congruence.
    destruct (UserRepository.Update repo db _) as [[db1 u1] [err|]];
      injection H as <- <-; [now destruct H500' | discriminate].
  - intros password r H Hr. unfold DeleteAccount in H.
    destruct (findUser repo db userID) as [user|e|]; try congruence.
    destruct (bcrypt.CompareHashAndPassword crypt _ _); try congruence.
    destruct (UserRepository.Delete repo db userID) as [db1 [err|]];
      injection H as <- <-; [now destruct H500' | discriminate].
Qed.

(** X18. An e-mail already in use: when the request carries an e-mail
    that differs from the stored one and [EmailExists] answers true,
    [UpdateProfile] returns the 409 error "Email já está em uso" and
    writes nothing, whatever the requested name. *)
Theorem UpdateProfile_conflict (db : DB) (userID : N)
  (req : UserUpdateRequest.t) (user : User.t) :
  UserRepository.GetByID repo db userID = gorm.Row user ->
  UserUpdateRequest.Email req <> "" ->
  UserUpdateRequest.Email req <> User.Email user ->
  UserRepository.EmailExists repo db (UserUpdateRequest.Email req)
  = gorm.Row true ->
  UpdateProfile (Some repo) db userID req
  = (db, Err (App {| Code := 409; Message := "Conflito de dados";
                     Details := "Email já está em uso" |})).
Proof.
  intros Hget He Hne Hex. unfold UpdateProfile, findUser, checkEmail.
  rewrite Hget. cbn [Go.bind].
  apply String.eqb_neq in He, Hne. rewrite He, Hne. cbn [negb andb].
  rewrite Hex. reflexivity.
Qed.

(** X19. What [UpdateProfile] saves. When the e-mail check passes (no
    e-mail in the request, the stored e-mail again, or a free one; in the
    first two cases [EmailExists] is not asked), exactly one [Update] is
    made, of the stored row with the name and e-mail replaced by the
    non-empty fields of the request and nothing else changed; the answer
    is the response of the row as [Update] leaves it, or
    [ErrInternalServer] when [Update] fails. *)
Theorem UpdateProfile_saves (db : DB) (userID : N) (req : UserUpdateRequest.t)
  (user : User.t) :
  UserRepository.GetByID repo db userID = gorm.Row user ->
  UserUpdateRequest.Email req = "" \/
  UserUpdateRequest.Email req = User.Email user \/
  UserRepository.EmailExists repo db (UserUpdateRequest.Email req)
  = gorm.Row false ->
  exists row,
    User.ID row = User.ID user /\
    User.Password row = User.Password user /\
    User.CreatedAt row = User.CreatedAt user /\
    User.UpdatedAt row = User.UpdatedAt user /\
    User.Name row = (if String.eqb (UserUpdateRequest.Name req) ""
                     then User.Name user else UserUpdateRequest.Name req) /\
    User.Email row = (if String.eqb (UserUpdateRequest.Email req) ""
                      then User.Email user else UserUpdateRequest.Email req) /\
    UpdateProfile (Some repo) db userID req
    = (let '(db', saved, err) := UserRepository.Update repo db row in
       match err with
       | Some _ => (db', Err ErrInternalServer)
       | None => (db', Ok (ToResponse saved))
       end).
Proof.
  intros Hget Hmail. unfold UpdateProfile, findUser. rewrite Hget.
  cbn [Go.bind].
  assert (Hcheck : exists row,
             checkEmail repo db req user = Ok row /\
             User.ID row = User.ID user /\
             User.Password row = User.Password user /\
             User.CreatedAt row = User.CreatedAt user /\
             User.UpdatedAt row = User.UpdatedAt user /\
             User.Name row = User.Name user /\
             User.Email row = (if String.eqb (UserUpdateRequest.Email req) ""
                               then User.Email user
                               else UserUpdateRequest.Email req)).
  { unfold checkEmail.
    destruct (String.eqb_spec (UserUpdateRequest.Email req) "") as [He|He];
      cbn [negb andb]; [exists user; repeat split; reflexivity|].
    destruct (String.eqb_spec (UserUpdateRequest.Email req) (User.Email user))
      as [Hs|Hs]; cbn [negb andb];
      [exists user; repeat split; try reflexivity; now symmetry|].
    destruct Hmail as [H|[H|H]]; try contradiction.
    rewrite H. exists (User.setEmail user (UserUpdateRequest.Email req)).
    destruct user; repeat split; reflexivity. }
  destruct Hcheck as (row & -> & Hid & Hpw & Hc & Hu & Hn & Hm).
  destruct (String.eqb_spec (UserUpdateRequest.Name req) "") as [En|En];
    cbn [negb].
  - exists row. repeat split; assumption.
  - exists (User.setName row (UserUpdateRequest.Name req)).
    destruct row; cbn in *. repeat split; assumption.
Qed.

(** X20. A wrong password: when [bcrypt.CompareHashAndPassword] rejects
    the given password against the stored hash, [ChangePassword] and
    [DeleteAccount] return a 401 error and write nothing; no hash is
    stored and nothing is deleted. *)
Theorem wrong_password_rejected (db : DB) (userID : N) (user : User.t)
  (password mismatch : string) :
  UserRepository.GetByID repo db userID = gorm.Row user ->
  bcrypt.CompareHashAndPassword crypt (User.Password user) password
  = Some mismatch ->
  (forall new,
      ChangePassword (Some repo) crypt db userID password new
      = (db, Err (App {| Code := 401; Message := "Não autorizado";
                         Details := "Senha atual incorreta" |}))) /\
  DeleteAccount (Some repo) crypt db userID password
  = (db, Err (App {| Code := 401; Message := "Não autorizado";
                     Details := "Senha incorreta" |})).
Proof.
  intros Hget Hcmp. unfold ChangePassword, DeleteAccount, findUser.
  rewrite Hget, Hcmp. split; reflexivity.
Qed.

(** X21. What [ChangePassword] stores: with the current password
    accepted, the one [Update] it makes is of the stored row with
    [Password] set to the hash that [bcrypt.GenerateFromPassword] gave
    for the new password at [DefaultCost] and every other field ([ID],
    [Name], [Email], [CreatedAt], [UpdatedAt]) as it was; when hashing
    fails nothing is written. *)
Theorem ChangePassword_stores_hash (db : DB) (userID : N) (user : User.t)
  (current new : string) :
  UserRepository.GetByID repo db userID = gorm.Row user ->
  bcrypt.CompareHashAndPassword crypt (User.Password user) current = None ->
  match bcrypt.GenerateFromPassword crypt new 10 with
  | inr _ =>
      ChangePassword (Some repo) crypt db userID current new
      = (db, Err ErrInternalServer)
  | inl hashed =>
      exists row,
        User.Password row = hashed /\
        User.ID row = User.ID user /\
        User.Name row = User.Name user /\
        User.Email row = User.Email user /\
        User.CreatedAt row = User.CreatedAt user /\
        User.UpdatedAt row = User.UpdatedAt user /\
        ChangePassword (Some repo) crypt db userID current new
        = (let '(db', _, err) := UserRepository.Update repo db row in
           match err with
           | Some _ => (db', Err ErrInternalServer)
           | None => (db', Ok tt)
           end)
  end.
Proof.
  intros Hget Hcmp. unfold ChangePassword, findUser.
  rewrite Hget, Hcmp. change bcrypt.DefaultCost with 10.
  destruct (bcrypt.GenerateFromPassword crypt new 10) as [hashed|e];
    [|reflexivity].
  exists (User.setPassword user hashed).
  destruct user; cbn. repeat split.
Qed.

End ProfileFacts.

Lemma profile_unknown_user_witness :
  GetProfile (Some SampleUsers.memoryRepo) SampleUsers.users 9
  = Err (App {| Code := 404; Message := "Usuário não encontrado";
                Details := "" |}).
Proof.
  exact (proj1 (profile_unknown_user SampleUsers.memoryRepo
                  SampleUsers.prefixCrypt SampleUsers.users 9
                  gorm.ErrRecordNotFound eq_refl)).
Defined.

Lemma profile_client_error_writes_nothing_witness :
  DeleteAccount (Some SampleUsers.memoryRepo) SampleUsers.prefixCrypt
    SampleUsers.users 1 "errada"
  = (SampleUsers.users, Err (NewUnauthorizedError "Senha incorreta")) /\
  SampleUsers.users = SampleUsers.users.
Proof.
  split; [reflexivity|].
  refine (proj2 (proj2 (profile_client_error_writes_nothing
                          SampleUsers.memoryRepo SampleUsers.prefixCrypt
                          SampleUsers.users SampleUsers.users 1
                          {| Code := 401; Message := "Não autorizado";
                             Details := "Senha incorreta" |} _))
            "errada" (Err (NewUnauthorizedError "Senha incorreta"))
            eq_refl eq_refl).
  discriminate.
Defined.

Lemma UpdateProfile_conflict_witness :
  UpdateProfile (Some SampleUsers.memoryRepo) SampleUsers.users 1
    {| UserUpdateRequest.Name := "Ana Maria";
       UserUpdateRequest.Email := "bruno@example.com" |}
  = (SampleUsers.users,
     Err (App {| Code := 409; Message := "Conflito de dados";
                 Details := "Email já está em uso" |})).
Proof.
  apply (UpdateProfile_conflict SampleUsers.memoryRepo SampleUsers.users 1
           {| UserUpdateRequest.Name := "Ana Maria";
              UserUpdateRequest.Email := "bruno@example.com" |}
           SampleUsers.ana).
  - reflexivity.
  - discriminate.
  - discriminate.
  - reflexivity.
Defined.

Lemma UpdateProfile_saves_witness :
  exists row,
    User.Name row = "Ana Maria" /\
    User.Email row = "ana@example.com" /\
    User.Password row = "hash:segredo1" /\
    UpdateProfile (Some SampleUsers.memoryRepo) SampleUsers.users 1
      {| UserUpdateRequest.Name := "Ana Maria"; UserUpdateRequest.Email := "" |}
    = ([row; SampleUsers.bruno], Ok (ToResponse row)).
Proof.
  destruct (UpdateProfile_saves SampleUsers.memoryRepo SampleUsers.users 1
              {| UserUpdateRequest.Name := "Ana Maria";
                 UserUpdateRequest.Email := "" |}
              SampleUsers.ana eq_refl (or_introl eq_refl))
    as (row & Hid & Hpw & Hc & Hu & Hn & Hm & Hrun).
  exists row. split; [exact Hn|]. split; [exact Hm|]. split; [exact Hpw|].
  rewrite Hrun. cbn. rewrite Hid. reflexivity.
Defined.

Lemma wrong_password_rejected_witness :
  DeleteAccount (Some SampleUsers.memoryRepo) SampleUsers.prefixCrypt
    SampleUsers.users 1 "errada"
  = (SampleUsers.users,
     Err (App {| Code := 401; Message := "Não autorizado";
                 Details := "Senha incorreta" |})).
Proof.
  exact (proj2 (wrong_password_rejected SampleUsers.memoryRepo
                  SampleUsers.prefixCrypt SampleUsers.users 1 SampleUsers.ana
                  "errada" _ eq_refl eq_refl)).
Defined.

Lemma ChangePassword_stores_hash_witness :
  exists row,
    User.Password row = "hash:novaSenha456" /\
    User.Email row = "ana@example.com" /\
    ChangePassword (Some SampleUsers.memoryRepo) SampleUsers.prefixCrypt
      SampleUsers.users 1 "segredo1" "novaSenha456"
    = ([row; SampleUsers.bruno], Ok tt).
Proof.
  destruct (ChangePassword_stores_hash SampleUsers.memoryRepo
              SampleUsers.prefixCrypt SampleUsers.users 1 SampleUsers.ana
              "segredo1" "novaSenha456" eq_refl eq_refl)
    as (row & Hpw & Hid & Hn & Hm & _ & _ & Hrun).
  exists row. split; [exact Hpw|]. split; [exact Hm|].
  rewrite Hrun. cbn. rewrite Hid. reflexivity.
Defined.

(** ** The handlers *)

Lemma GetRecentActivities_Err (sort_Slice : Sorter) s userID limit e :
  GetRecentActivities sort_Slice s userID limit = Err e -> e = ErrInternalServer.
Proof.
  unfold GetRecentActivities. cbv zeta.
  destruct (interactionRepo s) as [ir|]; cbn [deref Go.bind]; [|discriminate].
  destruct (InteractionRepository.GetRecentByUserID ir _ _ _) as [irows|];
    cbn [orInternal Go.bind]; [|congruence].
  destruct (forEach_total _ interactionActivities_total irows []) as [a1 ->].
  cbn [Go.bind].
  destruct (taskRepo s) as [tr|]; cbn [deref Go.bind]; [|discriminate].
  destruct (TaskRepository.GetByUserID tr _ _) as [trows|];
    cbn [orInternal Go.bind]; [|congruence].
  destruct (forEach_total _ taskActivities_total trows a1) as [a2 ->].
  cbn [Go.bind].
  destruct (projectRepo s) as [pr|]; cbn [deref Go.bind]; [|discriminate].
  destruct (ProjectRepository.GetByUserID pr _ _) as [prows|];
    cbn [orInternal Go.bind]; [|congruence].
  destruct (forEach_total _ projectActivities_total prows a2) as [a3 ->].
  cbn [Go.bind].
  destruct (contactRepo s) as [cr|]; cbn [deref Go.bind]; [|discriminate].
  destruct (ContactRepository.GetByUserID cr _ _) as [crows|];
    cbn [orInternal Go.bind]; [|congruence].
  destruct (forEach_total _ contactActivities_total crows a3) as [a4 ->].
  cbn [Go.bind]. discriminate.
Qed.

Lemma GetUserStats_Err (s : userService) (userID : N) (e : error) :
  GetUserStats s userID = Err e -> e = ErrInternalServer.
Proof.
  intros H. pose proof (GetUserStats_run s userID) as Hrun.
  destruct (primaryQueriesOk s userID).
  - destruct Hrun as (st & Hst & _). congruence.
  - congruence.
Qed.

Section HandlerFacts.

Variable sort_Slice : Sorter.
Variable Atoi : string -> reply Z.
Variable s : userService.

Lemma queryLimit_pos (c : gin.Context) : 0 < UserHandler.queryLimit Atoi c.
Proof.
  unfold UserHandler.queryLimit. cbv zeta.
  destruct (Atoi _) as [n|]; [|lia]. destruct (Z.leb_spec n 0); lia.
Qed.

(** X22. The limit the activities handler passes on. [GetRecentActivities]
    of the handler calls the service for the user of the context with the
    [limit] of the query when it parses to a positive number, and with 10
    in every other case (no [limit], not a number, zero or negative); it
    answers 200 with the service's response and passes on its error. So an
    answer holds at most that many events, the service's own default of
    20 is never used, and [Count] is the number of events answered. *)
Theorem activities_route_limit (c : gin.Context) :
  let userID := gin.GetUint c "user_id" in
  let asked := Atoi (gin.DefaultQuery c "limit" "10") in
  (forall n, asked = Reply n -> 0 < n ->
     UserHandler.GetRecentActivities sort_Slice Atoi s c
     = (resp <- GetRecentActivities sort_Slice s userID n ;; Ok (200, resp))) /\
  ((forall n, asked = Reply n -> n <= 0) ->
   UserHandler.GetRecentActivities sort_Slice Atoi s c
   = (resp <- GetRecentActivities sort_Slice s userID 10 ;; Ok (200, resp))) /\
  (forall status resp,
      UserHandler.GetRecentActivities sort_Slice Atoi s c = Ok (status, resp) ->
      status = 200 /\
      0 < UserHandler.queryLimit Atoi c /\
      GetRecentActivities sort_Slice s userID (UserHandler.queryLimit Atoi c)
      = Ok resp /\
      RecentActivityResponse.Count resp
      = lenSlice (RecentActivityResponse.Activities resp) /\
      (forall n, asked = Reply n -> 0 < n ->
         lenSlice (RecentActivityResponse.Activities resp) <= n) /\
      ((forall n, asked = Reply n -> n <= 0) ->
       lenSlice (RecentActivityResponse.Activities resp) <= 10)).
Proof.
  cbv zeta.
  assert (Hparsed : forall n,
             Atoi (gin.DefaultQuery c "limit" "10") = Reply n -> 0 < n ->
             UserHandler.queryLimit Atoi c = n).
  { intros n Hn Hp. unfold UserHandler.queryLimit. cbv zeta. rewrite Hn.
    destruct (Z.leb_spec n 0); [lia | reflexivity]. }
  assert (Hdefault :
            (forall n, Atoi (gin.DefaultQuery c "limit" "10") = Reply n ->
                       n <= 0) ->
            UserHandler.queryLimit Atoi c = 10).
  { intros Hall. unfold UserHandler.queryLimit. cbv zeta.
    destruct (Atoi _) as [n|]; [|reflexivity].
    specialize (Hall n eq_refl).
    destruct (Z.leb_spec n 0); [reflexivity | lia]. }
  split; [|split].
  - intros n Hn Hp. unfold UserHandler.GetRecentActivities. cbv zeta.
    rewrite (Hparsed n Hn Hp). reflexivity.
  - intros Hall. unfold UserHandler.GetRecentActivities. cbv zeta.
    rewrite (Hdefault Hall). reflexivity.
  - intros status resp H.
    unfold UserHandler.GetRecentActivities in H. cbv zeta in H.
    destruct (GetRecentActivities sort_Slice s _ _) as [r| |] eqn:E;
      cbn [Go.bind] in H; try discriminate.
    injection H as <- <-.
    destruct (GetRecentActivities_Ok_inv _ _ _ _ _ E) as (acts & Hacts & Hcount).
    pose proof (queryLimit_pos c) as Hpos.
    assert (Hcap : lenSlice (RecentActivityResponse.Activities r)
                   <= UserHandler.queryLimit Atoi c).
    { rewrite Hacts. unfold effectiveLimit.
      destruct (Z.leb_spec (UserHandler.queryLimit Atoi c) 0); [lia|].
      apply capTo_length. lia. }
    split; [reflexivity|]. split; [exact Hpos|]. split; [reflexivity|].
    split; [exact Hcount|]. split.
    + intros n Hn Hp. rewrite (Hparsed n Hn Hp) in Hcap. exact Hcap.
    + intros Hall. rewrite (Hdefault Hall) in Hcap. exact Hcap.
Qed.

(** X23. The activities and statistics handlers followed by
    [ErrorHandler] (the authentication in front of them is not part of
    this): the answer is 200 with exactly the response, or the snapshot,
    that the service returned; when the service returns an error it is
    500 with the body of [ErrInternalServer]; a panic of the service is
    not caught. No other answer comes out of them. *)
Theorem feed_and_stats_handler_answers (c : gin.Context) :
  let userID := gin.GetUint c "user_id" in
  middleware.ErrorHandler (UserHandler.GetRecentActivities sort_Slice Atoi s c)
  = match GetRecentActivities sort_Slice s userID
            (UserHandler.queryLimit Atoi c) with
    | Ok resp => Ok (200, middleware.Payload resp)
    | Err _ =>
        Ok (500, middleware.ErrorJSON "Erro interno do servidor" (Some ""))
    | Panic => Panic
    end /\
  middleware.ErrorHandler (UserHandler.GetStats s c)
  = match GetUserStats s userID with
    | Ok stats => Ok (200, middleware.Payload stats)
    | Err _ =>
        Ok (500, middleware.ErrorJSON "Erro interno do servidor" (Some ""))
    | Panic => Panic
    end.
Proof.
  cbv zeta. split.
  - unfold UserHandler.GetRecentActivities. cbv zeta.
    destruct (GetRecentActivities sort_Slice s _ _) as [r|e|] eqn:E;
      cbn [Go.bind middleware.ErrorHandler]; try reflexivity.
    apply GetRecentActivities_Err in E. subst e. reflexivity.
  - unfold UserHandler.GetStats. cbv zeta.
    destruct (GetUserStats s _) as [r|e|] eqn:E;
      cbn [Go.bind middleware.ErrorHandler]; try reflexivity.
    apply GetUserStats_Err in E. subst e. reflexivity.
Qed.

End HandlerFacts.

Lemma activities_route_limit_witness :
  let service := Sample.serviceOf Sample.noContacts
                   (Sample.tasksOf [Sample.doneTask; Sample.doneLaterTask]) in
  let c := SampleUsers.contextOf (Some "3") in
  UserHandler.GetRecentActivities insertionSort SampleUsers.atoi service c
  = (resp <- GetRecentActivities insertionSort service
               (gin.GetUint c "user_id") 3 ;;
     Ok (200, resp)) /\
  exists resp,
    UserHandler.GetRecentActivities insertionSort SampleUsers.atoi service c
    = Ok (200, resp) /\
    lenSlice (RecentActivityResponse.Activities resp) <= 3.
Proof.
  cbv zeta.
  pose proof (activities_route_limit insertionSort SampleUsers.atoi
                (Sample.serviceOf Sample.noContacts
                   (Sample.tasksOf [Sample.doneTask; Sample.doneLaterTask]))
                (SampleUsers.contextOf (Some "3"))) as H.
  cbv zeta in H. destruct H as (Hparsed & _ & Hanswer).
  split.
  - apply (Hparsed 3); [reflexivity | lia].
  - eexists. split; [vm_compute; reflexivity|].
    refine (proj1 (proj2 (proj2 (proj2 (proj2 (Hanswer 200 _ _))))) 3 eq_refl _).
    + vm_compute; reflexivity.
    + lia.
Defined.

Section ProfileHandlerFacts.

Context {DB : Type}.
Variable repo : UserRepository.t DB.
Variable crypt : bcrypt.t.

(** X24. The profile route refuses a request without a usable user id
    with a 401 error before it looks at the store: when the key
    [user_id] is missing ("Usuário não autenticado"), and when it holds
    zero or something that is not a [uint] ("ID do usuário inválido"). *)
Theorem profile_route_needs_user (db : DB) (c : gin.Context) :
  (gin.keys c "user_id" = None ->
   UserHandler.GetProfile (Some repo) db c
   = Err (App {| Code := 401; Message := "Não autorizado";
                 Details := "Usuário não autenticado" |})) /\
  (gin.keys c "user_id" = Some gin.NotUint \/
   gin.keys c "user_id" = Some (gin.Uint 0) ->
   UserHandler.GetProfile (Some repo) db c
   = Err (App {| Code := 401; Message := "Não autorizado";
                 Details := "ID do usuário inválido" |})).
Proof.
  unfold UserHandler.GetProfile, gin.GetUint. split.
  - intros ->. reflexivity.
  - intros [-> | ->]; reflexivity.
Qed.

(** X25. The change-password route checks the request before it calls
    the service: a body that does not bind, an empty current or new
    password, or a confirmation that differs from the new password ends
    in a 400 error with the store untouched, whoever the user is and
    whatever the stored hash. *)
Theorem change_password_route_validation (db : DB) (c : gin.Context)
  (bound : reply ChangePasswordRequest.t) :
  match bound with
  | Fail _ => True
  | Reply req =>
      ChangePasswordRequest.CurrentPassword req = "" \/
      ChangePasswordRequest.NewPassword req = "" \/
      ChangePasswordRequest.NewPassword req
      <> ChangePasswordRequest.ConfirmPassword req
  end ->
  exists details,
    UserHandler.ChangePassword (Some repo) crypt db c bound
    = (db, Err (App {| Code := 400; Message := "Requisição inválida";
                       Details := details |})).
Proof.
  unfold UserHandler.ChangePassword. cbv zeta.
  destruct bound as [req|e]; intros H; [|eexists; reflexivity].
  destruct (String.eqb_spec (ChangePasswordRequest.CurrentPassword req) "")
    as [Hc|Hc]; cbn [orb]; [eexists; reflexivity|].
  destruct (String.eqb_spec (ChangePasswordRequest.NewPassword req) "")
    as [Hn|Hn]; cbn [orb]; [eexists; reflexivity|].
  destruct (String.eqb_spec (ChangePasswordRequest.NewPassword req)
              (ChangePasswordRequest.ConfirmPassword req)) as [Hm|Hm];
    cbn [negb]; [|eexists; reflexivity].
  destruct H as [H|[H|H]]; contradiction.
Qed.

(** X26. The statuses of the change-password route, after
    [ErrorHandler]: 200 on success, 400 for a request refused by the
    handler, 401 for a wrong current password, 404 for an unknown user,
    500 otherwise. No other status comes out of it. *)
Theorem change_password_route_status (db db' : DB) (c : gin.Context)
  (bound : reply ChangePasswordRequest.t) (handled : result (Z * string))
  (status : Z) (body : middleware.body string) :
  UserHandler.ChangePassword (Some repo) crypt db c bound = (db', handled) ->
  middleware.ErrorHandler handled = Ok (status, body) ->
  status = 200 \/ status = 400 \/ status = 401 \/ status = 404 \/ status = 500.
Proof.
  intros H Hm. unfold UserHandler.ChangePassword in H. cbv zeta in H.
  destruct bound as [req|e].
  2:{ injection H as <- <-. cbn in Hm. injection Hm as <- <-. auto. }
  destruct (_ || _).
  { injection H as <- <-. cbn in Hm. injection Hm as <- <-. auto. }
  destruct (negb _).
  { injection H as <- <-. cbn in Hm. injection Hm as <- <-. auto. }
  unfold ChangePassword, findUser in H.
  destruct (UserRepository.GetByID repo db _) as [user|[|msg]].
  - destruct (bcrypt.CompareHashAndPassword crypt _ _).
    { injection H as <- <-. cbn in Hm. injection Hm as <- <-. auto. }
    destruct (bcrypt.GenerateFromPassword crypt _ _).
    + destruct (UserRepository.Update repo db _) as [[db1 u1] [err|]];
        injection H as <- <-; cbn in Hm; injection Hm as <- <-; auto 6.
    + injection H as <- <-. cbn in Hm. injection Hm as <- <-. auto 6.
  - injection H as <- <-. cbn in Hm. injection Hm as <- <-. auto 6.
  - injection H as <- <-. cbn in Hm. injection Hm as <- <-. auto 6.
Qed.

End ProfileHandlerFacts.

Lemma change_password_route_validation_witness :
  exists details,
    UserHandler.ChangePassword (Some SampleUsers.memoryRepo)
      SampleUsers.prefixCrypt SampleUsers.users (SampleUsers.contextOf None)
      (Reply {| ChangePasswordRequest.CurrentPassword := "segredo1";
                ChangePasswordRequest.NewPassword := "novaSenha456";
                ChangePasswordRequest.ConfirmPassword := "novaSenha457" |})
    = (SampleUsers.users,
       Err (App {| Code := 400; Message := "Requisição inválida";
                   Details := details |})).
Proof.
  apply (change_password_route_validation SampleUsers.memoryRepo
           SampleUsers.prefixCrypt SampleUsers.users (SampleUsers.contextOf None)
           (Reply {| ChangePasswordRequest.CurrentPassword := "segredo1";
                     ChangePasswordRequest.NewPassword := "novaSenha456";
                     ChangePasswordRequest.ConfirmPassword := "novaSenha457" |})).
  right. right. discriminate.
Defined.

Lemma change_password_route_status_witness :
  401 = 200 \/ 401 = 400 \/ 401 = 401 \/ 401 = 404 \/ 401 = 500.
Proof.
  apply (change_password_route_status SampleUsers.memoryRepo
           SampleUsers.prefixCrypt SampleUsers.users SampleUsers.users
           (SampleUsers.contextOf None)
           (Reply {| ChangePasswordRequest.CurrentPassword := "errada";
                     ChangePasswordRequest.NewPassword := "novaSenha456";
                     ChangePasswordRequest.ConfirmPassword := "novaSenha456" |})
           (Err (NewUnauthorizedError "Senha atual incorreta"))
           401 (middleware.ErrorJSON "Não autorizado"
                  (Some "Senha atual incorreta"))).
  - reflexivity.
  - reflexivity.
Defined.
